(** * HTML-to-Markdown parsers: a shallow embedding of [main_docs.py] and
    [main_lmsys.py]

    The two parsers ([DocsParser], [LMSYSParser]) read a page parsed by
    BeautifulSoup, pick a content region, clean it, rewrite parts of it and
    assemble a Markdown file.  This development embeds

    - the Python string operations the parsers call ([Py]),
    - the fragment of the [re] engine needed by the author/date pattern ([Re]),
    - [urllib.parse] as CPython 3.11 implements it ([Url]),
    - the BeautifulSoup tree with [find], [find_all], [select_one],
      [get_text], [decompose] and [replace_with] ([Bs4]),
    - the two parsers themselves ([DocsParser], [LMSYSParser]).

    A Python [str] is a sequence of code points; a [string] here is read as a
    sequence of code points below 256, one [ascii] per character. *)

From Stdlib Require Import List String Ascii Arith Bool Lia ZArith.
From Stdlib Require Import Numbers.DecimalString.
Import ListNotations.
Open Scope list_scope.
Open Scope string_scope.

Set Implicit Arguments.

(* ================================================================== *)
(** * Python strings *)
(* ================================================================== *)

Module Py.

(** Characters that cannot be written inside a literal. *)
Definition LF : ascii := "010"%char.
Definition CR : ascii := "013"%char.
Definition TAB : ascii := "009"%char.
Definition DQUOTE : ascii := "034"%char.

Definition nl : string := String LF "".

(** [c.isspace()] for a code point below 256. *)
Definition isspace (c : ascii) : bool :=
  let n := nat_of_ascii c in
  ((9 <=? n) && (n <=? 13) || (28 <=? n) && (n <=? 32)
   || (n =? 133) || (n =? 160))%nat.

(** [c.isdecimal()], which is what [\d] tests, below 256. *)
Definition isdigit (c : ascii) : bool :=
  let n := nat_of_ascii c in ((48 <=? n) && (n <=? 57))%nat.

Definition isupper_ascii (c : ascii) : bool :=
  let n := nat_of_ascii c in ((65 <=? n) && (n <=? 90))%nat.

Definition islower_ascii (c : ascii) : bool :=
  let n := nat_of_ascii c in ((97 <=? n) && (n <=? 122))%nat.

(** [c.isascii() and c.isalpha()], also the class [[A-Za-z]]. *)
Definition isalpha_ascii (c : ascii) : bool :=
  isupper_ascii c || islower_ascii c.

(** [bool(s)] of a string. *)
Definition truthy (s : string) : bool := negb (s =? "").

(** [s.lstrip()], [s.rstrip()] and [s.strip()] without argument. *)
Fixpoint lstrip (s : string) : string :=
  match s with
  | "" => ""
  | String c s' => if isspace c then lstrip s' else s
  end.

Fixpoint rstrip (s : string) : string :=
  match s with
  | "" => ""
  | String c s' =>
      match rstrip s' with
      | "" => if isspace c then "" else String c ""
      | r => String c r
      end
  end.

Definition strip (s : string) : string := rstrip (lstrip s).

(** [s.startswith(p)]. *)
Definition startswith (s p : string) : bool := prefix p s.

(** [s[:n]] and [s[n:]] for [n >= 0]. *)
Fixpoint take (n : nat) (s : string) : string :=
  match n, s with
  | S n', String c s' => String c (take n' s')
  | _, _ => ""
  end.

Fixpoint drop (n : nat) (s : string) : string :=
  match n, s with
  | S n', String _ s' => drop n' s'
  | _, _ => s
  end.

(** [sub in s]. *)
Fixpoint contains (sub s : string) : bool :=
  prefix sub s
  || match s with
     | "" => false
     | String _ s' => contains sub s'
     end.

(** [c in s] for one character. *)
Fixpoint mem (c : ascii) (s : string) : bool :=
  match s with
  | "" => false
  | String d s' => (c =? d)%char || mem c s'
  end.

(** [s.replace(old, new)] for a non-empty [old]: the occurrences of [old]
    are replaced from left to right, without overlap.  [skip] counts the
    characters of a matched occurrence still to be passed over. *)
Fixpoint replace_from (skip : nat) (old new s : string) : string :=
  match s with
  | "" => ""
  | String c s' =>
      match skip with
      | S k => replace_from k old new s'
      | O =>
          if prefix old s
          then new ++ replace_from (length old - 1) old new s'
          else String c (replace_from 0 old new s')
      end
  end.

Definition replace (s old new : string) : string := replace_from 0 old new s.

(** [s.split(c)[0]]: the text before the first [c], all of [s] without. *)
Fixpoint before (c : ascii) (s : string) : string :=
  match s with
  | "" => ""
  | String d s' => if (d =? c)%char then "" else String d (before c s')
  end.

(** [s.partition(c)[2]]: the text after the first [c], empty without. *)
Fixpoint after (c : ascii) (s : string) : string :=
  match s with
  | "" => ""
  | String d s' => if (d =? c)%char then s' else after c s'
  end.

(** [s.lower()] for code points below 256: the ASCII capitals and the
    Latin-1 capitals 192..222 (215, the multiplication sign, apart). *)
Definition lower_char (c : ascii) : ascii :=
  let n := nat_of_ascii c in
  if isupper_ascii c then ascii_of_nat (n + 32)
  else if ((192 <=? n) && (n <=? 222) && negb (n =? 215))%nat
       then ascii_of_nat (n + 32)
       else c.

Fixpoint lower (s : string) : string :=
  match s with
  | "" => ""
  | String c s' => String (lower_char c) (lower s')
  end.

(** [all(p(c) for c in s)] and the character-wise [map]. *)
Fixpoint all (p : ascii -> bool) (s : string) : bool :=
  match s with
  | "" => true
  | String c s' => p c && all p s'
  end.

Fixpoint map (f : ascii -> ascii) (s : string) : string :=
  match s with
  | "" => ""
  | String c s' => String (f c) (map f s')
  end.

(** [s.split(c)]: always at least one piece. *)
Fixpoint split (c : ascii) (s : string) : list string :=
  match s with
  | "" => [""]
  | String d s' =>
      match split c s' with
      | [] => [""]
      | p :: ps => if (d =? c)%char then "" :: p :: ps else String d p :: ps
      end
  end.

(** [c * n] for a one-character string. *)
Fixpoint repeat_char (c : ascii) (n : nat) : string :=
  match n with
  | O => ""
  | S k => String c (repeat_char c k)
  end.

(** [str(n)] of a non-negative integer. *)
Definition str_of_nat (n : nat) : string :=
  NilZero.string_of_uint (Nat.to_uint n).

(** Values that are [None] or a string, with [bool(v)] and [v or w]. *)
Definition value := option string.

Definition truthy_value (v : value) : bool :=
  match v with
  | Some s => truthy s
  | None => false
  end.

Definition or_ (v w : value) : value := if truthy_value v then v else w.

(** [v or d] where the last alternative [d] is a string. *)
Definition or_str (v : value) (d : string) : string :=
  match v with
  | Some s => if truthy s then s else d
  | None => d
  end.

(** [str(v)] inside an f-string. *)
Definition format_value (v : value) : string :=
  match v with
  | Some s => s
  | None => "None"
  end.

(** [v == w] for two values. *)
Definition value_eqb (v w : value) : bool :=
  match v, w with
  | Some a, Some b => a =? b
  | None, None => true
  | _, _ => false
  end.

(** [l[:k]] for an integer [k]: a negative [k] counts from the end. *)
Definition slice_to {A : Type} (k : Z) (l : list A) : list A :=
  if (0 <=? k)%Z then firstn (Z.to_nat k) l
  else firstn (List.length l - Z.to_nat (- k)) l.

End Py.

(* ================================================================== *)
(** * Exceptions *)
(* ================================================================== *)

(** A call either returns or raises.  Three exception classes occur:
    [ValueError] (raised inside [urllib.parse]), the plain [Exception]
    the parsers raise with a message, and [OSError], which [open] raises
    for a file it cannot create. *)
Inductive exn : Type :=
| ValueError
| Exception (msg : string)
| OSError.

Inductive result (A : Type) : Type :=
| Ok (a : A)
| Raise (e : exn).

Arguments Ok {A} a.
Arguments Raise {A} e.

Definition bind {A B : Type} (r : result A) (k : A -> result B) : result B :=
  match r with
  | Ok a => k a
  | Raise e => Raise e
  end.

Notation "x <- r ;; k" := (bind r (fun x => k))
  (at level 61, r at next level, right associativity).

(* ================================================================== *)
(** * The [re] engine, as far as the author/date pattern needs it *)
(* ================================================================== *)

(** A pattern is a sequence of pieces: a character class under a counted
    repetition (greedy or lazy), the start-of-text anchor, and the two ends
    of a capture group.  Matching is by backtracking in the order [re]
    tries the alternatives: a greedy repetition tries the longest run first
    and gives characters back one at a time, a lazy one starts with the
    fewest and takes one more each time; the first complete match wins. *)
Module Re.

Inductive quant : Type := Greedy | Lazy.

Inductive item : Type :=
| Rep (cls : ascii -> bool) (lo : nat) (hi : option nat) (q : quant)
| Bol
| Open (g : nat)
| Close (g : nat).

Definition pattern := list item.

(** One literal character. *)
Definition lit (c : ascii) : item := Rep (Ascii.eqb c) 1 (Some 1) Greedy.

(** The number of leading characters of [s] in [cls], at most [hi]. *)
Fixpoint run_length (cls : ascii -> bool) (hi : option nat) (s : string) : nat :=
  match s with
  | "" => 0
  | String c s' =>
      match hi with
      | Some O => 0
      | _ => if cls c then S (run_length cls (option_map pred hi) s') else 0
      end
  end.

(** The first success of [k n], [k (n-1)], ..., [k lo]. *)
Fixpoint first_down {A : Type} (k : nat -> option A) (lo n : nat) : option A :=
  if (n <? lo)%nat then None
  else match k n with
       | Some r => Some r
       | None =>
           match n with
           | O => None
           | S n' => first_down k lo n'
           end
       end.

(** The first success of [k n], [k (n+1)], ... over [count] tries. *)
Fixpoint first_up {A : Type} (k : nat -> option A) (n count : nat) : option A :=
  match count with
  | O => None
  | S c =>
      match k n with
      | Some r => Some r
      | None => first_up k (S n) c
      end
  end.

(** The positions where groups opened and closed, latest first. *)
Inductive mark : Type :=
| Opened (g pos : nat)
| Closed (g pos : nat).

Fixpoint exec (p : pattern) (s : string) (pos : nat) (ms : list mark)
  : option (list mark) :=
  match p with
  | [] => Some ms
  | Bol :: p' => if (pos =? 0)%nat then exec p' s pos ms else None
  | Open g :: p' => exec p' s pos (Opened g pos :: ms)
  | Close g :: p' => exec p' s pos (Closed g pos :: ms)
  | Rep cls lo hi q :: p' =>
      let m := run_length cls hi s in
      let k := fun n => exec p' (Py.drop n s) (pos + n) ms in
      match q with
      | Greedy => first_down k lo m
      | Lazy => first_up k lo (S m - lo)
      end
  end.

Fixpoint opened (g : nat) (ms : list mark) : option nat :=
  match ms with
  | [] => None
  | Opened h pos :: ms' => if (h =? g)%nat then Some pos else opened g ms'
  | Closed _ _ :: ms' => opened g ms'
  end.

Fixpoint closed (g : nat) (ms : list mark) : option nat :=
  match ms with
  | [] => None
  | Closed h pos :: ms' => if (h =? g)%nat then Some pos else closed g ms'
  | Opened _ _ :: ms' => closed g ms'
  end.

(** [m.group(g)] of a successful match against [s]. *)
Definition group (s : string) (ms : list mark) (g : nat) : string :=
  match opened g ms, closed g ms with
  | Some a, Some b => Py.take (b - a) (Py.drop a s)
  | _, _ => ""
  end.

(** [re.match(p, s)]: a match anchored at the start of [s]. *)
Definition match_ (p : pattern) (s : string) : option (list mark) :=
  exec p s 0 [].

End Re.

(* ================================================================== *)
(** * [urllib.parse] (CPython 3.11): [urlparse], [hostname], [urljoin] *)
(* ================================================================== *)

Module Url.

Definition uses_relative : list string :=
  [""; "ftp"; "http"; "gopher"; "nntp"; "imap"; "wais"; "file"; "https";
   "shttp"; "mms"; "prospero"; "rtsp"; "rtspu"; "sftp"; "svn"; "svn+ssh";
   "ws"; "wss"].

Definition uses_netloc : list string :=
  [""; "ftp"; "http"; "gopher"; "nntp"; "telnet"; "imap"; "wais"; "file";
   "mms"; "https"; "shttp"; "snews"; "prospero"; "rtsp"; "rtspu"; "rsync";
   "svn"; "svn+ssh"; "sftp"; "nfs"; "git"; "git+ssh"; "ws"; "wss"].

Definition uses_params : list string :=
  [""; "ftp"; "hdl"; "prospero"; "http"; "imap"; "https"; "shttp"; "rtsp";
   "rtspu"; "sip"; "sips"; "mms"; "sftp"; "tel"].

Definition scheme_chars : string :=
  "abcdefghijklmnopqrstuvwxyzABCDEFGHIJKLMNOPQRSTUVWXYZ0123456789+-.".

(** [x in l] for a list of strings. *)
Definition among (x : string) (l : list string) : bool :=
  existsb (String.eqb x) l.

(** [_WHATWG_C0_CONTROL_OR_SPACE] and [_UNSAFE_URL_BYTES_TO_REMOVE]. *)
Definition c0_or_space (c : ascii) : bool := (nat_of_ascii c <=? 32)%nat.

Definition unsafe_byte (c : ascii) : bool :=
  (c =? Py.TAB)%char || (c =? Py.CR)%char || (c =? Py.LF)%char.

Fixpoint lstrip_chars (p : ascii -> bool) (s : string) : string :=
  match s with
  | "" => ""
  | String c s' => if p c then lstrip_chars p s' else s
  end.

Fixpoint rstrip_chars (p : ascii -> bool) (s : string) : string :=
  match s with
  | "" => ""
  | String c s' =>
      match rstrip_chars p s' with
      | "" => if p c then "" else String c ""
      | r => String c r
      end
  end.

Fixpoint remove_chars (p : ascii -> bool) (s : string) : string :=
  match s with
  | "" => ""
  | String c s' => if p c then remove_chars p s' else String c (remove_chars p s')
  end.

(** [s[:j]] and [s[j:]] for [j] the first position of a character in [p],
    the length of [s] without one. *)
Fixpoint break_at (p : ascii -> bool) (s : string) : string * string :=
  match s with
  | "" => ("", "")
  | String c s' =>
      if p c then ("", s)
      else let (h, t) := break_at p s' in (String c h, t)
  end.

(** [s[:j]] and [s[j:]] for [j = s.rfind(c)], when [c] occurs in [s]. *)
Fixpoint rbreak_at (c : ascii) (s : string) : option (string * string) :=
  match s with
  | "" => None
  | String d s' =>
      match rbreak_at c s' with
      | Some (h, t) => Some (String d h, t)
      | None => if (d =? c)%char then Some ("", s) else None
      end
  end.

(** [s.rpartition(c)[2]]: the text after the last [c], all of [s] without. *)
Fixpoint after_last (c : ascii) (s : string) : string :=
  match s with
  | "" => ""
  | String d s' =>
      if Py.mem c s' then after_last c s'
      else if (d =? c)%char then s' else s
  end.

Record SplitResult : Type := mkSplit {
  s_scheme : string;
  s_netloc : string;
  s_path : string;
  s_query : string;
  s_fragment : string
}.

Record ParseResult : Type := mkParse {
  scheme : string;
  netloc : string;
  path : string;
  params : string;
  query : string;
  fragment : string
}.

Section Validators.

(** Two checks of [urlsplit] consult other modules and are taken as given:
    [_check_bracketed_netloc], which validates a bracketed host with
    [ipaddress], and the NFKC test [_checknetloc] runs on a netloc that is
    not ASCII with [unicodedata].  Each tells whether the check returns
    ([true]) or raises [ValueError] ([false]). *)
Variable check_bracketed_netloc : string -> bool.
Variable checknetloc_nfkc : string -> bool.

Definition isascii (s : string) : bool :=
  Py.all (fun c => (nat_of_ascii c <? 128)%nat) s.

Definition urlsplit (url scheme0 : string) : result SplitResult :=
  let url := lstrip_chars c0_or_space url in
  let scheme0 := rstrip_chars c0_or_space (lstrip_chars c0_or_space scheme0) in
  let url := remove_chars unsafe_byte url in
  let scheme0 := remove_chars unsafe_byte scheme0 in
  let '(sch, url) :=
    let pre := Py.before ":" url in
    if Py.mem ":" url
       && match pre with
          | "" => false
          | String c _ => Py.isalpha_ascii c
          end
       && Py.all (fun c => Py.mem c scheme_chars) pre
    then (Py.lower pre, Py.after ":" url)
    else (scheme0, url) in
  let '(net, url) :=
    if Py.take 2 url =? "//"
    then break_at (fun c => Py.mem c "/?#") (Py.drop 2 url)
    else ("", url) in
  let has_open := Py.mem "[" net in
  let has_close := Py.mem "]" net in
  if (has_open && negb has_close) || (has_close && negb has_open)
  then Raise ValueError
  else if has_open && has_close && negb (check_bracketed_netloc net)
  then Raise ValueError
  else
    let '(url, frag) :=
      if Py.mem "#" url then (Py.before "#" url, Py.after "#" url)
      else (url, "") in
    let '(url, qry) :=
      if Py.mem "?" url then (Py.before "?" url, Py.after "?" url)
      else (url, "") in
    if Py.truthy net && negb (isascii net) && negb (checknetloc_nfkc net)
    then Raise ValueError
    else Ok (mkSplit sch net url qry frag).

Definition splitparams (url : string) : string * string :=
  if Py.mem "/" url
  then match rbreak_at "/" url with
       | Some (h, t) =>
           if Py.mem ";" t
           then (h ++ Py.before ";" t, Py.after ";" t)
           else (url, "")
       | None => (url, "")
       end
  else (Py.before ";" url, Py.after ";" url).

Definition urlparse (url scheme0 : string) : result ParseResult :=
  r <- urlsplit url scheme0 ;;
  let '(url', prm) :=
    if among (s_scheme r) uses_params && Py.mem ";" (s_path r)
    then splitparams (s_path r)
    else (s_path r, "") in
  Ok (mkParse (s_scheme r) (s_netloc r) url' prm (s_query r) (s_fragment r)).

(** The [hostname] property of a parse result: [None] for an empty host. *)
Definition hostname (r : ParseResult) : Py.value :=
  let hostinfo := after_last "@" (netloc r) in
  let host :=
    if Py.mem "[" hostinfo
    then Py.before "]" (Py.after "[" hostinfo)
    else Py.before ":" hostinfo in
  if negb (Py.truthy host) then None
  else
    let h := Py.before "%" host in
    Some (Py.lower h ++ Py.drop (length h) host).

Definition urlunsplit (sch net url qry frag : string) : string :=
  let url :=
    if Py.truthy net
       || (Py.truthy sch && among sch uses_netloc
           && negb (Py.take 2 url =? "//"))
    then
      let url :=
        if Py.truthy url && negb (Py.take 1 url =? "/")
        then "/" ++ url else url in
      "//" ++ net ++ url
    else url in
  let url := if Py.truthy sch then sch ++ ":" ++ url else url in
  let url := if Py.truthy qry then url ++ "?" ++ qry else url in
  if Py.truthy frag then url ++ "#" ++ frag else url.

Definition urlunparse (sch net url prm qry frag : string) : string :=
  let url := if Py.truthy prm then url ++ ";" ++ prm else url in
  urlunsplit sch net url qry frag.

(** [del l[-1]]. *)
Definition drop_last (l : list string) : list string := removelast l.

(** [segments[1:-1] = filter(None, segments[1:-1])]. *)
Definition filter_middle (l : list string) : list string :=
  match l with
  | [] => []
  | [x] => [x]
  | x :: rest =>
      x :: (filter Py.truthy (removelast rest) ++ [last rest ""])%list
  end.

(** The loop over the segments; [stack] is [resolved_path], last first. *)
Fixpoint resolve (segments stack : list string) : list string :=
  match segments with
  | [] => rev stack
  | seg :: rest =>
      if seg =? ".." then resolve rest (tl stack)
      else if seg =? "." then resolve rest stack
      else resolve rest (seg :: stack)
  end.

Definition urljoin (base url : string) : result string :=
  if negb (Py.truthy base) then Ok url
  else if negb (Py.truthy url) then Ok base
  else
    b <- urlparse base "" ;;
    u <- urlparse url (scheme b) ;;
    if negb (scheme u =? scheme b) || negb (among (scheme u) uses_relative)
    then Ok url
    else if among (scheme u) uses_netloc && Py.truthy (netloc u)
    then Ok (urlunparse (scheme u) (netloc u) (path u) (params u)
               (query u) (fragment u))
    else
      let net := if among (scheme u) uses_netloc then netloc b else netloc u in
      if negb (Py.truthy (path u)) && negb (Py.truthy (params u))
      then
        let qry := if Py.truthy (query u) then query u else query b in
        Ok (urlunparse (scheme u) net (path b) (params b) qry (fragment u))
      else
        let base_parts := Py.split "/" (path b) in
        let base_parts :=
          if last base_parts "" =? "" then base_parts
          else drop_last base_parts in
        let segments :=
          if Py.take 1 (path u) =? "/" then Py.split "/" (path u)
          else filter_middle (base_parts ++ Py.split "/" (path u))%list in
        let resolved := resolve segments [] in
        let resolved :=
          if among (last segments "") ["."; ".."] then (resolved ++ [""])%list
          else resolved in
        let joined := String.concat "/" resolved in
        Ok (urlunparse (scheme u) net
              (if Py.truthy joined then joined else "/")
              (params u) (query u) (fragment u)).

End Validators.

End Url.

(* ================================================================== *)
(** * The BeautifulSoup tree *)
(* ================================================================== *)

(** A parsed page is a tree of tags and strings.  A tag has a name, the
    list of its class tokens ([tag.get("class")], which BeautifulSoup keeps
    as a list; the empty list stands for a tag without the attribute), its
    other attributes as a dictionary from names to strings, kept in
    insertion order, and its children.  The [BeautifulSoup] object itself is
    the tag named [[document]].  A string is either a plain
    [NavigableString] ([Text]) or a string of another class ([Special]): a
    comment, a doctype, a declaration and, for the versions of
    BeautifulSoup that tell them apart, the text of a script, a style or a
    template.  [get_text] leaves the special strings out; a serialisation
    shows them. *)
Module Bs4.

#[local] Unset Elimination Schemes.

Inductive node : Type :=
| Text (s : string)
| Special (s : string)
| Elem (name : string) (classes : list string)
       (attrs : list (string * string)) (children : list node).

#[local] Set Elimination Schemes.

(** Induction over a tree, with the hypothesis for every child. *)
Section NodeInduction.
Variable P : node -> Prop.
Hypothesis HText : forall s, P (Text s).
Hypothesis HSpecial : forall s, P (Special s).
Hypothesis HElem : forall nm cl ats cs, Forall P cs -> P (Elem nm cl ats cs).

Fixpoint node_induction (n : node) : P n :=
  match n with
  | Text s => HText s
  | Special s => HSpecial s
  | Elem nm cl ats cs =>
      HElem nm cl ats
        ((fix children_ok (l : list node) : Forall P l :=
            match l with
            | [] => Forall_nil P
            | c :: l' => Forall_cons c (node_induction c) (children_ok l')
            end) cs)
  end.
End NodeInduction.

Definition document (children : list node) : node :=
  Elem "[document]" [] [] children.

Definition is_elem (n : node) : bool :=
  match n with
  | Text _ => false
  | Special _ => false
  | Elem _ _ _ _ => true
  end.

Definition children_of (n : node) : list node :=
  match n with
  | Text _ => []
  | Special _ => []
  | Elem _ _ _ cs => cs
  end.

Definition classes_of (n : node) : list string :=
  match n with
  | Text _ => []
  | Special _ => []
  | Elem _ cl _ _ => cl
  end.

(** A dictionary lookup, and [d[k] = v]. *)
Fixpoint lookup (k : string) (d : list (string * string)) : option string :=
  match d with
  | [] => None
  | (k', v) :: d' => if k' =? k then Some v else lookup k d'
  end.

Fixpoint store (k v : string) (d : list (string * string))
  : list (string * string) :=
  match d with
  | [] => [(k, v)]
  | (k', v') :: d' => if k' =? k then (k, v) :: d' else (k', v') :: store k v d'
  end.

(** [tag.get(k)] for an attribute other than [class]. *)
Definition get (k : string) (n : node) : Py.value :=
  match n with
  | Text _ => None
  | Special _ => None
  | Elem _ _ ats _ => lookup k ats
  end.

(** [tag.name == nm], and [tag.name in names]. *)
Definition is_tag (nm : string) (n : node) : bool :=
  match n with
  | Text _ => false
  | Special _ => false
  | Elem nm' _ _ _ => nm' =? nm
  end.

Definition is_tag_in (names : list string) (n : node) : bool :=
  existsb (fun nm => is_tag nm n) names.

(** A tag [nm] whose attribute [k] is exactly [v]:
    [find(nm, attrs={k: v})]. *)
Definition is_tag_with (nm k v : string) (n : node) : bool :=
  is_tag nm n
  && match get k n with
     | Some v' => v' =? v
     | None => false
     end.

(** [t and k(t)] for [t] a tag or [None]; a tag is always true. *)
Definition and_then (t : option node) (k : node -> Py.value) : Py.value :=
  match t with
  | Some e => k e
  | None => None
  end.

(** [tag.descendants]: every node below a tag, in document order. *)
Fixpoint descendants (n : node) : list node :=
  match n with
  | Text _ => []
  | Special _ => []
  | Elem _ _ _ cs => flat_map (fun c => c :: descendants c) cs
  end.

(** [tag.find_all(...)] and [tag.find(...)] for a test on tags. *)
Definition find_all (p : node -> bool) (n : node) : list node :=
  filter p (descendants n).

Definition find (p : node -> bool) (n : node) : option node :=
  List.find p (descendants n).

(** [tag.find_all(nm, recursive=False)]. *)
Definition find_children (p : node -> bool) (n : node) : list node :=
  filter p (children_of n).

(** The strings below a node, in document order; [get_text()] joins them,
    [get_text(strip=True)] strips each one first and drops the empty ones. *)
Fixpoint strings (n : node) : list string :=
  match n with
  | Text s => [s]
  | Special _ => []
  | Elem _ _ _ cs => flat_map strings cs
  end.

Definition get_text (n : node) : string := String.concat "" (strings n).

Definition get_text_strip (n : node) : string :=
  String.concat "" (filter Py.truthy (List.map Py.strip (strings n))).

(** ** Selectors

    The selectors the parsers pass to [select_one] are compound selectors:
    an optional tag name, class tokens and attribute tests [[k="v"]] and
    [[k*="v"]].  An attribute test reads the class list joined by spaces. *)
Inductive attr_test : Type :=
| Equals (k v : string)
| Contains (k v : string).

Record selector : Type := mkSelector {
  sel_tag : option string;
  sel_classes : list string;
  sel_attrs : list attr_test
}.

Definition lower_ascii (s : string) : string :=
  Py.map (fun c => if Py.isupper_ascii c
                   then ascii_of_nat (nat_of_ascii c + 32) else c) s.

Definition attr_text (k : string) (n : node) : Py.value :=
  if k =? "class"
  then match classes_of n with
       | [] => None
       | cl => Some (String.concat " " cl)
       end
  else get k n.

(** [[k="v"]] is compiled to the regular expression [^v$], whose [$] also
    matches before a final line feed. *)
Definition attr_holds (t : attr_test) (n : node) : bool :=
  match t with
  | Equals k v =>
      match attr_text k n with
      | Some x => (x =? v) || (x =? v ++ Py.nl)
      | None => false
      end
  | Contains k v =>
      match attr_text k n with
      | Some x => Py.contains v x
      | None => false
      end
  end.

Definition matches (sel : selector) (n : node) : bool :=
  match n with
  | Text _ => false
  | Special _ => false
  | Elem nm cl _ _ =>
      match sel_tag sel with
      | Some t => lower_ascii nm =? lower_ascii t
      | None => true
      end
      && forallb (fun c => existsb (String.eqb c) cl) (sel_classes sel)
      && forallb (fun t => attr_holds t n) (sel_attrs sel)
  end.

Definition select_one (sel : selector) (n : node) : option node :=
  find (matches sel) n.

(** ** Changing the tree

    A loop [for e in region.find_all(...): ... e.replace_with(...)] first
    collects the matching tags in document order and then visits them.  A tag
    is visited after its ancestors; when an ancestor was replaced the tag
    hangs in a detached subtree and what happens to it cannot be seen from
    the region.  The visible effect is therefore a descent from the region:
    a child for which [f] gives replacement nodes is replaced, as it stood in
    the original tree, and not entered; any other child is entered. *)
Fixpoint rewrite (f : node -> option (list node)) (n : node) : node :=
  match n with
  | Text s => Text s
  | Special s => Special s
  | Elem nm cl ats cs =>
      Elem nm cl ats
        (flat_map (fun c => match f c with
                            | Some l => l
                            | None => [rewrite f c]
                            end) cs)
  end.

(** [for e in region.find_all(p): e.decompose()]. *)
Definition decompose_all (p : node -> bool) (n : node) : node :=
  rewrite (fun c => if p c then Some [] else None) n.

(** [for e in region.find_all(nm): e[k] = ...]: every tag named [nm] below
    the region gets the attributes [g] computes from its own, in document
    order; the first exception ends the loop. *)
Fixpoint visit (nm : string)
  (g : list (string * string) -> result (list (string * string))) (n : node)
  : result node :=
  match n with
  | Text s => Ok (Text s)
  | Special s => Ok (Special s)
  | Elem nm' cl ats cs =>
      ats' <- (if nm' =? nm then g ats else Ok ats) ;;
      cs' <- (fix go (l : list node) : result (list node) :=
                match l with
                | [] => Ok []
                | c :: l' =>
                    c' <- visit nm g c ;;
                    r <- go l' ;;
                    Ok (c' :: r)
                end) cs ;;
      Ok (Elem nm' cl ats' cs')
  end.

Fixpoint visit_list (nm : string)
  (g : list (string * string) -> result (list (string * string)))
  (l : list node) : result (list node) :=
  match l with
  | [] => Ok []
  | c :: l' =>
      c' <- visit nm g c ;;
      r <- visit_list nm g l' ;;
      Ok (c' :: r)
  end.

Definition update_all (nm : string)
  (g : list (string * string) -> result (list (string * string)))
  (n : node) : result node :=
  match n with
  | Text s => Ok (Text s)
  | Special s => Ok (Special s)
  | Elem nm' cl ats cs =>
      cs' <- visit_list nm g cs ;;
      Ok (Elem nm' cl ats cs')
  end.

(** A change at [region.find(p)]: the first tag below [n] that passes [p],
    in document order, gives way to the nodes [f] makes of it; [None] when
    no tag passes.  A tag found by [find] or [select_one] is a reference
    into the tree it was found in, so changing it changes that tree. *)
Fixpoint change_first (p : node -> bool) (f : node -> list node) (n : node)
  : option node :=
  match n with
  | Text _ => None
  | Special _ => None
  | Elem nm cl ats cs =>
      option_map (Elem nm cl ats)
        ((fix go (l : list node) : option (list node) :=
            match l with
            | [] => None
            | c :: l' =>
                if p c then Some (f c ++ l')%list
                else match change_first p f c with
                     | Some c' => Some (c' :: l')
                     | None => option_map (cons c) (go l')
                     end
            end) cs)
  end.

(** [region.find(p).decompose()]. *)
Definition decompose_first (p : node -> bool) (n : node) : option node :=
  change_first p (fun _ => []) n.

(** ** The tree as a stream

    What a serialisation of a tree can show: the opening of a tag with its
    name, classes and attributes, a string, the closing of a tag. *)
Inductive token : Type :=
| TOpen (name : string) (classes : list string) (attrs : list (string * string))
| TText (s : string)
| TSpecial (s : string)
| TClose.

Fixpoint node_tokens (n : node) : list token :=
  match n with
  | Text s => [TText s]
  | Special s => [TSpecial s]
  | Elem nm cl ats cs =>
      (TOpen nm cl ats :: flat_map node_tokens cs ++ [TClose])%list
  end.

(** The stream of the contents of a tag, its own opening and closing left
    out, as [decode_contents] serialises it. *)
Definition tokens (n : node) : list token :=
  flat_map node_tokens (children_of n).

(** ** [select] with a descendant combinator

    [soup.select("X a")] for two compound selectors: the tags below [soup]
    that match the second and stand inside a tag that matches the first, in
    document order.  Every ancestor counts, the tag [select] is called on
    included; [inside] tells whether one of them matches. *)
Fixpoint select_in (anc sel : selector) (inside : bool) (n : node)
  : list node :=
  match n with
  | Text _ => []
  | Special _ => []
  | Elem _ _ _ cs =>
      flat_map (fun c =>
                  ((if inside && matches sel c then [c] else [])
                   ++ select_in anc sel (inside || matches anc c) c)%list) cs
  end.

Definition select (anc sel : selector) (n : node) : list node :=
  select_in anc sel (matches anc n) n.

End Bs4.

(* ================================================================== *)
(** * [main_docs.py]: the documentation-site parser *)
(* ================================================================== *)

Module DocsParser.
Import Bs4.

(** The nine characters of the class given to [re.sub]: backslash, slash,
    colon, star, question mark, double quote, the two angle brackets and
    the bar. *)
Definition illegal (c : ascii) : bool :=
  Py.mem c "\/:*?<>|" || (c =? Py.DQUOTE)%char.

(** [re.sub] of that class by an underscore. *)
Definition sub_illegal (title : string) : string :=
  Py.map (fun c => if illegal c then "_"%char else c) title.

(** The value of [title] before it is cleaned: the chain of [and] and
    [or] in [extract_title]. *)
Definition first_title (soup : node) : string :=
  Py.or_str
    (Py.or_
       (Py.or_
          (Py.or_
             (and_then (find (is_tag_with "meta" "property" "og:title") soup)
                (get "content"))
             (and_then (find (is_tag_with "meta" "name" "twitter:title") soup)
                (get "content")))
          (and_then (find (is_tag "h1") soup)
             (fun h1 => Some (get_text_strip h1))))
       (and_then (find (is_tag "title") soup)
          (fun t => Some (Py.strip (Py.before "|" (get_text_strip t))))))
    "Untitled".

Definition extract_title (soup : node) (url : string) : string :=
  let title := first_title soup in
  let title := sub_illegal title in
  Py.take 100 title.

Definition content_selectors : list selector :=
  [ mkSelector (Some "article") [] [];
    mkSelector (Some "main") [] [];
    mkSelector None [] [Equals "role" "main"];
    mkSelector None ["document"] [];
    mkSelector None ["content"] [];
    mkSelector None ["post-content"] [];
    mkSelector None ["markdown-body"] [];
    mkSelector None ["md"] [];
    mkSelector (Some "div") ["document"] [];
    mkSelector (Some "div") ["body"] [];
    mkSelector (Some "div") [] [Equals "role" "main"] ].

(** The loop over the selectors: the first one [select_one] answers. *)
Fixpoint select_first (sels : list selector) (soup : node) : option selector :=
  match sels with
  | [] => None
  | sel :: rest =>
      match select_one sel soup with
      | Some _ => Some sel
      | None => select_first rest soup
      end
  end.

(** The test whose first match [content] is after the loop and the
    fallback to [soup.find('body')]. *)
Definition locator (soup : node) : node -> bool :=
  match select_first content_selectors soup with
  | Some sel => matches sel
  | None => is_tag "body"
  end.

Definition locate (soup : node) : option node := find (locator soup) soup.

Definition non_content : list string :=
  ["nav"; "header"; "footer"; "aside"; ".sidebar"; ".navigation"; ".menu"].

Definition scripts_and_styles : list string := ["script"; "style"; "link"].

(** The two [decompose] loops of [extract_content]. *)
Definition sanitize (content : node) : node :=
  decompose_all (is_tag_in scripts_and_styles)
    (decompose_all (is_tag_in non_content) content).

(** [extract_content] returns the content it found, cleaned where it
    stands: the page changes with it, and the page after the call is the
    first component. *)
Definition extract_content (soup : node) (url : string) : node * option node :=
  match locate soup with
  | Some content =>
      (match change_first (locator soup) (fun c => [sanitize c]) soup with
       | Some soup' => soup'
       | None => soup
       end,
       Some (sanitize content))
  | None => (soup, None)
  end.

Record metadata : Type := mkMetadata {
  author : string;
  date : string;
  description : string
}.

Definition extract_metadata (soup : node) (content : option node) : metadata :=
  mkMetadata "Docs" ""
    match find (is_tag_with "meta" "name" "description") soup with
    | Some desc =>
        match get "content" desc with
        | Some v => v
        | None => ""
        end
    | None => ""
    end.

(** The bare class names [preprocess_content] takes for languages. *)
Definition known_languages : list string :=
  ["python"; "javascript"; "java"; "cpp"; "c"; "bash"; "shell"; "json";
   "yaml"; "xml"; "html"; "css"].

(** The language of a code block as [preprocess_content] reads it from the
    class list; the loop keeps the value in a local and goes on. *)
Fixpoint lang_class (classes : list string) : Py.value :=
  match classes with
  | [] => None
  | cls :: rest =>
      if Py.startswith cls "language-"
      then Some (Py.replace cls "language-" "")
      else if Url.among cls known_languages then Some cls
      else lang_class rest
  end.

Section External.

(** [markdownify.markdownify], [Tag.decode_contents] and
    [utils.util.get_valid_filename] are called, not defined, by the parser;
    so are the two checks inside [urlsplit]. *)
Variable md : string -> string.
Variable decode_contents : node -> string.
Variable get_valid_filename : string -> string.
Variable check_bracketed_netloc : string -> bool.
Variable checknetloc_nfkc : string -> bool.

Definition urlparse := Url.urlparse check_bracketed_netloc checknetloc_nfkc.
Definition urljoin := Url.urljoin check_bracketed_netloc checknetloc_nfkc.

(** The body of the loop over [content.find_all('img')], on the
    attributes of one [img]. *)
Definition img_attrs (base_url : string) (ats : list (string * string))
  : result (list (string * string)) :=
  match Py.or_ (lookup "src" ats) (lookup "data-src" ats) with
  | Some src =>
      if Py.truthy src then
        ats <- (if Py.startswith src "/"
                then u <- urljoin base_url src ;; Ok (store "src" u ats)
                else if negb (Py.startswith src "http")
                then u <- urljoin base_url src ;; Ok (store "src" u ats)
                else Ok ats) ;;
        Ok (if negb (Py.truthy_value (lookup "alt" ats))
            then store "alt" "" ats else ats)
      else Ok ats
  | None => Ok ats
  end.

(** The body of the loop over [content.find_all('a')]. *)
Definition a_attrs (base_url : string) (ats : list (string * string))
  : result (list (string * string)) :=
  match lookup "href" ats with
  | Some href =>
      if Py.truthy href && Py.startswith href "/"
      then u <- urljoin base_url href ;; Ok (store "href" u ats)
      else Ok ats
  | None => Ok ats
  end.

(** [preprocess_content] for a content that is not [None]; the loop over
    the code blocks in between changes nothing. *)
Definition preprocess_content (content : node) (base_url : string)
  : result node :=
  content <- update_all "img" (img_attrs base_url) content ;;
  update_all "a" (a_attrs base_url) content.

(** [f"{index:02d}"]. *)
Definition two_digits (n : nat) : string :=
  let s := Py.str_of_nat n in
  if (length s <? 2)%nat then "0" ++ s else s.

(** [base_url = f"{urlparse(url).scheme}://{urlparse(url).hostname}"]. *)
Definition base_url_of (url : string) : result string :=
  r <- urlparse url "" ;;
  Ok (Url.scheme r ++ "://" ++ Py.format_value (Url.hostname r)).

(** The text [save_document] builds from the title, the page address, the
    description and the converted body. *)
Definition full_markdown (title url descr markdown_content : string) : string :=
  let full := "# " ++ title ++ Py.nl ++ Py.nl in
  let full := full ++ "**Source:** " ++ url ++ Py.nl ++ Py.nl in
  let full := if Py.truthy descr
              then full ++ "> " ++ descr ++ Py.nl ++ Py.nl else full in
  let full := full ++ "---" ++ Py.nl ++ Py.nl in
  full ++ markdown_content.

(** A file written: its path and its text. *)
Definition written : Type := (string * string)%type.

(** [save_document]: [None] without content, else the file it writes.
    Whether [open] can create the file is left to the file system and not
    told here: the result is the file the call gets to write. *)
Definition save_document (title : string) (content : option node)
  (meta : metadata) (url : string) (index : nat) : result (option written) :=
  match content with
  | None => Ok None
  | Some content =>
      let filename :=
        if (0 <? index)%nat
        then get_valid_filename (two_digits index ++ "_" ++ title)
        else get_valid_filename title in
      base_url <- base_url_of url ;;
      content <- preprocess_content content base_url ;;
      let markdown_content := md (decode_contents content) in
      Ok (Some (filename ++ ".md",
                full_markdown title url (description meta) markdown_content))
  end.

(** [download_single] once the page is fetched and parsed. *)
Definition download_single (soup : node) (url : string)
  : result (option written) :=
  let title := extract_title soup url in
  let '(soup, content) := extract_content soup url in
  let meta := extract_metadata soup content in
  save_document title content meta url 0.

Definition DOCS_DOMAINS : list string :=
  [ "docs.nvda.net.cn"; "docs.pytorch.org"; "docs.huggingface.co";
    "tensorflow.org"; "keras.io"; "docs.rs"; "readthedocs.io";
    "docs.scipy.org"; "docs.djangoproject.com"; "docs.oracle.com";
    "developer.mozilla.org" ].

(** [is_docs_url]: a known domain inside the host name, or a path that
    holds [/docs/] or starts with [/docs]. *)
Definition is_docs_url (url : string) : result bool :=
  parsed <- urlparse url "" ;;
  let hostname := Py.or_str (Url.hostname parsed) "" in
  if existsb (fun domain => Py.contains domain hostname) DOCS_DOMAINS
  then Ok true
  else
    let path := Py.lower (Url.path parsed) in
    if Py.contains "/docs/" path || Py.startswith path "/docs"
    then Ok true
    else Ok false.

(** The selectors of [find_related_links], each an ancestor and the
    anchor below it. *)
Definition nav_selectors : list (selector * selector) :=
  let a := mkSelector (Some "a") [] [] in
  [ (mkSelector None ["sidebar"] [], a);
    (mkSelector None ["nav-list"] [], a);
    (mkSelector None ["toc"] [], a);
    (mkSelector None ["table-of-contents"] [], a);
    (mkSelector (Some "nav") [] [], a);
    (mkSelector None [] [Equals "role" "navigation"], a);
    (mkSelector None ["menu"] [], a);
    (mkSelector None ["docs-navigation"] [], a);
    (mkSelector None ["sidebar-nav"] [], a);
    (mkSelector None ["bd-sidebar"] [], a);
    (mkSelector None ["wy-nav-side"] [], a) ].

(** The body of the loop over [nav_links]: what one anchor adds to
    [links]. *)
Definition related_link (base_url : string) (a : node) : result (list string) :=
  match get "href" a with
  | Some href =>
      if Py.truthy href && negb (Py.startswith href "#")
         && negb (Py.startswith href "javascript:")
      then
        full_url <- urljoin base_url href ;;
        p <- urlparse full_url "" ;;
        b <- urlparse base_url "" ;;
        if Py.value_eqb (Url.hostname p) (Url.hostname b)
        then Ok [full_url] else Ok []
      else Ok []
  | None => Ok []
  end.

Fixpoint collect_links (base_url : string) (nav_links : list node)
  (links : list string) : result (list string) :=
  match nav_links with
  | [] => Ok links
  | a :: rest =>
      l <- related_link base_url a ;;
      collect_links base_url rest (links ++ l)%list
  end.

(** The loop over the selectors: it ends at the first selector with more
    than one anchor that leaves [links] non-empty. *)
Fixpoint nav_loop (sels : list (selector * selector)) (soup : node)
  (base_url : string) (links : list string) : result (list string) :=
  match sels with
  | [] => Ok links
  | (anc, sel) :: rest =>
      let nav_links := select anc sel soup in
      if (1 <? List.length nav_links)%nat
      then
        links <- collect_links base_url nav_links links ;;
        match links with
        | _ :: _ => Ok links
        | [] => nav_loop rest soup base_url links
        end
      else nav_loop rest soup base_url links
  end.

(** [list(set(links))]: the members of [links], each once, in the order
    the hash table of the set yields them, which the parser does not
    control. *)
Variable list_of_set : list string -> list string.

Definition find_related_links (soup : node) (base_url : string)
  : result (list string) :=
  links <- nav_loop nav_selectors soup base_url [] ;;
  Ok (list_of_set links).

(** ** The crawl

    [fetch_page] answers a parsed page or [None].  The parser object keeps
    the set [visited_urls]; next to it stand the files written so far, in
    the order they were written. *)
Variable fetch_page : string -> option node.

Record crawl : Type := mkCrawl {
  visited_urls : list string;
  files : list written
}.

Definition visit_url (url : string) (st : crawl) : crawl :=
  mkCrawl (if Url.among url (visited_urls st) then visited_urls st
           else url :: visited_urls st)
          (files st).

Definition wrote (w : option written) (st : crawl) : crawl :=
  match w with
  | Some f => mkCrawl (visited_urls st) (files st ++ [f])%list
  | None => st
  end.

(** Title, content, metadata and [save_document] for a fetched page, as
    [download_single] and [download_section] run them. *)
Definition save_page (soup : node) (url : string) (index : nat)
  : result (option written) :=
  let title := extract_title soup url in
  let '(soup, content) := extract_content soup url in
  let meta := extract_metadata soup content in
  save_document title content meta url index.

(** The page after [save_page]: the content was cleaned by
    [extract_content] and its addresses were rewritten by
    [preprocess_content] where it stands in the page. *)
Definition saved_page (soup : node) (url : string) : result node :=
  match locate soup with
  | Some content =>
      base_url <- base_url_of url ;;
      content <- preprocess_content (sanitize content) base_url ;;
      Ok match change_first (locator soup) (fun _ => [content]) soup with
         | Some soup' => soup'
         | None => soup
         end
  | None => Ok soup
  end.

(** The loop over [related_links[:max_pages-1]]. *)
Fixpoint related_pages (links : list string) (index : nat) (st : crawl)
  : crawl * result unit :=
  match links with
  | [] => (st, Ok tt)
  | link :: rest =>
      if Url.among link (visited_urls st)
      then related_pages rest index st
      else
        match fetch_page link with
        | Some link_soup =>
            let st := visit_url link st in
            match save_page link_soup link index with
            | Ok w => related_pages rest (S index) (wrote w st)
            | Raise e => (st, Raise e)
            end
        | None => related_pages rest index st
        end
  end.

(** [download_section]; [now] is [int(time.time())].  The files are
    written inside the directory it returns; the calls of [os] that make
    and enter the directory are taken to succeed. *)
Definition download_section (now : nat) (url : string) (max_pages : Z)
  (st : crawl) : crawl * result string :=
  let dir_name := get_valid_filename ("docs_" ++ Py.str_of_nat now) in
  match fetch_page url with
  | None => (st, Raise (Exception ("Failed to fetch page: " ++ url)))
  | Some soup =>
      match save_page soup url 0 with
      | Raise e => (st, Raise e)
      | Ok w =>
          let st := wrote w st in
          match (soup <- saved_page soup url ;; find_related_links soup url) with
          | Raise e => (st, Raise e)
          | Ok related_links =>
              let st := visit_url url st in
              let '(st, r) :=
                related_pages (Py.slice_to (max_pages - 1) related_links) 1 st in
              (st, _ <- r ;; Ok dir_name)
          end
      end
  end.

(** [judge_type]: one page when [max_pages] is 1, the section otherwise;
    it returns the path of the file, [None], or the directory. *)
Definition judge_type (now : nat) (target_link : string) (max_pages : Z)
  (st : crawl) : crawl * result Py.value :=
  if (max_pages =? 1)%Z
  then
    match fetch_page target_link with
    | None =>
        (st, Raise (Exception ("Failed to fetch page: " ++ target_link)))
    | Some soup =>
        match download_single soup target_link with
        | Ok w => (wrote w st, Ok (option_map fst w))
        | Raise e => (st, Raise e)
        end
    end
  else
    let '(st, r) := download_section now target_link max_pages st in
    (st, dir_name <- r ;; Ok (Some dir_name)).

End External.

End DocsParser.

(* ================================================================== *)
(** * [main_lmsys.py]: the blog parser *)
(* ================================================================== *)

Module LMSYSParser.
Import Bs4.

(** [^by:\s*(.+?)\s*,\s*([A-Za-z]+\s+\d+,\s*\d{4})]. *)
Definition by_pattern : Re.pattern :=
  [ Re.Bol; Re.lit "b"; Re.lit "y"; Re.lit ":";
    Re.Rep Py.isspace 0 None Re.Greedy;
    Re.Open 1;
    Re.Rep (fun c => negb (c =? Py.LF)%char) 1 None Re.Lazy;
    Re.Close 1;
    Re.Rep Py.isspace 0 None Re.Greedy;
    Re.lit ",";
    Re.Rep Py.isspace 0 None Re.Greedy;
    Re.Open 2;
    Re.Rep Py.isalpha_ascii 1 None Re.Greedy;
    Re.Rep Py.isspace 1 None Re.Greedy;
    Re.Rep Py.isdigit 1 None Re.Greedy;
    Re.lit ",";
    Re.Rep Py.isspace 0 None Re.Greedy;
    Re.Rep Py.isdigit 4 (Some 4) Re.Greedy;
    Re.Close 2 ].

(** [extract_author_and_date] returns the author and the date; the content
    element it was given changes when the pattern matches, and the element
    after the call is the second component. *)
Definition extract_author_and_date (content_element : node)
  : (string * Py.value) * node :=
  let author := "LMSYS Team" in
  let date : Py.value := None in
  match find (is_tag "p") content_element with
  | Some first_paragraph =>
      let text := get_text_strip first_paragraph in
      match Re.match_ by_pattern text with
      | Some m =>
          let author := Py.strip (Re.group text m 1) in
          let date := Some (Py.strip (Re.group text m 2)) in
          ((author, date),
           match decompose_first (is_tag "p") content_element with
           | Some c => c
           | None => content_element
           end)
      | None => ((author, date), content_element)
      end
  | None => ((author, date), content_element)
  end.

(** The language of a code block: the first class token that starts with
    [language-], with [language-] taken out. *)
Fixpoint lang_class (classes : list string) : Py.value :=
  match classes with
  | [] => None
  | cls :: rest =>
      if Py.startswith cls "language-"
      then Some (Py.replace cls "language-" "")
      else lang_class rest
  end.

(** The first two loops of [save_and_transform]: the [style] tags go,
    then the [script] tags. *)
Definition sanitize (content_element : node) : node :=
  decompose_all (is_tag "script")
    (decompose_all (is_tag "style") content_element).

Definition fence : string := "```".

(** The text that replaces a [pre] whose first [code] descendant is [code]. *)
Definition markdown_code (code : node) : string :=
  let lang := lang_class (classes_of code) in
  let code_text := get_text code in
  if Py.truthy_value lang
  then Py.nl ++ fence ++ Py.format_value lang ++ Py.nl ++ code_text
       ++ Py.nl ++ fence ++ Py.nl
  else Py.nl ++ fence ++ Py.nl ++ code_text ++ Py.nl ++ fence ++ Py.nl.

Definition markdown_img (img_url : string) (img : node) : string :=
  let alt_text := match get "alt" img with
                  | Some a => a
                  | None => ""
                  end in
  if Py.truthy alt_text
  then "![" ++ alt_text ++ "](" ++ img_url ++ ")"
  else "![](" ++ img_url ++ ")".

Definition markdown_link (href : string) (link : node) : string :=
  "[" ++ get_text_strip link ++ "](" ++ href ++ ")".

Definition headers : list string := ["h1"; "h2"; "h3"; "h4"; "h5"; "h6"].

(** [int(header.name[1])] for a name among [headers]. *)
Definition header_level (n : node) : nat :=
  match n with
  | Elem (String _ (String d _)) _ _ _ => nat_of_ascii d - 48
  | _ => 0
  end.

Definition markdown_header (header : node) : string :=
  Py.repeat_char "#" (header_level header) ++ " " ++ get_text_strip header.

Definition markdown_quote (blockquote : node) : string :=
  "> " ++ get_text_strip blockquote.

(** The loop over the items of an unordered list. *)
Fixpoint ul_loop (items : list node) (markdown_list : string) : string :=
  match items with
  | [] => markdown_list
  | li :: rest =>
      ul_loop rest (markdown_list ++ "- " ++ get_text_strip li ++ Py.nl)
  end.

Definition ul_markdown (ul : node) : string :=
  ul_loop (find_children (is_tag "li") ul) "".

(** The loop over [enumerate(items, 1)] of an ordered list. *)
Fixpoint ol_loop (items : list node) (idx : nat) (markdown_list : string)
  : string :=
  match items with
  | [] => markdown_list
  | li :: rest =>
      ol_loop rest (S idx)
        (markdown_list ++ Py.str_of_nat idx ++ ". " ++ get_text_strip li
         ++ Py.nl)
  end.

Definition ol_markdown (ol : node) : string :=
  ol_loop (find_children (is_tag "li") ol) 1 "".

Section External.

(** Called, not defined, by the parser: [markdownify.markdownify],
    [Tag.decode_contents], [utils.util.get_valid_filename] and
    [utils.util.insert_new_line(soup, element, n)], which puts nodes next to
    [element]; what it puts before and after is taken as given. *)
Variable md : string -> string.
Variable decode_contents : node -> string.
Variable get_valid_filename : string -> string.
Variable lines_before : nat -> list node.
Variable lines_after : nat -> list node.

(** [insert_new_line(self.soup, e, 1)] then [e.replace_with(text)]. *)
Definition spaced (text : string) : list node :=
  (lines_before 1 ++ [Text text] ++ lines_after 1)%list.

(** The bodies of the loops: what, if anything, takes the place of the
    tag the loop is at. *)
Definition replace_pre (pre : node) : option (list node) :=
  if is_tag "pre" pre
  then match find (is_tag "code") pre with
       | Some code => Some (spaced (markdown_code code))
       | None => None
       end
  else None.

Definition replace_img (img : node) : option (list node) :=
  if is_tag "img" img
  then match get "src" img with
       | Some img_url => Some (spaced (markdown_img img_url img))
       | None => None
       end
  else None.

Definition replace_a (link : node) : option (list node) :=
  if is_tag "a" link
  then match get "href" link with
       | Some href => Some [Text (markdown_link href link)]
       | None => None
       end
  else None.

Definition replace_header (header : node) : option (list node) :=
  if is_tag_in headers header
  then Some (spaced (markdown_header header))
  else None.

Definition replace_blockquote (blockquote : node) : option (list node) :=
  if is_tag "blockquote" blockquote
  then Some (spaced (markdown_quote blockquote))
  else None.

Definition replace_ul (ul : node) : option (list node) :=
  if is_tag "ul" ul then Some (spaced (ul_markdown ul)) else None.

Definition replace_ol (ol : node) : option (list node) :=
  if is_tag "ol" ol then Some (spaced (ol_markdown ol)) else None.

Definition code_blocks : node -> node := rewrite replace_pre.
Definition images : node -> node := rewrite replace_img.
Definition links : node -> node := rewrite replace_a.
Definition headings : node -> node := rewrite replace_header.
Definition blockquotes : node -> node := rewrite replace_blockquote.
Definition unordered_lists : node -> node := rewrite replace_ul.
Definition ordered_lists : node -> node := rewrite replace_ol.

(** The loops of [save_and_transform] over the content element, in the
    order they run. *)
Definition transform (content_element : node) : node :=
  let c := sanitize content_element in
  let c := code_blocks c in
  let c := images c in
  let c := links c in
  let c := headings c in
  let c := blockquotes c in
  let c := unordered_lists c in
  ordered_lists c.

(** The lines [save_and_transform] collects in [metadata]. *)
Definition metadata_lines (title author : string) (date : Py.value)
  (target_link : string) : list string :=
  let metadata := ["# " ++ title; ""; "**Author:** " ++ author] in
  let metadata :=
    if Py.truthy_value date
    then (metadata ++ [("**Date:** " ++ Py.format_value date)%string])%list
    else metadata in
  (metadata ++ [("**Link:** " ++ target_link)%string; ""; "---"])%list.

Definition markdown_text (title author : string) (date : Py.value)
  (target_link content : string) : string :=
  String.concat Py.nl (metadata_lines title author date target_link)
  ++ Py.nl ++ Py.nl ++ content.

(** [save_and_transform] up to its write: the name it returns and the text
    it hands to [open] and [write] for the file of that name with the
    extension [.md].  Whether the file can be written is settled in
    [judge_type]. *)
Definition save_and_transform (title : string) (content_element : option node)
  (author : string) (date : Py.value) (target_link : string)
  : string * string :=
  let markdown_title := get_valid_filename title in
  let markdown_title :=
    if Py.truthy_value date
    then "(" ++ Py.format_value date ++ ")" ++ markdown_title ++ "_" ++ author
    else markdown_title ++ "_" ++ author in
  let content :=
    match content_element with
    | Some content_element =>
        md (Py.strip (decode_contents (transform content_element)))
    | None => ""
    end in
  (markdown_title, markdown_text title author date target_link content).

(** The title [parse_article] settles on. *)
Definition article_title (soup : node) : string :=
  let title : Py.value := None in
  let title :=
    match find (is_tag_with "meta" "property" "og:title") soup with
    | Some og_title =>
        if Py.truthy_value (get "content" og_title)
        then get "content" og_title else title
    | None => title
    end in
  let title :=
    if negb (Py.truthy_value title)
    then match find (is_tag_with "meta" "name" "twitter:title") soup with
         | Some twitter_title =>
             if Py.truthy_value (get "content" twitter_title)
             then get "content" twitter_title else title
         | None => title
         end
    else title in
  let title :=
    if negb (Py.truthy_value title)
    then match find (is_tag "h1") soup with
         | Some h1 => Some (get_text_strip h1)
         | None => title
         end
    else title in
  let title :=
    if negb (Py.truthy_value title)
    then match find (is_tag "title") soup with
         | Some title_tag =>
             Some (Py.replace (get_text_strip title_tag) " | LMSYS Org" "")
         | None => title
         end
    else title in
  if negb (Py.truthy_value title) then "Untitled" else Py.format_value title.

Definition content_selectors : list selector :=
  [ mkSelector (Some "article") [] [];
    mkSelector (Some "div") ["blog-content"] [];
    mkSelector (Some "div") ["post-content"] [];
    mkSelector (Some "div") ["content"] [];
    mkSelector (Some "main") [] [];
    mkSelector (Some "div") ["prose"] [];
    mkSelector None [] [Contains "class" "content"];
    mkSelector None [] [Contains "class" "article"];
    mkSelector None [] [Contains "class" "post"] ].

(** The loop over the selectors, then the fallback to the body. *)
Fixpoint select_first (sels : list selector) (soup : node) : option node :=
  match sels with
  | [] => None
  | sel :: rest =>
      match select_one sel soup with
      | Some content_element => Some content_element
      | None => select_first rest soup
      end
  end.

Definition locate (soup : node) : option node :=
  match select_first content_selectors soup with
  | Some content_element => Some content_element
  | None => find (is_tag "body") soup
  end.

(** [parse_article] once the page is fetched and parsed, up to the write
    that ends [save_and_transform]: the name and the text handed to it. *)
Definition parse_article (soup : node) (target_link : string)
  : result (string * string) :=
  let title := article_title soup in
  match locate soup with
  | None => Raise (Exception "Could not find article content")
  | Some content_element =>
      let '((author, date), content_element) :=
        extract_author_and_date content_element in
      Ok (save_and_transform title (Some content_element) author date
            target_link)
  end.

(** [open(path, "w")]: whether the file can be created is up to the file
    system; [open] raises [OSError] when it cannot. *)
Variable can_write : string -> bool.

(** [judge_type]: the whole of [parse_article], whose exceptions it passes
    on, the write of the file included; it returns the name of the file
    without its extension. *)
Definition judge_type (soup : node) (target_link : string) : result string :=
  r <- parse_article soup target_link ;;
  let '(markdown_title, markdown) := r in
  if can_write (markdown_title ++ ".md") then Ok markdown_title
  else Raise OSError.

End External.

End LMSYSParser.

(* ================================================================== *)
(** * The specification's own wording *)
(* ================================================================== *)

(** Definitions that follow the text of the specification, to compare the
    parsers with. *)
Module Spec.
Import Bs4.


(** The links of the title chain: the Open-Graph title meta, the
    Twitter-card title meta, the first heading of level 1, the document
    title element with the site suffix stripped. *)
Definition og_title (soup : node) : Py.value :=
  and_then (find (is_tag_with "meta" "property" "og:title") soup)
    (get "content").

Definition twitter_title (soup : node) : Py.value :=
  and_then (find (is_tag_with "meta" "name" "twitter:title") soup)
    (get "content").




(** The lines of an ordered list: the items numbered from [k] on. *)
Fixpoint numbered (k : nat) (items : list string) : list string :=
  match items with
  | [] => []
  | t :: rest =>
      (Py.str_of_nat k ++ ". " ++ t ++ Py.nl) :: numbered (S k) rest
  end.

(** The fixed layout of the assembled document, line by line as the
    specification lists it: the title line, a blank line, the source line
    (the author, date and link lines for the blog), an optional quoted
    description line, the separator, a blank line, the body. *)
Definition docs_layout (title url : string) (descr : option string)
  (body : list string) : list string :=
  ([("# " ++ title)%string; ""; ("**Source:** " ++ url)%string]
   ++ match descr with
      | Some d => [("> " ++ d)%string]
      | None => []
      end
   ++ ["---"; ""] ++ body)%list.

Definition blog_layout (title author : string) (date : option string)
  (link : string) (body : list string) : list string :=
  ([("# " ++ title)%string; ""; ("**Author:** " ++ author)%string]
   ++ match date with
      | Some d => [("**Date:** " ++ d)%string]
      | None => []
      end
   ++ [("**Link:** " ++ link)%string; "---"; ""] ++ body)%list.

End Spec.

(* ================================================================== *)
(** * Notions for the statements about trees *)
(* ================================================================== *)

Module Tree.
Import Bs4.

(** The nodes below [n] that are neither tags passing [p] nor inside one,
    in document order. *)
Fixpoint outside (p : node -> bool) (n : node) : list node :=
  match n with
  | Text _ => []
  | Special _ => []
  | Elem _ _ _ cs =>
      flat_map (fun c => if p c then [] else c :: outside p c) cs
  end.

(** The strings among a list of nodes. *)
Definition texts (l : list node) : list string :=
  flat_map (fun d => match d with
                     | Text s => [s]
                     | Special _ => []
                     | Elem _ _ _ _ => []
                     end) l.

(** A test on tags that does not look at the children. *)
Definition shallow (p : node -> bool) : Prop :=
  forall nm cl ats cs cs', p (Elem nm cl ats cs) = p (Elem nm cl ats cs').

(** [reached f n c]: the descent of [rewrite f] from [n] comes to [c],
    that is, [c] is below [n] and [f] replaces no tag strictly between. *)
Inductive reached (f : node -> option (list node)) : node -> node -> Prop :=
| reached_child (n c : node) :
    In c (children_of n) -> reached f n c
| reached_below (n m c : node) :
    In m (children_of n) -> f m = None -> reached f m c -> reached f n c.

(** [change_first] along a list of children. *)
Fixpoint change_first_list (p : node -> bool) (f : node -> list node)
  (l : list node) : option (list node) :=
  match l with
  | [] => None
  | c :: l' =>
      if p c then Some (f c ++ l')%list
      else match change_first p f c with
           | Some c' => Some (c' :: l')
           | None => option_map (cons c) (change_first_list p f l')
           end
  end.

(** The tokens of two trees that differ in attributes only, related tag
    by tag. *)
Definition same_but_attrs
  (R : string -> list (string * string) -> list (string * string) -> Prop)
  (t t' : token) : Prop :=
  match t, t' with
  | TText s, TText s' => s = s'
  | TSpecial s, TSpecial s' => s = s'
  | TClose, TClose => True
  | TOpen nm cl ats, TOpen nm' cl' ats' => nm' = nm /\ cl' = cl /\ R nm ats ats'
  | _, _ => False
  end.

(** [accepts p s pos ms ms']: the text [s], standing at position [pos] of
    the whole text, starts with a match of the pattern [p], which adds to the
    marks [ms] to give [ms'].  Each repetition takes a chunk of characters of
    its class, as many as its bounds allow. *)
Inductive accepts
  : Re.pattern -> string -> nat -> list Re.mark -> list Re.mark -> Prop :=
| accepts_nil (s : string) (pos : nat) (ms : list Re.mark) :
    accepts [] s pos ms ms
| accepts_bol (p : Re.pattern) (s : string) (ms ms' : list Re.mark) :
    accepts p s 0 ms ms' -> accepts (Re.Bol :: p) s 0 ms ms'
| accepts_open (g : nat) (p : Re.pattern) (s : string) (pos : nat)
    (ms ms' : list Re.mark) :
    accepts p s pos (Re.Opened g pos :: ms) ms' ->
    accepts (Re.Open g :: p) s pos ms ms'
| accepts_close (g : nat) (p : Re.pattern) (s : string) (pos : nat)
    (ms ms' : list Re.mark) :
    accepts p s pos (Re.Closed g pos :: ms) ms' ->
    accepts (Re.Close g :: p) s pos ms ms'
| accepts_rep (cls : ascii -> bool) (lo : nat) (hi : option nat)
    (q : Re.quant) (p : Re.pattern) (s : string) (pos : nat)
    (ms ms' : list Re.mark) (chunk rest : string) :
    s = chunk ++ rest ->
    Py.all cls chunk = true ->
    lo <= length chunk ->
    match hi with
    | Some h => length chunk <= h
    | None => True
    end ->
    accepts p rest (pos + length chunk) ms ms' ->
    accepts (Re.Rep cls lo hi q :: p) s pos ms ms'.

(** A call that raises nothing but [ValueError]. *)
Definition value_errors {A : Type} (r : result A) : Prop :=
  forall e, r = Raise e -> e = ValueError.

(** The attributes of a tag after a loop of [update_all] over the tags
    named [nm]. *)
Definition updated (nm : string)
  (g : list (string * string) -> result (list (string * string)))
  (nm' : string) (ats ats' : list (string * string)) : Prop :=
  if nm' =? nm then g ats = Ok ats' else ats' = ats.

(** The [src] of an [img] after [preprocess_content]: joined to the base
    address when the source, [src] or else [data-src], is not empty and
    starts with a slash or does not start with [http]; as it was
    otherwise. *)
Definition src_resolved (check_bracketed_netloc checknetloc_nfkc : string -> bool)
  (base : string) (ats ats' : list (string * string)) : Prop :=
  match Py.or_ (lookup "src" ats) (lookup "data-src" ats) with
  | Some src =>
      if Py.truthy src
         && (Py.startswith src "/" || negb (Py.startswith src "http"))
      then exists u,
             DocsParser.urljoin check_bracketed_netloc checknetloc_nfkc
               base src = Ok u
             /\ lookup "src" ats' = Some u
      else lookup "src" ats' = lookup "src" ats
  | None => lookup "src" ats' = lookup "src" ats
  end.

(** Whether [find] or [select_one] answered a tag. *)
Definition answered (t : option node) : bool :=
  match t with
  | Some _ => true
  | None => false
  end.

(** The [href] of an [a] after [preprocess_content]: joined to the base
    address when it is not empty and starts with a slash; otherwise the
    attributes are as they were. *)
Definition href_resolved (check_bracketed_netloc checknetloc_nfkc : string -> bool)
  (base : string) (ats ats' : list (string * string)) : Prop :=
  match lookup "href" ats with
  | Some href =>
      if Py.truthy href && Py.startswith href "/"
      then exists u,
             DocsParser.urljoin check_bracketed_netloc checknetloc_nfkc
               base href = Ok u
             /\ lookup "href" ats' = Some u
      else ats' = ats
  | None => ats' = ats
  end.

(** The [alt] of an [img] after [preprocess_content]: an image with a
    source has one, its own when that is not empty; an image without a
    source is as it was. *)
Definition alt_defaulted (ats ats' : list (string * string)) : Prop :=
  match Py.or_ (lookup "src" ats) (lookup "data-src" ats) with
  | Some src =>
      if Py.truthy src
      then lookup "alt" ats' = Some (Py.or_str (lookup "alt" ats) "")
      else ats' = ats
  | None => ats' = ats
  end.

(** [k in tag.attrs]. *)
Definition has_attr (k : string) (n : node) : bool :=
  match get k n with
  | Some _ => true
  | None => false
  end.

(** The names of the tags the loops of the blog parser remove or replace,
    and [code], which the loop over the [pre] tags looks for. *)
Definition converted_names : list string :=
  ["style"; "script"; "pre"; "code"; "img"; "a";
   "h1"; "h2"; "h3"; "h4"; "h5"; "h6"; "blockquote"; "ul"; "ol"].

(** A node that is no tag of those names and holds none. *)
Definition plain (n : node) : bool :=
  forallb (fun d => negb (is_tag_in converted_names d)) (n :: descendants n).

(** A [pre] that wraps a [code]. *)
Definition pre_with_code (n : node) : bool :=
  is_tag "pre" n && answered (find (is_tag "code") n).

(** The loops of [save_and_transform] as rewriting passes, in the order
    they run. *)
Definition passes (lines_before lines_after : nat -> list node)
  : list (node -> option (list node)) :=
  [ (fun c => if is_tag "style" c then Some [] else None);
    (fun c => if is_tag "script" c then Some [] else None);
    LMSYSParser.replace_pre lines_before lines_after;
    LMSYSParser.replace_img lines_before lines_after;
    LMSYSParser.replace_a;
    LMSYSParser.replace_header lines_before lines_after;
    LMSYSParser.replace_blockquote lines_before lines_after;
    LMSYSParser.replace_ul lines_before lines_after;
    LMSYSParser.replace_ol lines_before lines_after ].

(** A test that a pass cannot make true of a tag it keeps, and a pass
    that puts plain nodes only. *)
Definition stable (f : node -> option (list node)) (q : node -> bool) : Prop :=
  forall d, f d = None -> q (rewrite f d) = true -> q d = true.

Definition inserts_plain (f : node -> option (list node)) : Prop :=
  forall d l x, f d = Some l -> In x l -> plain x = true.

(** A link [find_related_links] takes from the anchor [a]: the [href] of
    [a], neither empty nor a fragment nor a script, joined to the address of
    the page, with the host name of the page. *)
Definition link_from (check_bracketed_netloc checknetloc_nfkc : string -> bool)
  (base_url : string) (a : node) (link : string) : Prop :=
  exists href p b,
    get "href" a = Some href
    /\ Py.truthy href = true
    /\ Py.startswith href "#" = false
    /\ Py.startswith href "javascript:" = false
    /\ DocsParser.urljoin check_bracketed_netloc checknetloc_nfkc
         base_url href = Ok link
    /\ DocsParser.urlparse check_bracketed_netloc checknetloc_nfkc link ""
       = Ok p
    /\ DocsParser.urlparse check_bracketed_netloc checknetloc_nfkc base_url ""
       = Ok b
    /\ Url.hostname p = Url.hostname b.

(** The lines of an unordered list: a dash, a space, the item, a line
    feed. *)
Definition bulleted (items : list string) : list string :=
  List.map (fun t => "- " ++ t ++ Py.nl) items.

(** The characters of a plain host name (small letters, digits, dot and
    hyphen) and of a plain path (no query, fragment or parameter mark and
    none of the bytes [urlsplit] removes). *)
Definition host_char (c : ascii) : bool :=
  Py.islower_ascii c || Py.isdigit c || (c =? ".")%char || (c =? "-")%char.

Definition path_char (c : ascii) : bool :=
  negb (Py.mem c "?#;") && negb (Url.unsafe_byte c).

End Tree.

(* ================================================================== *)
(** * A small site to run the crawl on *)
(* ================================================================== *)

Module Sample.
Import Bs4.

(** A page with a title, a side bar of links and a content. *)
Definition page (title : string) (hrefs : list string) : node :=
  document
    [Elem "html" [] []
       [Elem "head" [] [] [Elem "title" [] [] [Text title]];
        Elem "body" [] []
          [Elem "div" ["sidebar"] []
             (List.map (fun h => Elem "a" [] [("href", h)] [Text h]) hrefs);
           Elem "main" [] [] [Elem "p" [] [] [Text title]]]]].

(** Three pages below [https://x.org/docs/]; the page [c.html] the others
    link to cannot be fetched. *)
Definition site (url : string) : option node :=
  if url =? "https://x.org/docs/"
  then Some (page "Start" ["a.html"; "b.html"; "c.html"; "/docs/"])
  else if url =? "https://x.org/docs/a.html"
  then Some (page "A" ["b.html"; "https://y.org/"])
  else if url =? "https://x.org/docs/b.html"
  then Some (page "B" [])
  else None.

(** The functions the parser calls, for a run: the serialisation is left
    empty, a file name is the title as it is, and the members of a set
    come in the order of their last occurrence. *)
Definition md (s : string) : string := s.
Definition decode_contents (n : node) : string := "".
Definition get_valid_filename (s : string) : string := s.
Definition check (s : string) : bool := true.
Definition list_of_set : list string -> list string := nodup string_dec.

Definition judge_type :=
  DocsParser.judge_type md decode_contents get_valid_filename check check
    list_of_set site.

Definition download_section :=
  DocsParser.download_section md decode_contents get_valid_filename check
    check list_of_set site.

Definition fresh : DocsParser.crawl := DocsParser.mkCrawl [] [].

End Sample.

(* ================================================================== *)
(** * The embedded library functions on sample inputs *)
(* ================================================================== *)

Example strip_example :
  Py.strip "  a b  " = "a b" /\ Py.strip (Py.nl ++ " " ++ Py.nl) = "".
Proof. split; reflexivity. Qed.

Example replace_example :
  Py.replace "language-python" "language-" "" = "python"
  /\ Py.replace "language-language-x" "language-" "" = "x"
  /\ Py.replace "Post | LMSYS Org" " | LMSYS Org" "" = "Post"
  /\ Py.replace "aaa" "aa" "b" = "ba".
Proof. repeat split; reflexivity. Qed.

Example split_example :
  Py.split "/" "/a//b" = [""; "a"; ""; "b"] /\ Py.split "/" "" = [""].
Proof. split; reflexivity. Qed.

Example str_of_nat_example :
  Py.str_of_nat 0 = "0" /\ Py.str_of_nat 12 = "12".
Proof. split; reflexivity. Qed.

Example urlparse_example :
  let parse := fun u =>
    match Url.urlparse (fun _ => true) (fun _ => true) u "" with
    | Ok r => Some (Url.scheme r, Url.hostname r, Url.netloc r, Url.path r)
    | Raise _ => None
    end in
  parse "https://User@X.Org:8080/a/b"
  = Some ("https", Some "x.org", "User@X.Org:8080", "/a/b")
  /\ parse "x.org/a" = Some ("", None, "", "x.org/a")
  /\ parse "mailto:a@b" = Some ("mailto", None, "", "a@b")
  /\ parse "//[x/img" = None.
Proof. cbv zeta; repeat split; vm_compute; reflexivity. Qed.

Example urljoin_example :
  let join := Url.urljoin (fun _ => true) (fun _ => true) in
  join "https://x.org" "/img/a.png" = Ok "https://x.org/img/a.png"
  /\ join "https://x.org" "a/b.png" = Ok "https://x.org/a/b.png"
  /\ join "https://x.org" "//cdn.org/a.png" = Ok "https://cdn.org/a.png"
  /\ join "https://x.org" "data:image/png;base64,AAA"
     = Ok "data:image/png;base64,AAA"
  /\ join "https://x.org/a/b;p?q#f" "c/./d/../e;pp"
     = Ok "https://x.org/a/c/e;pp"
  /\ join "https://x.org/a/b/" ".." = Ok "https://x.org/a/"
  /\ join "https://x.org/a/b/" "?y" = Ok "https://x.org/a/b/?y"
  /\ join "https://x.org/a//b/c" "d//e/f" = Ok "https://x.org/a/b/d/e/f"
  /\ join "https://x.org" "//[x/img" = Raise ValueError.
Proof. cbv zeta; repeat split; vm_compute; reflexivity. Qed.

Example by_pattern_example :
  let groups := fun s =>
    match Re.match_ LMSYSParser.by_pattern s with
    | Some m => Some (Py.strip (Re.group s m 1), Py.strip (Re.group s m 2))
    | None => None
    end in
  groups "by: Jane Doe, Jan 5, 2025" = Some ("Jane Doe", "Jan 5, 2025")
  /\ groups "by:A,B,  Mar   12,2024x and more, Apr 1, 2020"
     = Some ("A,B", "Mar   12,2024")
  /\ groups "by: A, Jan 5 2025, Feb 6, 2026"
     = Some ("A, Jan 5 2025", "Feb 6, 2026")
  /\ groups "by: , Jan 5, 2025" = Some ("", "Jan 5, 2025")
  /\ groups "by Jane Doe" = None
  /\ groups "by: Jane Doe" = None
  /\ groups "by: A, Jan 5, 202" = None
  /\ groups " by: A, Jan 5, 2025" = None
  /\ groups "By: A, Jan 5, 2025" = None.
Proof. cbv zeta; repeat split; vm_compute; reflexivity. Qed.

(* ================================================================== *)
(** * Facts about the string operations *)
(* ================================================================== *)

Lemma length_take (n : nat) (s : string) :
  length (Py.take n s) = Nat.min n (length s).
Proof.
  revert s; induction n as [|n IH]; intros [|c s]; simpl; auto.
Qed.

Lemma length_map (f : ascii -> ascii) (s : string) :
  length (Py.map f s) = length s.
Proof.
  induction s as [|c s IH]; simpl; congruence.
Qed.

Lemma get_take (n i : nat) (s : string) :
  i < n -> String.get i (Py.take n s) = String.get i s.
Proof.
  revert i s; induction n as [|n IH]; intros i s Hi; [lia|].
  destruct s as [|c s]; simpl; [reflexivity|].
  destruct i as [|i]; [reflexivity|].
  apply IH; lia.
Qed.

Lemma get_map (f : ascii -> ascii) (i : nat) (s : string) :
  String.get i (Py.map f s) = option_map f (String.get i s).
Proof.
  revert i; induction s as [|c s IH]; intros [|i]; simpl; auto.
Qed.

Lemma all_take (p : ascii -> bool) (n : nat) (s : string) :
  Py.all p s = true -> Py.all p (Py.take n s) = true.
Proof.
  revert s; induction n as [|n IH]; intros [|c s]; simpl; auto.
  intros H; apply andb_true_iff in H as [Hc Hs].
  rewrite Hc; simpl; auto.
Qed.

Lemma all_map (p : ascii -> bool) (f : ascii -> ascii) (s : string) :
  (forall c, p (f c) = true) -> Py.all p (Py.map f s) = true.
Proof.
  intros Hf; induction s as [|c s IH]; simpl; [reflexivity|].
  rewrite Hf, IH; reflexivity.
Qed.



(** The substitute is none of the nine characters. *)
Lemma sub_illegal_clean (c : ascii) :
  negb (DocsParser.illegal (if DocsParser.illegal c then "_"%char else c)) = true.
Proof.
  destruct (DocsParser.illegal c) eqn:Hc; [reflexivity|].
  rewrite Hc; reflexivity.
Qed.

(** [s.split(c)] is never empty, and splits at every [c]. *)
Lemma split_cons (c : ascii) (s : string) :
  exists p ps, Py.split c s = p :: ps.
Proof.
  induction s as [|d s (p & ps & IH)]; simpl; eauto.
  rewrite IH; destruct (d =? c)%char; eauto.
Qed.

Lemma split_app (c : ascii) (a b : string) :
  Py.split c (a ++ String c b) = (Py.split c a ++ Py.split c b)%list.
Proof.
  induction a as [|d a IH]; simpl.
  - destruct (split_cons c b) as (p & ps & Hb); rewrite Hb.
    rewrite Ascii.eqb_refl; reflexivity.
  - rewrite IH.
    destruct (split_cons c a) as (p & ps & Ha); rewrite Ha; simpl.
    destruct (d =? c)%char; reflexivity.
Qed.

Lemma split_none (c : ascii) (s : string) :
  Py.mem c s = false -> Py.split c s = [s].
Proof.
  induction s as [|d s IH]; simpl; [reflexivity|].
  intros H; apply orb_false_iff in H as [Hd Hs].
  rewrite (IH Hs), Ascii.eqb_sym, Hd; reflexivity.
Qed.

Lemma split_line (a b : string) :
  Py.mem Py.LF a = false ->
  Py.split Py.LF (a ++ Py.nl ++ b) = a :: Py.split Py.LF b.
Proof.
  intros Ha; unfold Py.nl; simpl.
  rewrite split_app, (split_none _ _ Ha); reflexivity.
Qed.

Lemma mem_app (c : ascii) (a b : string) :
  Py.mem c (a ++ b) = Py.mem c a || Py.mem c b.
Proof.
  induction a as [|d a IH]; simpl; [reflexivity|].
  rewrite IH, orb_assoc; reflexivity.
Qed.

Lemma append_assoc (a b c : string) : (a ++ b) ++ c = a ++ (b ++ c).
Proof.
  induction a as [|d a IH]; simpl; congruence.
Qed.

Lemma append_nil_r (a : string) : a ++ "" = a.
Proof.
  induction a as [|d a IH]; simpl; congruence.
Qed.

(* ================================================================== *)
(** * Titles *)
(* ================================================================== *)








(** C2, as amended.  In the documentation parser the extracted title has
    at most 100 characters, exactly 100 when the title found was longer;
    it holds none of the nine characters, and it is the first 100
    characters of the title found with each of the nine replaced by an
    underscore. *)
Theorem docs_title_sanitized (soup : Bs4.node) (url : string) :
  let found := DocsParser.first_title soup in
  let title := DocsParser.extract_title soup url in
  length title <= 100
  /\ (100 < length found -> length title = 100)
  /\ Py.all (fun c => negb (DocsParser.illegal c)) title = true
  /\ (forall i c, i < 100 -> String.get i found = Some c ->
        String.get i title
        = Some (if DocsParser.illegal c then "_"%char else c)).
Proof.
  cbv zeta; unfold DocsParser.extract_title, DocsParser.sub_illegal.
  repeat split.
  - rewrite length_take; lia.
  - intros H; rewrite length_take, length_map; lia.
  - apply all_take, all_map; intros c; apply sub_illegal_clean.
  - intros i c Hi Hc; rewrite (get_take _ Hi), get_map, Hc; reflexivity.
Qed.

(** C2, the claim as stated, fails for the blog parser: the title it
    settles on is the text found, with its slash, colon and question mark,
    whatever its length, and that text heads the document. *)
Lemma blog_title_kept_counterexample :
  let soup :=
    Bs4.document
      [Bs4.Elem "meta" [] [("property", "og:title");
                           ("content", "A/B tests: why?")] [];
       Bs4.Elem "body" [] [] [Bs4.Elem "p" [] [] [Bs4.Text "text"]]] in
  let long :=
    Bs4.document
      [Bs4.Elem "h1" [] [] [Bs4.Text (Py.repeat_char "a" 120)]] in
  LMSYSParser.article_title soup = "A/B tests: why?"
  /\ Py.all (fun c => negb (DocsParser.illegal c))
       (LMSYSParser.article_title soup) = false
  /\ length (LMSYSParser.article_title long) = 120
  /\ LMSYSParser.parse_article (fun s => s) (fun _ => "") (fun s => s)
       (fun _ => []) (fun _ => []) soup "https://lmsys.org/blog/a"
     = Ok ("A/B tests: why?_LMSYS Team",
           "# A/B tests: why?" ++ Py.nl ++ Py.nl
           ++ "**Author:** LMSYS Team" ++ Py.nl
           ++ "**Link:** https://lmsys.org/blog/a" ++ Py.nl ++ Py.nl
           ++ "---" ++ Py.nl ++ Py.nl).
Proof.
  cbv zeta; repeat split; vm_compute; reflexivity.
Qed.

(* ================================================================== *)
(** * The assembled document *)
(* ================================================================== *)

Lemma lines_cons (a rest : string) :
  Py.mem Py.LF a = false ->
  Py.split Py.LF (a ++ String Py.LF rest) = a :: Py.split Py.LF rest.
Proof.
  intros Ha; rewrite split_app, (split_none _ _ Ha); reflexivity.
Qed.

Lemma split_blank (b : string) :
  Py.split Py.LF (Py.nl ++ b) = "" :: Py.split Py.LF b.
Proof.
  exact (split_line "" b eq_refl).
Qed.

Lemma docs_lines (title url descr body : string) :
  Py.mem Py.LF title = false ->
  Py.mem Py.LF url = false ->
  Py.mem Py.LF descr = false ->
  Py.split Py.LF (DocsParser.full_markdown title url descr body)
  = ([("# " ++ title)%string; ""; ("**Source:** " ++ url)%string; ""]
     ++ (if Py.truthy descr then [("> " ++ descr)%string; ""] else [])
     ++ ["---"; ""] ++ Py.split Py.LF body)%list.
Proof.
  intros Ht Hu Hd.
  unfold DocsParser.full_markdown.
  destruct (Py.truthy descr); repeat rewrite append_assoc;
    rewrite <- (append_assoc "# " title);
    rewrite split_line by (rewrite mem_app, Ht; reflexivity);
    rewrite split_blank;
    rewrite <- (append_assoc "**Source:** " url);
    rewrite split_line by (rewrite mem_app, Hu; reflexivity);
    rewrite split_blank.
  - rewrite <- (append_assoc "> " descr).
    rewrite split_line by (rewrite mem_app, Hd; reflexivity).
    rewrite split_blank, (split_line "---") by reflexivity.
    rewrite split_blank; reflexivity.
  - rewrite (split_line "---") by reflexivity.
    rewrite split_blank; reflexivity.
Qed.

(** The lines of a text made by ["\n".join(ls) + "\n" + rest]. *)
Lemma split_join (ls : list string) (rest : string) :
  ls <> [] ->
  Forall (fun l => Py.mem Py.LF l = false) ls ->
  Py.split Py.LF (String.concat Py.nl ls ++ Py.nl ++ rest)
  = (ls ++ Py.split Py.LF rest)%list.
Proof.
  induction ls as [|l ls IH]; intros Hne Hall; [congruence|].
  inversion Hall as [|? ? Hl Hls]; subst.
  destruct ls as [|l' ls].
  - simpl String.concat; rewrite split_line by assumption; reflexivity.
  - change (String.concat Py.nl (l :: l' :: ls))
      with (l ++ Py.nl ++ String.concat Py.nl (l' :: ls)).
    repeat rewrite append_assoc.
    rewrite split_line by assumption.
    rewrite IH by (assumption || discriminate); reflexivity.
Qed.

Lemma blog_lines (title author : string) (date : Py.value)
  (link content : string) :
  Forall (fun l => Py.mem Py.LF l = false)
    (LMSYSParser.metadata_lines title author date link) ->
  Py.split Py.LF (LMSYSParser.markdown_text title author date link content)
  = (LMSYSParser.metadata_lines title author date link
     ++ "" :: Py.split Py.LF content)%list.
Proof.
  intros Hall; unfold LMSYSParser.markdown_text.
  rewrite split_join; [rewrite split_blank; reflexivity| |assumption].
  unfold LMSYSParser.metadata_lines.
  destruct (Py.truthy_value date); discriminate.
Qed.

(** C8, as amended.  When the title, the address, the description, the
    author and the date hold no line feed, the assembled document is, line
    by line: the title line, a blank line, the source line and a blank line
    (for the blog: the author line, the date line when there is a date, the
    link line and a blank line), for the documentation parser the quoted
    description and a blank line when there is a description, the separator,
    a blank line, and the lines of the body.  The separator is there and the
    header comes before the body whatever is absent. *)
Theorem assembled_layout (title url descr author link body : string)
  (date : Py.value) :
  Py.mem Py.LF title = false ->
  Py.mem Py.LF url = false ->
  Py.mem Py.LF descr = false ->
  Py.mem Py.LF author = false ->
  Py.mem Py.LF link = false ->
  Py.mem Py.LF (Py.format_value date) = false ->
  Py.split Py.LF (DocsParser.full_markdown title url descr body)
  = ([("# " ++ title)%string; ""; ("**Source:** " ++ url)%string; ""]
     ++ (if Py.truthy descr then [("> " ++ descr)%string; ""] else [])
     ++ ["---"; ""] ++ Py.split Py.LF body)%list
  /\ Py.split Py.LF (LMSYSParser.markdown_text title author date link body)
     = ([("# " ++ title)%string; ""; ("**Author:** " ++ author)%string]
        ++ (if Py.truthy_value date
            then [("**Date:** " ++ Py.format_value date)%string] else [])
        ++ [("**Link:** " ++ link)%string; ""; "---"; ""]
        ++ Py.split Py.LF body)%list.
Proof.
  intros Ht Hu Hd Ha Hl Hdate; split.
  - apply docs_lines; assumption.
  - rewrite blog_lines.
    + unfold LMSYSParser.metadata_lines.
      destruct (Py.truthy_value date); reflexivity.
    + unfold LMSYSParser.metadata_lines.
      destruct (Py.truthy_value date); simpl;
        repeat (constructor; try (rewrite ?mem_app; simpl; assumption));
        reflexivity.
Qed.

Lemma assembled_layout_witness :
  Py.split Py.LF
    (DocsParser.full_markdown "Guide" "https://x.org/docs/a" "About" "Body")
  = ["# Guide"; ""; "**Source:** https://x.org/docs/a"; ""; "> About"; "";
     "---"; ""; "Body"]
  /\ Py.split Py.LF
       (LMSYSParser.markdown_text "Guide" "Jane Doe" (Some "Jan 5, 2025")
          "https://x.org/docs/a" "Body")
     = ["# Guide"; ""; "**Author:** Jane Doe"; "**Date:** Jan 5, 2025";
        "**Link:** https://x.org/docs/a"; ""; "---"; ""; "Body"].
Proof.
  exact (assembled_layout "Guide" "https://x.org/docs/a" "About" "Jane Doe"
           "https://x.org/docs/a" "Body" (Some "Jan 5, 2025")
           eq_refl eq_refl eq_refl eq_refl eq_refl eq_refl).
Defined.

(** C8, the claim as stated, fails: the documentation parser puts a blank
    line between the source line and the separator, and the blog parser one
    between the link line and the separator, where the layout of the
    specification has none. *)
Lemma layout_blank_line_counterexample :
  Py.split Py.LF (DocsParser.full_markdown "T" "u" "" "b")
  = ["# T"; ""; "**Source:** u"; ""; "---"; ""; "b"]
  /\ Spec.docs_layout "T" "u" None ["b"]
     = ["# T"; ""; "**Source:** u"; "---"; ""; "b"]
  /\ Py.split Py.LF (LMSYSParser.markdown_text "T" "a" None "u" "b")
     = ["# T"; ""; "**Author:** a"; "**Link:** u"; ""; "---"; ""; "b"]
  /\ Spec.blog_layout "T" "a" None "u" ["b"]
     = ["# T"; ""; "**Author:** a"; "**Link:** u"; "---"; ""; "b"]
  /\ Py.split Py.LF (DocsParser.full_markdown "T" "u" "" "b")
     <> Spec.docs_layout "T" "u" None ["b"]
  /\ Py.split Py.LF (LMSYSParser.markdown_text "T" "a" None "u" "b")
     <> Spec.blog_layout "T" "a" None "u" ["b"].
Proof.
  repeat split; try reflexivity; vm_compute; discriminate.
Qed.

(* ================================================================== *)
(** * Facts about trees *)
(* ================================================================== *)

Section TreeFacts.
Import Bs4 Tree.

Lemma descendants_elem nm cl ats cs :
  descendants (Elem nm cl ats cs)
  = flat_map (fun c => c :: descendants c) cs.
Proof. reflexivity. Qed.

Lemma find_app {A : Type} (p : A -> bool) (l1 l2 : list A) :
  List.find p (l1 ++ l2)%list
  = match List.find p l1 with
    | Some x => Some x
    | None => List.find p l2
    end.
Proof.
  induction l1 as [|x l1 IH]; simpl; [reflexivity|].
  destruct (p x); auto.
Qed.

Lemma change_first_elem p f nm cl ats cs :
  change_first p f (Elem nm cl ats cs)
  = option_map (Elem nm cl ats) (change_first_list p f cs).
Proof.
  simpl; f_equal.
  induction cs as [|c cs IH]; simpl; [reflexivity|].
  rewrite IH; reflexivity.
Qed.

(** [find] and [change_first] come to the same tag: the tokens before and
    after it stay, its own give way to those of the replacement. *)
Lemma change_first_spec (p : node -> bool) (f : node -> list node) (n : node) :
  match find p n with
  | Some c =>
      exists n' t1 t2,
        change_first p f n = Some n'
        /\ tokens n = (t1 ++ node_tokens c ++ t2)%list
        /\ tokens n' = (t1 ++ flat_map node_tokens (f c) ++ t2)%list
  | None => change_first p f n = None
  end.
Proof.
  induction n as [s|s|nm cl ats cs IH] using node_induction.
  - reflexivity.
  - reflexivity.
  - rewrite change_first_elem.
    unfold find, tokens; rewrite descendants_elem; simpl children_of.
    induction cs as [|c cs IHcs]; simpl; [reflexivity|].
    inversion IH as [|? ? Hc Hcs]; subst.
    destruct (p c) eqn:Hp.
    + exists (Elem nm cl ats (f c ++ cs)), [], (flat_map node_tokens cs).
      simpl; rewrite flat_map_app; auto.
    + rewrite find_app.
      unfold find in Hc.
      destruct (List.find p (descendants c)) as [d|] eqn:Hd.
      * destruct Hc as (c' & t1 & t2 & Hc' & Ht & Ht').
        rewrite Hc'; simpl.
        destruct c as [s|s|nm' cl' ats' cs'];
          [simpl in Hd; discriminate|simpl in Hd; discriminate|].
        rewrite change_first_elem in Hc'.
        destruct (change_first_list p f cs') as [cs''|]; [|discriminate].
        simpl in Hc'; injection Hc' as <-.
        unfold tokens in Ht, Ht'; simpl in Ht, Ht'.
        exists (Elem nm cl ats (Elem nm' cl' ats' cs'' :: cs)),
          (TOpen nm' cl' ats' :: t1),
          (t2 ++ TClose :: flat_map node_tokens cs)%list.
        simpl; rewrite Ht, Ht'.
        repeat rewrite <- app_assoc; simpl; auto.
      * rewrite Hc.
        specialize (IHcs Hcs).
        destruct (List.find p (flat_map (fun c0 => c0 :: descendants c0) cs))
          as [d|].
        -- destruct IHcs as (n' & t1 & t2 & Hn' & Ht & Ht').
           destruct (change_first_list p f cs) as [cs'|]; [|discriminate].
           simpl in Hn'; injection Hn' as <-.
           unfold tokens in Ht'; simpl in Ht'.
           exists (Elem nm cl ats (c :: cs')), (node_tokens c ++ t1)%list, t2.
           simpl; rewrite Ht, Ht'.
           repeat rewrite <- app_assoc; auto.
        -- destruct (change_first_list p f cs); [discriminate|reflexivity].
Qed.


Lemma decompose_all_elem p nm cl ats cs :
  decompose_all p (Elem nm cl ats cs)
  = Elem nm cl ats
      (flat_map (fun c => if p c then [] else [decompose_all p c]) cs).
Proof.
  unfold decompose_all; simpl; f_equal.
  apply flat_map_ext; intros c; destruct (p c); reflexivity.
Qed.

Lemma shallow_decompose_all p q c :
  shallow q -> q (decompose_all p c) = q c.
Proof.
  intros Hq; destruct c as [s|s|nm cl ats cs]; [reflexivity|reflexivity|].
  rewrite decompose_all_elem; apply Hq.
Qed.

Lemma shallow_is_tag_in names : shallow (is_tag_in names).
Proof.
  intros nm cl ats cs cs'; reflexivity.
Qed.

Lemma shallow_is_tag nm : shallow (is_tag nm).
Proof.
  intros nm' cl ats cs cs'; reflexivity.
Qed.

(** Two [decompose] loops in a row remove what either removes. *)
Lemma decompose_all_twice p q n :
  shallow q ->
  decompose_all q (decompose_all p n)
  = decompose_all (fun c => p c || q c) n.
Proof.
  intros Hq.
  induction n as [s|s|nm cl ats cs IH] using node_induction;
    [reflexivity|reflexivity|].
  rewrite !decompose_all_elem; f_equal.
  induction cs as [|c cs IHcs]; [reflexivity|].
  inversion IH as [|? ? Hc Hcs]; subst.
  simpl; rewrite flat_map_app, (IHcs Hcs).
  destruct (p c) eqn:Hp; simpl; [reflexivity|].
  rewrite (shallow_decompose_all p c Hq), app_nil_r.
  destruct (q c); simpl; [reflexivity|].
  rewrite Hc; reflexivity.
Qed.

(** What is left below a tag after a [decompose] loop: the nodes outside
    the removed tags, each cleaned in turn. *)
Lemma descendants_decompose_all p n :
  descendants (decompose_all p n) = List.map (decompose_all p) (outside p n).
Proof.
  induction n as [s|s|nm cl ats cs IH] using node_induction;
    [reflexivity|reflexivity|].
  rewrite decompose_all_elem, descendants_elem; simpl outside.
  induction cs as [|c cs IHcs]; [reflexivity|].
  inversion IH as [|? ? Hc Hcs]; subst.
  simpl; rewrite flat_map_app, map_app, (IHcs Hcs).
  destruct (p c); simpl; [reflexivity|].
  rewrite app_nil_r, Hc; reflexivity.
Qed.

Lemma outside_incl p n : incl (outside p n) (descendants n).
Proof.
  induction n as [s|s|nm cl ats cs IH] using node_induction;
    [intros x []|intros x []|].
  simpl; induction cs as [|c cs IHcs]; [intros x []|].
  inversion IH as [|? ? Hc Hcs]; subst.
  simpl; intros x Hx; apply in_app_or in Hx as [Hx|Hx].
  - destruct (p c); [destruct Hx|].
    destruct Hx as [<-|Hx]; [left; reflexivity|].
    right; apply in_or_app; left; apply Hc, Hx.
  - right; apply in_or_app; right; apply (IHcs Hcs), Hx.
Qed.

Lemma outside_fails p n : Forall (fun d => p d = false) (outside p n).
Proof.
  induction n as [s|s|nm cl ats cs IH] using node_induction;
    [constructor|constructor|].
  simpl; induction cs as [|c cs IHcs]; [constructor|].
  inversion IH as [|? ? Hc Hcs]; subst.
  simpl; apply Forall_app; split; [|apply (IHcs Hcs)].
  destruct (p c) eqn:Hp; [constructor|].
  constructor; assumption.
Qed.

Lemma filter_nil {A : Type} (p : A -> bool) (l : list A) :
  Forall (fun x => p x = false) l -> filter p l = [].
Proof.
  induction 1 as [|x l Hx Hl IH]; simpl; [reflexivity|].
  rewrite Hx; exact IH.
Qed.

(** After a [decompose] loop for a test on the tag alone, no tag below
    passes the test. *)
Lemma find_all_decompose_all p n :
  shallow p -> find_all p (decompose_all p n) = [].
Proof.
  intros Hp; unfold find_all; rewrite descendants_decompose_all.
  apply filter_nil, Forall_map.
  eapply Forall_impl; [|apply outside_fails].
  intros d Hd; simpl; rewrite (shallow_decompose_all p d Hp); exact Hd.
Qed.

Lemma texts_app l1 l2 : texts (l1 ++ l2) = (texts l1 ++ texts l2)%list.
Proof.
  apply flat_map_app.
Qed.

Lemma strings_texts n : strings n = texts (n :: descendants n).
Proof.
  induction n as [s|s|nm cl ats cs IH] using node_induction;
    [reflexivity|reflexivity|].
  change (texts (Elem nm cl ats cs :: descendants (Elem nm cl ats cs)))
    with (texts (descendants (Elem nm cl ats cs))).
  simpl.
  induction cs as [|c cs IHcs]; [reflexivity|].
  inversion IH as [|? ? Hc Hcs]; subst.
  simpl flat_map.
  rewrite (IHcs Hcs), Hc.
  change (c :: descendants c ++ ?l)%list with ((c :: descendants c) ++ l)%list.
  rewrite texts_app; reflexivity.
Qed.

(** The strings left after a [decompose] loop over a tag are those outside
    the removed tags. *)
Lemma strings_decompose_all p n :
  is_elem n = true ->
  strings (decompose_all p n) = texts (outside p n).
Proof.
  destruct n as [s|s|nm cl ats cs]; [discriminate|discriminate|intros _].
  rewrite strings_texts, decompose_all_elem.
  change (texts (Elem nm cl ats ?l :: descendants (Elem nm cl ats ?l)))
    with (texts (descendants (Elem nm cl ats l))).
  rewrite <- decompose_all_elem, descendants_decompose_all.
  unfold texts; rewrite flat_map_concat_map, map_map, <- flat_map_concat_map.
  apply flat_map_ext; intros [s|s|nm' cl' ats' cs'];
    [reflexivity|reflexivity|].
  rewrite decompose_all_elem; reflexivity.
Qed.

(** What [rewrite f] puts in the place of a tag it comes to is found below
    the rewritten tree. *)
Lemma rewrite_reached f n c l :
  reached f n c -> f c = Some l ->
  incl l (descendants (rewrite f n)).
Proof.
  induction 1 as [n c Hin|n m c Hin Hm Hr IH]; intros Hc x Hx.
  - destruct n as [s|s|nm cl ats cs]; [destruct Hin|destruct Hin|].
    simpl in Hin |- *.
    apply in_flat_map; exists x; split; [|left; reflexivity].
    apply in_flat_map; exists c; split; [exact Hin|].
    rewrite Hc; exact Hx.
  - destruct n as [s|s|nm cl ats cs]; [destruct Hin|destruct Hin|].
    simpl in Hin |- *.
    apply in_flat_map; exists (rewrite f m); split.
    + apply in_flat_map; exists m; split; [exact Hin|].
      rewrite Hm; left; reflexivity.
    + right; apply (IH Hc), Hx.
Qed.

End TreeFacts.

(* ================================================================== *)
(** * The sanitizers *)
(* ================================================================== *)

Section Sanitizers.
Import Bs4 Tree.

Lemma decompose_all_ext p q n :
  (forall c, p c = q c) -> decompose_all p n = decompose_all q n.
Proof.
  intros Hpq.
  induction n as [s|s|nm cl ats cs IH] using node_induction;
    [reflexivity|reflexivity|].
  rewrite !decompose_all_elem; f_equal.
  induction cs as [|c cs IHcs]; [reflexivity|].
  inversion IH as [|? ? Hc Hcs]; subst.
  simpl; rewrite (IHcs Hcs), Hpq, Hc; reflexivity.
Qed.

Lemma is_tag_in_app l1 l2 c :
  is_tag_in (l1 ++ l2) c = is_tag_in l1 c || is_tag_in l2 c.
Proof.
  apply existsb_app.
Qed.

(** The two loops of the documentation parser amount to one loop over the
    ten names. *)
Lemma docs_sanitize_once content :
  DocsParser.sanitize content
  = decompose_all
      (is_tag_in (DocsParser.non_content ++ DocsParser.scripts_and_styles))
      content.
Proof.
  unfold DocsParser.sanitize.
  rewrite decompose_all_twice by apply shallow_is_tag_in.
  apply decompose_all_ext; intros c; symmetry; apply is_tag_in_app.
Qed.

Lemma blog_sanitize_once content :
  LMSYSParser.sanitize content
  = decompose_all (is_tag_in ["style"; "script"]) content.
Proof.
  unfold LMSYSParser.sanitize.
  rewrite decompose_all_twice by apply shallow_is_tag.
  apply decompose_all_ext; intros c; unfold is_tag_in; simpl.
  rewrite orb_false_r; reflexivity.
Qed.

(** Cleaning a second time removes nothing more. *)
Lemma docs_sanitize_idempotent content :
  DocsParser.sanitize (DocsParser.sanitize content)
  = DocsParser.sanitize content.
Proof.
  rewrite !docs_sanitize_once.
  rewrite decompose_all_twice by apply shallow_is_tag_in.
  apply decompose_all_ext; intros c; apply orb_diag.
Qed.

Lemma blog_sanitize_idempotent content :
  LMSYSParser.sanitize (LMSYSParser.sanitize content)
  = LMSYSParser.sanitize content.
Proof.
  rewrite !blog_sanitize_once.
  rewrite decompose_all_twice by apply shallow_is_tag_in.
  apply decompose_all_ext; intros c; apply orb_diag.
Qed.

(** The content of the documentation parser is cleaned where it stands in
    the page. *)
Lemma extract_content_in_place soup url content :
  DocsParser.locate soup = Some content ->
  exists t1 t2,
    tokens soup = (t1 ++ node_tokens content ++ t2)%list
    /\ tokens (fst (DocsParser.extract_content soup url))
       = (t1 ++ node_tokens (DocsParser.sanitize content) ++ t2)%list
    /\ snd (DocsParser.extract_content soup url)
       = Some (DocsParser.sanitize content).
Proof.
  intros Hloc; unfold DocsParser.extract_content; rewrite Hloc.
  unfold DocsParser.locate in Hloc.
  pose proof (change_first_spec (DocsParser.locator soup)
                (fun c => [DocsParser.sanitize c]) soup) as H.
  rewrite Hloc in H; destruct H as (n' & t1 & t2 & Hn' & Ht & Ht').
  rewrite Hn'; simpl in Ht' |- *; rewrite app_nil_r in Ht'.
  exists t1, t2; auto.
Qed.

(** C7, as amended.  Within the content region, the documentation parser
    removes every tag named nav, header, footer, aside, script, style or
    link (any link, stylesheet or not), and the blog parser every style and
    script tag.  The removal cuts the tags out: none is found afterwards,
    and the strings of the region are then exactly those that stood outside
    the removed tags.  For the documentation parser the region is cleaned
    where it stands, the page around it staying as it was. *)
Theorem sanitizers_remove (content : node) :
  is_elem content = true ->
  find_all (is_tag_in (DocsParser.non_content ++ DocsParser.scripts_and_styles))
    (DocsParser.sanitize content) = []
  /\ strings (DocsParser.sanitize content)
     = texts (outside
                (is_tag_in
                   (DocsParser.non_content ++ DocsParser.scripts_and_styles))
                content)
  /\ find_all (is_tag_in ["style"; "script"]) (LMSYSParser.sanitize content)
     = []
  /\ strings (LMSYSParser.sanitize content)
     = texts (outside (is_tag_in ["style"; "script"]) content)
  /\ forall soup url,
       DocsParser.locate soup = Some content ->
       exists t1 t2,
         tokens soup = (t1 ++ node_tokens content ++ t2)%list
         /\ tokens (fst (DocsParser.extract_content soup url))
            = (t1 ++ node_tokens (DocsParser.sanitize content) ++ t2)%list
         /\ snd (DocsParser.extract_content soup url)
            = Some (DocsParser.sanitize content).
Proof.
  intros Helem.
  rewrite docs_sanitize_once, blog_sanitize_once.
  repeat split.
  - apply find_all_decompose_all, shallow_is_tag_in.
  - apply strings_decompose_all, Helem.
  - apply find_all_decompose_all, shallow_is_tag_in.
  - apply strings_decompose_all, Helem.
  - intros soup url Hloc.
    rewrite <- docs_sanitize_once.
    apply extract_content_in_place, Hloc.
Qed.

Lemma sanitizers_remove_witness :
  let content :=
    Elem "main" [] []
      [Elem "nav" [] [] [Text "menu"];
       Elem "p" [] [] [Text "text"; Elem "script" [] [] [Special "code"]];
       Elem "style" [] [] [Special "css"]] in
  is_elem content = true
  /\ strings (DocsParser.sanitize content) = ["text"]
  /\ strings (LMSYSParser.sanitize content) = ["menu"; "text"].
Proof.
  cbv zeta.
  pose proof (sanitizers_remove
                (Elem "main" [] []
                   [Elem "nav" [] [] [Text "menu"];
                    Elem "p" [] [] [Text "text"; Elem "script" [] [] [Special "code"]];
                    Elem "style" [] [] [Special "css"]]) eq_refl)
    as (_ & Hd & _ & Hb & _).
  split; [reflexivity|].
  split; [exact Hd|exact Hb].
Defined.

(** C7, the claim as stated, fails for the blog parser: its first loops
    remove style and script tags only, and a nav, header, footer or aside
    stays in the region with its text. *)
Lemma blog_keeps_navigation_counterexample :
  let content :=
    Elem "article" [] []
      [Elem "nav" [] [] [Text "menu"];
       Elem "aside" [] [] [Text "related"];
       Elem "p" [] [] [Text "text"]] in
  LMSYSParser.sanitize content = content
  /\ strings (LMSYSParser.transform (fun _ => []) (fun _ => []) content)
     = ["menu"; "related"; "text"]
  /\ find_all (is_tag_in ["nav"; "header"; "footer"; "aside"])
       (LMSYSParser.transform (fun _ => []) (fun _ => []) content)
     = [Elem "nav" [] [] [Text "menu"]; Elem "aside" [] [] [Text "related"]].
Proof.
  cbv zeta; repeat split; reflexivity.
Qed.

(** The names with a leading dot in the first loop of the documentation
    parser are compared with tag names, so a class of that name does not
    count. *)
Lemma docs_class_markers_stay :
  let content :=
    Elem "main" [] []
      [Elem "div" ["sidebar"] [] [Text "menu"]; Elem "p" [] [] [Text "text"]] in
  DocsParser.sanitize content = content.
Proof.
  reflexivity.
Qed.

End Sanitizers.

(* ================================================================== *)
(** * Locating the content *)
(* ================================================================== *)

Section Locating.
Import Bs4 Tree.

Lemma value_errors_ok {A : Type} (a : A) : value_errors (Ok a).
Proof.
  intros e H; discriminate.
Qed.

Lemma value_errors_bind {A B : Type} (r : result A) (k : A -> result B) :
  value_errors r -> (forall a, value_errors (k a)) -> value_errors (bind r k).
Proof.
  intros Hr Hk e; destruct r as [a|e']; simpl.
  - apply Hk.
  - intros H; injection H as <-; apply Hr; reflexivity.
Qed.

Lemma value_errors_if {A : Type} (b : bool) (r1 r2 : result A) :
  value_errors r1 -> value_errors r2 -> value_errors (if b then r1 else r2).
Proof.
  destruct b; auto.
Qed.

Lemma urlsplit_value_errors cb cn url sch :
  value_errors (Url.urlsplit cb cn url sch).
Proof.
  intros e; unfold Url.urlsplit.
  repeat match goal with
         | |- context [match ?x with _ => _ end] => destruct x
         end;
    intros H; try discriminate; injection H as <-; reflexivity.
Qed.

Lemma urlparse_value_errors cb cn url sch :
  value_errors (Url.urlparse cb cn url sch).
Proof.
  unfold Url.urlparse; apply value_errors_bind.
  - apply urlsplit_value_errors.
  - intros r; destruct (_ && _); [destruct (Url.splitparams _)|];
      apply value_errors_ok.
Qed.

Lemma urljoin_value_errors cb cn base url :
  value_errors (Url.urljoin cb cn base url).
Proof.
  unfold Url.urljoin.
  repeat (apply value_errors_if; [apply value_errors_ok|]).
  apply value_errors_bind; [apply urlparse_value_errors|intros b].
  apply value_errors_bind; [apply urlparse_value_errors|intros u].
  repeat (apply value_errors_if; try apply value_errors_ok).
Qed.

Lemma img_attrs_value_errors cb cn base ats :
  value_errors (DocsParser.img_attrs cb cn base ats).
Proof.
  unfold DocsParser.img_attrs.
  destruct (Py.or_ _ _) as [src|]; [|apply value_errors_ok].
  apply value_errors_if; [|apply value_errors_ok].
  apply value_errors_bind; [|intros; apply value_errors_ok].
  repeat (apply value_errors_if; try apply value_errors_ok);
    (apply value_errors_bind;
     [apply urljoin_value_errors|intros; apply value_errors_ok]).
Qed.

Lemma a_attrs_value_errors cb cn base ats :
  value_errors (DocsParser.a_attrs cb cn base ats).
Proof.
  unfold DocsParser.a_attrs.
  destruct (lookup "href" ats) as [href|]; [|apply value_errors_ok].
  apply value_errors_if; [|apply value_errors_ok].
  apply value_errors_bind;
    [apply urljoin_value_errors|intros; apply value_errors_ok].
Qed.

Lemma visit_elem nm g nm' cl ats cs :
  visit nm g (Elem nm' cl ats cs)
  = (ats' <- (if nm' =? nm then g ats else Ok ats) ;;
     cs' <- visit_list nm g cs ;;
     Ok (Elem nm' cl ats' cs')).
Proof.
  assert (H : forall l,
             (fix go (l : list node) : result (list node) :=
                match l with
                | [] => Ok []
                | c :: l' =>
                    c' <- visit nm g c ;; r <- go l' ;; Ok (c' :: r)
                end) l = visit_list nm g l).
  { induction l as [|c l IH]; simpl; [reflexivity|].
    rewrite IH; reflexivity. }
  simpl; rewrite H; reflexivity.
Qed.

Lemma visit_value_errors nm g n :
  (forall ats, value_errors (g ats)) -> value_errors (visit nm g n).
Proof.
  intros Hg.
  induction n as [s|s|nm' cl ats cs IH] using node_induction;
    [apply value_errors_ok|apply value_errors_ok|].
  rewrite visit_elem.
  apply value_errors_bind;
    [apply value_errors_if; [apply Hg|apply value_errors_ok]|intros ats'].
  apply value_errors_bind; [|intros; apply value_errors_ok].
  induction IH as [|c cs Hc Hcs IHcs]; simpl; [apply value_errors_ok|].
  apply value_errors_bind; [exact Hc|intros c'].
  apply value_errors_bind; [exact IHcs|intros; apply value_errors_ok].
Qed.

Lemma update_all_value_errors nm g n :
  (forall ats, value_errors (g ats)) -> value_errors (update_all nm g n).
Proof.
  intros Hg; destruct n as [s|s|nm' cl ats cs];
    [apply value_errors_ok|apply value_errors_ok|].
  simpl; apply value_errors_bind; [|intros; apply value_errors_ok].
  induction cs as [|c cs IH]; simpl; [apply value_errors_ok|].
  apply value_errors_bind; [apply visit_value_errors, Hg|intros c'].
  apply value_errors_bind; [exact IH|intros; apply value_errors_ok].
Qed.

Lemma save_document_value_errors md dc gvf cb cn title content meta url index :
  value_errors
    (DocsParser.save_document md dc gvf cb cn title content meta url index).
Proof.
  unfold DocsParser.save_document.
  destruct content as [content|]; [|apply value_errors_ok].
  apply value_errors_bind.
  - unfold DocsParser.base_url_of; apply value_errors_bind;
      [apply urlparse_value_errors|intros; apply value_errors_ok].
  - intros base; apply value_errors_bind; [|intros; apply value_errors_ok].
    unfold DocsParser.preprocess_content; apply value_errors_bind.
    + apply update_all_value_errors; intros; apply img_attrs_value_errors.
    + intros c; apply update_all_value_errors; intros;
        apply a_attrs_value_errors.
Qed.






End Locating.

(* ================================================================== *)
(** * What the pattern matches *)
(* ================================================================== *)

Section PatternFacts.

Lemma take_drop (n : nat) (s : string) : Py.take n s ++ Py.drop n s = s.
Proof.
  revert s; induction n as [|n IH]; intros [|c s]; simpl; auto.
  rewrite IH; reflexivity.
Qed.

Lemma drop_add (a b : nat) (s : string) :
  Py.drop b (Py.drop a s) = Py.drop (a + b) s.
Proof.
  revert s; induction a as [|a IH]; intros s; simpl; [reflexivity|].
  destruct s as [|c s]; [destruct b; reflexivity|apply IH].
Qed.

Lemma drop_app_length (a b : string) : Py.drop (length a) (a ++ b) = b.
Proof.
  induction a as [|c a IH]; simpl; [destruct b; reflexivity|exact IH].
Qed.

Lemma take_app_length (a b : string) : Py.take (length a) (a ++ b) = a.
Proof.
  induction a as [|c a IH]; simpl; [destruct b; reflexivity|].
  rewrite IH; reflexivity.
Qed.

Lemma length_append (a b : string) : length (a ++ b) = length a + length b.
Proof.
  induction a as [|c a IH]; simpl; auto.
Qed.

Lemma first_down_some {A : Type} (k : nat -> option A) (lo n : nat) (r : A) :
  Re.first_down k lo n = Some r -> exists j, lo <= j <= n /\ k j = Some r.
Proof.
  induction n as [|n IH]; simpl.
  - destruct (0 <? lo)%nat eqn:Hlo; [discriminate|].
    apply Nat.ltb_ge in Hlo.
    destruct (k 0) eqn:Hk; [|discriminate].
    intros H; injection H as <-; exists 0; split; [lia|exact Hk].
  - destruct (S n <? lo)%nat eqn:Hlo; [discriminate|].
    apply Nat.ltb_ge in Hlo.
    destruct (k (S n)) eqn:Hk.
    + intros H; injection H as <-; exists (S n); split; [lia|exact Hk].
    + intros H; destruct (IH H) as (j & Hj & Hkj).
      exists j; split; [lia|exact Hkj].
Qed.

Lemma first_up_some {A : Type} (k : nat -> option A) (n count : nat) (r : A) :
  Re.first_up k n count = Some r ->
  exists j, n <= j < n + count /\ k j = Some r.
Proof.
  revert n; induction count as [|count IH]; intros n; simpl; [discriminate|].
  destruct (k n) eqn:Hk.
  - intros H; injection H as <-; exists n; split; [lia|exact Hk].
  - intros H; destruct (IH _ H) as (j & Hj & Hkj).
    exists j; split; [lia|exact Hkj].
Qed.

Lemma run_length_take (cls : ascii -> bool) (hi : option nat) (s : string)
  (j : nat) :
  j <= Re.run_length cls hi s ->
  Py.all cls (Py.take j s) = true
  /\ length (Py.take j s) = j
  /\ match hi with
     | Some h => j <= h
     | None => True
     end.
Proof.
  revert hi j; induction s as [|c s IH]; intros hi j Hj.
  - simpl in Hj; assert (j = 0) by lia; subst j.
    repeat split; destruct hi; auto; lia.
  - destruct j as [|j]; [repeat split; destruct hi; auto; lia|].
    destruct hi as [[|h]|]; simpl in Hj; [lia| |].
    + destruct (cls c) eqn:Hc; [|lia].
      destruct (IH (Some h) j) as (Ha & Hl & Hh); [lia|].
      simpl; rewrite Hc, Ha, Hl; repeat split; lia.
    + destruct (cls c) eqn:Hc; [|lia].
      destruct (IH None j) as (Ha & Hl & _); [lia|].
      simpl; rewrite Hc, Ha, Hl; repeat split.
Qed.

(** The engine returns only matches of the pattern. *)
Lemma exec_accepts (p : Re.pattern) (s : string) (pos : nat)
  (ms ms' : list Re.mark) :
  Re.exec p s pos ms = Some ms' -> Tree.accepts p s pos ms ms'.
Proof.
  revert s pos ms; induction p as [|it p IH]; intros s pos ms.
  - intros H; injection H as <-; constructor.
  - destruct it as [cls lo hi q| |g|g]; cbn [Re.exec].
    + intros H; cbv zeta in H.
      assert (Hj : exists j, lo <= j <= Re.run_length cls hi s
                             /\ Re.exec p (Py.drop j s) (pos + j) ms = Some ms').
      { destruct q.
        - apply first_down_some in H as (j & Hj & Hk); eauto.
        - apply first_up_some in H as (j & Hj & Hk).
          exists j; split; [lia|exact Hk]. }
      destruct Hj as (j & Hj & Hk).
      destruct (@run_length_take cls hi s j) as (Ha & Hl & Hh); [lia|].
      apply Tree.accepts_rep with (chunk := Py.take j s) (rest := Py.drop j s);
        rewrite ?Hl; auto; [symmetry; apply take_drop|lia].
    + destruct (pos =? 0)%nat eqn:Hpos; [|discriminate].
      apply Nat.eqb_eq in Hpos; subst pos.
      intros H; constructor; apply IH, H.
    + intros H; constructor; apply IH, H.
    + intros H; constructor; apply IH, H.
Qed.

End PatternFacts.

Section ByPattern.

Lemma lit_chunk (c : ascii) (chunk : string) :
  Py.all (Ascii.eqb c) chunk = true ->
  1 <= length chunk -> length chunk <= 1 ->
  chunk = String c "".
Proof.
  destruct chunk as [|d [|e chunk]]; simpl; intros Ha H1 H2; try lia.
  rewrite andb_true_r in Ha; apply Ascii.eqb_eq in Ha; subst; reflexivity.
Qed.

Lemma slice (pre mid post text : string) (a b : nat) :
  text = pre ++ mid ++ post ->
  a = length pre -> b = a + length mid ->
  Py.take (b - a) (Py.drop a text) = mid.
Proof.
  intros -> -> ->.
  rewrite drop_app_length.
  replace (length pre + length mid - length pre) with (length mid) by lia.
  apply take_app_length.
Qed.

Ltac invert_accepts :=
  match goal with
  | H : Tree.accepts (_ :: _) _ _ _ _ |- _ => inversion H; subst; clear H
  | H : Tree.accepts [] _ _ _ _ |- _ => inversion H; subst; clear H
  end.

Lemma by_pattern_sound (text : string) (m : list Re.mark) :
  Re.match_ LMSYSParser.by_pattern text = Some m ->
  exists ws1 author ws2 ws3 month ws4 day ws5 year rest,
    text = "by:" ++ ws1 ++ author ++ ws2 ++ "," ++ ws3
           ++ month ++ ws4 ++ day ++ "," ++ ws5 ++ year ++ rest
    /\ Re.group text m 1 = author
    /\ Re.group text m 2 = month ++ ws4 ++ day ++ "," ++ ws5 ++ year
    /\ 0 < length author
    /\ Py.all Py.isalpha_ascii month = true /\ 0 < length month
    /\ Py.all Py.isspace ws4 = true /\ 0 < length ws4
    /\ Py.all Py.isdigit day = true /\ 0 < length day
    /\ Py.all Py.isspace ws5 = true
    /\ Py.all Py.isdigit year = true /\ length year = 4.
Proof.
  intros H; apply exec_accepts in H.
  unfold LMSYSParser.by_pattern, Re.lit in H.
  repeat invert_accepts.
  repeat match goal with
         | H : Py.all (Ascii.eqb ?c) ?chunk = true |- _ =>
             apply lit_chunk in H; [subst chunk|assumption|assumption]
         end.
  exists chunk2, chunk3, chunk4, chunk6, chunk7, chunk8, chunk9, chunk11,
    chunk12, rest0.
  split; [reflexivity|].
  split.
  { unfold Re.group; cbn [Re.opened Re.closed Nat.eqb].
    apply slice with (pre := "by:" ++ chunk2)
                     (post := chunk4 ++ "," ++ chunk6 ++ chunk7 ++ chunk8
                              ++ chunk9 ++ "," ++ chunk11 ++ chunk12 ++ rest0);
      repeat rewrite ?append_assoc, ?length_append; simpl; try reflexivity;
      lia. }
  split.
  { unfold Re.group; cbn [Re.opened Re.closed Nat.eqb].
    apply slice with (pre := "by:" ++ chunk2 ++ chunk3 ++ chunk4 ++ ","
                             ++ chunk6)
                     (post := rest0);
      repeat rewrite ?append_assoc, ?length_append; simpl;
      repeat rewrite ?append_assoc, ?length_append; simpl; try reflexivity;
      lia. }
  repeat split; try assumption; lia.
Qed.
End ByPattern.

Section DateShape.

Lemma isdigit_not_space (c : ascii) :
  Py.isdigit c = true -> Py.isspace c = false.
Proof.
  unfold Py.isdigit, Py.isspace; cbv zeta.
  generalize (nat_of_ascii c); intros n H.
  apply andb_true_iff in H as [H1 H2].
  apply Nat.leb_le in H1, H2.
  repeat (apply orb_false_iff; split);
    try (apply andb_false_iff);
    try (apply Nat.eqb_neq; lia).
  - right; apply Nat.leb_gt; lia.
  - right; apply Nat.leb_gt; lia.
Qed.

Lemma isalpha_not_space (c : ascii) :
  Py.isalpha_ascii c = true -> Py.isspace c = false.
Proof.
  unfold Py.isalpha_ascii, Py.isupper_ascii, Py.islower_ascii, Py.isspace;
    cbv zeta.
  generalize (nat_of_ascii c); intros n H.
  assert (Hn : 65 <= n).
  { apply orb_true_iff in H as [H|H]; apply andb_true_iff in H as [H1 _];
      apply Nat.leb_le in H1; lia. }
  assert (Hm : n <= 122).
  { apply orb_true_iff in H as [H|H]; apply andb_true_iff in H as [_ H2];
      apply Nat.leb_le in H2; lia. }
  repeat (apply orb_false_iff; split);
    try (apply andb_false_iff);
    try (apply Nat.eqb_neq; lia);
    right; apply Nat.leb_gt; lia.
Qed.

Lemma rstrip_digits (s : string) :
  Py.all Py.isdigit s = true -> Py.rstrip s = s.
Proof.
  induction s as [|c s IH]; simpl; [reflexivity|].
  intros H; apply andb_true_iff in H as [Hc Hs].
  rewrite (IH Hs), (isdigit_not_space _ Hc).
  destruct s; reflexivity.
Qed.

Lemma rstrip_app (a b : string) :
  Py.rstrip b = b -> 0 < length b -> Py.rstrip (a ++ b) = a ++ b.
Proof.
  intros Hb Hl; induction a as [|c a IH]; simpl; [exact Hb|].
  rewrite IH.
  destruct (a ++ b) eqn:Hab; [|reflexivity].
  apply (f_equal length) in Hab; rewrite length_append in Hab; simpl in Hab.
  lia.
Qed.

(** A date of the pattern is its own strip. *)
Lemma strip_date (month ws day ws' year : string) :
  Py.all Py.isalpha_ascii month = true -> 0 < length month ->
  Py.all Py.isdigit year = true -> length year = 4 ->
  Py.strip (month ++ ws ++ day ++ "," ++ ws' ++ year)
  = month ++ ws ++ day ++ "," ++ ws' ++ year.
Proof.
  intros Hm Hlm Hy Hly; unfold Py.strip.
  set (body := ws ++ day ++ "," ++ ws' ++ year).
  assert (Hl : Py.lstrip (month ++ body) = month ++ body).
  { destruct month as [|c month]; [simpl in Hlm; lia|].
    simpl in Hm; apply andb_true_iff in Hm as [Hc _].
    simpl; rewrite (isalpha_not_space _ Hc); reflexivity. }
  rewrite Hl; subst body.
  replace (month ++ ws ++ day ++ "," ++ ws' ++ year)
    with ((month ++ ws ++ day ++ "," ++ ws') ++ year)
    by (repeat rewrite append_assoc; reflexivity).
  apply rstrip_app; [apply rstrip_digits, Hy|lia].
Qed.

(** Whenever [extract_author_and_date] returns a date, the date is whole:
    a month name, white space, the digits of a day, a comma, maybe white
    space, and the four digits of a year. *)
Lemma date_is_whole (content : Bs4.node) (author date : string) :
  fst (LMSYSParser.extract_author_and_date content) = (author, Some date) ->
  exists month ws day ws' year,
    date = month ++ ws ++ day ++ "," ++ ws' ++ year
    /\ Py.all Py.isalpha_ascii month = true /\ 0 < length month
    /\ Py.all Py.isspace ws = true /\ 0 < length ws
    /\ Py.all Py.isdigit day = true /\ 0 < length day
    /\ Py.all Py.isspace ws' = true
    /\ Py.all Py.isdigit year = true /\ length year = 4.
Proof.
  unfold LMSYSParser.extract_author_and_date.
  destruct (Bs4.find (Bs4.is_tag "p") content) as [para|]; [|discriminate].
  cbv zeta.
  destruct (Re.match_ LMSYSParser.by_pattern (Bs4.get_text_strip para))
    as [m|] eqn:Hm; [|discriminate].
  simpl; intros H; injection H as _ <-.
  apply by_pattern_sound in Hm
    as (ws1 & a & ws2 & ws3 & month & ws4 & day & ws5 & year & rest
        & _ & _ & Hg2 & _ & Hmo & Hlmo & Hw4 & Hlw4 & Hd & Hld & Hw5 & Hy & Hly).
  exists month, ws4, day, ws5, year.
  rewrite Hg2, strip_date by assumption.
  repeat split; assumption.
Qed.

End DateShape.

(* ================================================================== *)
(** * Author and date *)
(* ================================================================== *)

Section AuthorAndDate.
Import Bs4 Tree.

(** What [extract_author_and_date] does, case by case. *)
Lemma extract_author_and_date_cases (content : node) :
  match find (is_tag "p") content with
  | Some para =>
      let text := get_text_strip para in
      match Re.match_ LMSYSParser.by_pattern text with
      | Some m =>
          exists content' t1 t2,
            LMSYSParser.extract_author_and_date content
            = ((Py.strip (Re.group text m 1),
                Some (Py.strip (Re.group text m 2))), content')
            /\ tokens content = (t1 ++ node_tokens para ++ t2)%list
            /\ tokens content' = (t1 ++ t2)%list
      | None =>
          LMSYSParser.extract_author_and_date content
          = (("LMSYS Team", None), content)
      end
  | None =>
      LMSYSParser.extract_author_and_date content
      = (("LMSYS Team", None), content)
  end.
Proof.
  unfold LMSYSParser.extract_author_and_date, decompose_first.
  pose proof (change_first_spec (is_tag "p") (fun _ => []) content) as H.
  destruct (find (is_tag "p") content) as [para|]; [|reflexivity].
  cbv zeta.
  destruct (Re.match_ LMSYSParser.by_pattern (get_text_strip para)) as [m|];
    [|reflexivity].
  destruct H as (n' & t1 & t2 & Hn' & Ht & Ht').
  rewrite Hn'; exists n', t1, t2; auto.
Qed.

(** C4.  When the text of the first paragraph of the content matches the
    pattern, the author and the date are the two groups of the match,
    stripped, and that paragraph is cut out of the content: the tokens
    before and after it remain, its own are gone.  On any other text the
    author is [LMSYS Team] and there is no date; so it is for a text that
    has the author but no date.  A first paragraph whose text is
    [by: Jane Doe, Jan 5, 2025] gives the author [Jane Doe] and the date
    [Jan 5, 2025], and is no longer in the content that is converted.  A
    date that is returned is always whole: a month name, white space, the
    digits of a day, a comma and the four digits of a year. *)
Theorem author_and_date_from_first_paragraph (content : node) :
  match find (is_tag "p") content with
  | Some para =>
      let text := get_text_strip para in
      match Re.match_ LMSYSParser.by_pattern text with
      | Some m =>
          exists content' t1 t2,
            LMSYSParser.extract_author_and_date content
            = ((Py.strip (Re.group text m 1),
                Some (Py.strip (Re.group text m 2))), content')
            /\ tokens content = (t1 ++ node_tokens para ++ t2)%list
            /\ tokens content' = (t1 ++ t2)%list
      | None =>
          LMSYSParser.extract_author_and_date content
          = (("LMSYS Team", None), content)
      end
  | None =>
      LMSYSParser.extract_author_and_date content
      = (("LMSYS Team", None), content)
  end
  /\ (forall para,
        find (is_tag "p") content = Some para ->
        get_text_strip para = "by: Jane Doe, Jan 5, 2025" ->
        exists content' t1 t2,
          LMSYSParser.extract_author_and_date content
          = (("Jane Doe", Some "Jan 5, 2025"), content')
          /\ tokens content = (t1 ++ node_tokens para ++ t2)%list
          /\ tokens content' = (t1 ++ t2)%list)
  /\ (forall para,
        find (is_tag "p") content = Some para ->
        get_text_strip para = "by: Jane Doe" ->
        LMSYSParser.extract_author_and_date content
        = (("LMSYS Team", None), content))
  /\ (forall author date,
        fst (LMSYSParser.extract_author_and_date content)
        = (author, Some date) ->
        exists month ws day ws' year,
          date = month ++ ws ++ day ++ "," ++ ws' ++ year
          /\ Py.all Py.isalpha_ascii month = true /\ 0 < length month
          /\ Py.all Py.isspace ws = true /\ 0 < length ws
          /\ Py.all Py.isdigit day = true /\ 0 < length day
          /\ Py.all Py.isspace ws' = true
          /\ Py.all Py.isdigit year = true /\ length year = 4).
Proof.
  pose proof (extract_author_and_date_cases content) as H.
  split; [exact H|split; [|split]];
    [| |intros author date; apply date_is_whole];
    intros para Hp Htext; rewrite Hp in H;
    cbv zeta in H; rewrite Htext in H; exact H.
Qed.

Lemma author_and_date_witness :
  let para := Elem "p" [] [] [Text " by: Jane Doe, Jan 5, 2025 "] in
  let content :=
    Elem "article" [] []
      [Elem "h1" [] [] [Text "Title"];
       Elem "div" [] [] [para; Elem "p" [] [] [Text "Body"]]] in
  exists content' t1 t2,
    LMSYSParser.extract_author_and_date content
    = (("Jane Doe", Some "Jan 5, 2025"), content')
    /\ tokens content = (t1 ++ node_tokens para ++ t2)%list
    /\ tokens content' = (t1 ++ t2)%list.
Proof.
  cbv zeta.
  exact (proj1 (proj2 (author_and_date_from_first_paragraph
                         (Elem "article" [] []
                            [Elem "h1" [] [] [Text "Title"];
                             Elem "div" [] []
                               [Elem "p" [] []
                                  [Text " by: Jane Doe, Jan 5, 2025 "];
                                Elem "p" [] [] [Text "Body"]]])))
           (Elem "p" [] [] [Text " by: Jane Doe, Jan 5, 2025 "])
           eq_refl eq_refl).
Defined.

Example author_and_date_example :
  let content :=
    Elem "article" [] []
      [Elem "h1" [] [] [Text "Title"];
       Elem "div" [] []
         [Elem "p" [] [] [Text " by: "; Elem "b" [] [] [Text "Jane Doe"];
                          Text ", Jan 5, 2025 "];
          Elem "p" [] [] [Text "Body"]]] in
  LMSYSParser.extract_author_and_date content
  = (("Jane Doe", Some "Jan 5, 2025"),
     Elem "article" [] []
       [Elem "h1" [] [] [Text "Title"];
        Elem "div" [] [] [Elem "p" [] [] [Text "Body"]]]).
Proof.
  reflexivity.
Qed.

(** C10.  When the content has no paragraph, or the text of its first
    paragraph does not match the pattern, [extract_author_and_date] returns
    [LMSYS Team] and no date and leaves the content as it was; the content
    changes only when the pattern matches. *)
Theorem no_match_leaves_content (content : node) :
  (forall para,
     find (is_tag "p") content = Some para ->
     Re.match_ LMSYSParser.by_pattern (get_text_strip para) = None) ->
  LMSYSParser.extract_author_and_date content
  = (("LMSYS Team", None), content).
Proof.
  intros Hno.
  pose proof (extract_author_and_date_cases content) as H.
  destruct (find (is_tag "p") content) as [para|]; [|exact H].
  cbv zeta in H; rewrite (Hno para eq_refl) in H; exact H.
Qed.

Lemma no_match_leaves_content_witness :
  let content :=
    Elem "article" [] []
      [Elem "p" [] [] [Text "by Jane Doe"]; Elem "p" [] [] [Text "Body"]] in
  LMSYSParser.extract_author_and_date content
  = (("LMSYS Team", None), content).
Proof.
  cbv zeta; apply no_match_leaves_content.
  intros para Hp; injection Hp as <-; reflexivity.
Defined.

End AuthorAndDate.

(* ================================================================== *)
(** * Code blocks and ordered lists *)
(* ================================================================== *)

Section Transformer.
Import Bs4 Tree.

Variable lines_before lines_after : nat -> list node.

Lemma concat_cons (x : string) (xs : list string) :
  String.concat "" (x :: xs) = x ++ String.concat "" xs.
Proof.
  destruct xs; simpl; [rewrite append_nil_r|]; reflexivity.
Qed.

Lemma lang_class_find (classes : list string) :
  LMSYSParser.lang_class classes
  = option_map (fun cls => Py.replace cls "language-" "")
      (List.find (fun cls => Py.startswith cls "language-") classes).
Proof.
  induction classes as [|cls classes IH]; simpl; [reflexivity|].
  destruct (Py.startswith cls "language-"); [reflexivity|exact IH].
Qed.

Lemma docs_lang_class_find (classes : list string) :
  DocsParser.lang_class classes
  = option_map
      (fun cls => if Py.startswith cls "language-"
                  then Py.replace cls "language-" "" else cls)
      (List.find (fun cls => Py.startswith cls "language-"
                             || Url.among cls DocsParser.known_languages)
         classes).
Proof.
  induction classes as [|cls classes IH]; [reflexivity|].
  cbn [DocsParser.lang_class List.find].
  destruct (Py.startswith cls "language-") eqn:Hs; cbn [orb].
  - cbn [option_map]; rewrite Hs; reflexivity.
  - destruct (Url.among cls DocsParser.known_languages); [|exact IH].
    cbn [option_map]; rewrite Hs; reflexivity.
Qed.

(** The text of a fenced block: the fence, the language if there is one,
    the text of the code as it is, the fence. *)
Lemma markdown_code_text (code : node) :
  LMSYSParser.markdown_code code
  = Py.nl ++ "```"
    ++ match List.find (fun cls => Py.startswith cls "language-")
               (classes_of code) with
       | Some cls => Py.replace cls "language-" ""
       | None => ""
       end
    ++ Py.nl ++ get_text code ++ Py.nl ++ "```" ++ Py.nl.
Proof.
  unfold LMSYSParser.markdown_code; rewrite lang_class_find.
  destruct (List.find _ (classes_of code)) as [cls|]; simpl; [|reflexivity].
  destruct (Py.truthy (Py.replace cls "language-" "")) eqn:Hl; [reflexivity|].
  destruct (Py.replace cls "language-" ""); [reflexivity|discriminate].
Qed.

(** C3, as amended.  The blog parser replaces a [pre] that wraps a [code]
    element, when its loop comes to it, by the text made of a line feed, the
    fence, the language, a line feed, the text of the code as it is, a line
    feed, the fence and a line feed.  The language is the first class token
    of the code element that starts with [language-], with [language-] taken
    out; without such a token the fence has no language, also when a token
    is a bare language name.  When that first token is [language-python]
    and the text of the code is [print(1)], the text is the block tagged
    python around [print(1)]. *)
Theorem fenced_code_block (code : node) :
  LMSYSParser.markdown_code code
  = Py.nl ++ "```"
    ++ match List.find (fun cls => Py.startswith cls "language-")
               (classes_of code) with
       | Some cls => Py.replace cls "language-" ""
       | None => ""
       end
    ++ Py.nl ++ get_text code ++ Py.nl ++ "```" ++ Py.nl
  /\ (List.find (fun cls => Py.startswith cls "language-") (classes_of code)
      = Some "language-python" ->
      get_text code = "print(1)" ->
      LMSYSParser.markdown_code code
      = Py.nl ++ "```python" ++ Py.nl ++ "print(1)" ++ Py.nl ++ "```"
        ++ Py.nl)
  /\ (forall region pre,
        reached (LMSYSParser.replace_pre lines_before lines_after) region pre ->
        is_tag "pre" pre = true ->
        find (is_tag "code") pre = Some code ->
        In (Text (LMSYSParser.markdown_code code))
          (descendants
             (LMSYSParser.code_blocks lines_before lines_after region))).
Proof.
  split; [apply markdown_code_text|].
  split; [intros Hcls Htext; rewrite markdown_code_text, Hcls, Htext;
          reflexivity|].
  intros region pre Hr Hpre Hcode.
  unfold LMSYSParser.code_blocks.
  eapply rewrite_reached; [exact Hr| |].
  - unfold LMSYSParser.replace_pre; rewrite Hpre, Hcode; reflexivity.
  - unfold LMSYSParser.spaced; apply in_or_app; right; left; reflexivity.
Qed.

End Transformer.

Lemma fenced_code_block_witness :
  let code := Bs4.Elem "code" ["hljs"; "language-python"] [] [Bs4.Text "print(1)"] in
  let pre := Bs4.Elem "pre" [] [] [code] in
  let region := Bs4.Elem "article" [] [] [Bs4.Elem "div" [] [] [pre]] in
  In (Bs4.Text (Py.nl ++ "```python" ++ Py.nl ++ "print(1)" ++ Py.nl ++ "```"
                ++ Py.nl))
    (Bs4.descendants
       (LMSYSParser.code_blocks (fun _ => [])
          (fun n => repeat (Bs4.Text Py.nl) n) region)).
Proof.
  cbv zeta.
  refine (proj2 (proj2
            (fenced_code_block (fun _ => [])
               (fun n => repeat (Bs4.Text Py.nl) n)
               (Bs4.Elem "code" ["hljs"; "language-python"] []
                  [Bs4.Text "print(1)"])))
            (Bs4.Elem "article" [] []
               [Bs4.Elem "div" [] []
                  [Bs4.Elem "pre" [] []
                     [Bs4.Elem "code" ["hljs"; "language-python"] []
                        [Bs4.Text "print(1)"]]]])
            (Bs4.Elem "pre" [] []
               [Bs4.Elem "code" ["hljs"; "language-python"] []
                  [Bs4.Text "print(1)"]])
            _ eq_refl eq_refl).
  eapply Tree.reached_below with (m := Bs4.Elem "div" [] [] _);
    [left; reflexivity|reflexivity|].
  apply Tree.reached_child; left; reflexivity.
Defined.

(** C3, the claim as stated, fails: the blog parser, the one that writes
    the fence, knows no list of bare language names, so a code element of
    class [python] gets a fence without language. *)
Lemma bare_language_counterexample :
  let code := Bs4.Elem "code" ["python"] [] [Bs4.Text "print(1)"] in
  LMSYSParser.markdown_code code
  = Py.nl ++ "```" ++ Py.nl ++ "print(1)" ++ Py.nl ++ "```" ++ Py.nl
  /\ LMSYSParser.code_blocks (fun _ => []) (fun _ => [])
       (Bs4.Elem "article" [] [] [Bs4.Elem "pre" [] [] [code]])
     = Bs4.Elem "article" [] []
         [Bs4.Text (Py.nl ++ "```" ++ Py.nl ++ "print(1)" ++ Py.nl ++ "```"
                    ++ Py.nl)].
Proof.
  cbv zeta; repeat split; reflexivity.
Qed.

Section OrderedLists.
Import Bs4 Tree.

Variable lines_before lines_after : nat -> list node.

Lemma ol_loop_numbered (items : list node) (idx : nat) (acc : string) :
  LMSYSParser.ol_loop items idx acc
  = acc ++ String.concat ""
             (Spec.numbered idx (List.map get_text_strip items)).
Proof.
  revert idx acc; induction items as [|li items IH]; intros idx acc.
  - simpl; rewrite append_nil_r; reflexivity.
  - cbn [LMSYSParser.ol_loop List.map Spec.numbered].
    rewrite IH, concat_cons, !append_assoc; reflexivity.
Qed.

(** C9, as amended.  For every ordered list the loop over the ordered
    lists comes to (one that is in the content when that loop starts and
    lies inside no other ordered list), the list gives way to the text made
    of one line per direct [li] child, in document order: the number, a dot,
    a space, the stripped text of the item and a line feed, the numbers
    running 1, 2, ... anew for each list.  A list of three items gives the
    lines numbered 1., 2. and 3. whatever attributes the list and its items
    carry. *)
Theorem ordered_list_numbering (ol : node) :
  LMSYSParser.ol_markdown ol
  = String.concat ""
      (Spec.numbered 1
         (List.map get_text_strip (find_children (is_tag "li") ol)))
  /\ (forall cl ats a b c,
        is_tag "li" a = true -> is_tag "li" b = true -> is_tag "li" c = true ->
        LMSYSParser.ol_markdown (Elem "ol" cl ats [a; b; c])
        = "1. " ++ get_text_strip a ++ Py.nl
          ++ "2. " ++ get_text_strip b ++ Py.nl
          ++ "3. " ++ get_text_strip c ++ Py.nl)
  /\ (forall region,
        reached (LMSYSParser.replace_ol lines_before lines_after) region ol ->
        is_tag "ol" ol = true ->
        In (Text (LMSYSParser.ol_markdown ol))
          (descendants
             (LMSYSParser.ordered_lists lines_before lines_after region))).
Proof.
  split; [|split].
  - unfold LMSYSParser.ol_markdown; rewrite ol_loop_numbered; reflexivity.
  - intros cl ats a b c Ha Hb Hc.
    unfold LMSYSParser.ol_markdown, find_children; simpl.
    rewrite Ha, Hb, Hc; unfold Py.nl; simpl.
    repeat (rewrite !append_assoc; simpl); reflexivity.
  - intros region Hr Hol.
    unfold LMSYSParser.ordered_lists.
    eapply rewrite_reached; [exact Hr| |].
    + unfold LMSYSParser.replace_ol; rewrite Hol; reflexivity.
    + unfold LMSYSParser.spaced; apply in_or_app; right; left; reflexivity.
Qed.

End OrderedLists.

Lemma ordered_list_numbering_witness :
  let li := fun ats s => Bs4.Elem "li" [] ats [Bs4.Text s] in
  let first := Bs4.Elem "ol" [] [("start", "5")]
                 [li [] " x "; Bs4.Text " "; li [("value", "9")] "y"; li [] "z"] in
  let second := Bs4.Elem "ol" [] [] [li [] "u"] in
  let region := Bs4.Elem "article" [] [] [first; Bs4.Elem "div" [] [] [second]] in
  let out := LMSYSParser.ordered_lists (fun _ => [])
               (fun n => repeat (Bs4.Text Py.nl) n) region in
  In (Bs4.Text ("1. x" ++ Py.nl ++ "2. y" ++ Py.nl ++ "3. z" ++ Py.nl))
    (Bs4.descendants out)
  /\ In (Bs4.Text ("1. u" ++ Py.nl)) (Bs4.descendants out).
Proof.
  cbv zeta; split.
  - refine (proj2 (proj2
              (ordered_list_numbering (fun _ => [])
                 (fun n => repeat (Bs4.Text Py.nl) n)
                 (Bs4.Elem "ol" [] [("start", "5")]
                    [Bs4.Elem "li" [] [] [Bs4.Text " x "]; Bs4.Text " ";
                     Bs4.Elem "li" [] [("value", "9")] [Bs4.Text "y"];
                     Bs4.Elem "li" [] [] [Bs4.Text "z"]]))) _ _ eq_refl).
    apply Tree.reached_child; left; reflexivity.
  - refine (proj2 (proj2
              (ordered_list_numbering (fun _ => [])
                 (fun n => repeat (Bs4.Text Py.nl) n)
                 (Bs4.Elem "ol" [] []
                    [Bs4.Elem "li" [] [] [Bs4.Text "u"]]))) _ _ eq_refl).
    eapply Tree.reached_below with (m := Bs4.Elem "div" [] [] _);
      [right; left; reflexivity|reflexivity|].
    apply Tree.reached_child; left; reflexivity.
Defined.

(** C9, the claim as stated, fails for an ordered list inside an item of an
    unordered list: the loop over the unordered lists runs first and puts
    the text of the item in the place of the whole list, so the items of the
    ordered list come out as one unnumbered line. *)
Lemma nested_ordered_list_counterexample :
  let ol := Bs4.Elem "ol" [] []
              [Bs4.Elem "li" [] [] [Bs4.Text "a"];
               Bs4.Elem "li" [] [] [Bs4.Text "b"]] in
  let region :=
    Bs4.Elem "article" [] []
      [Bs4.Elem "ul" [] [] [Bs4.Elem "li" [] [] [Bs4.Text "steps"; ol]]] in
  Bs4.find_all (Bs4.is_tag "ol") region = [ol]
  /\ LMSYSParser.transform (fun _ => []) (fun _ => []) region
     = Bs4.Elem "article" [] [] [Bs4.Text ("- stepsab" ++ Py.nl)]
  /\ LMSYSParser.ol_markdown ol = "1. a" ++ Py.nl ++ "2. b" ++ Py.nl.
Proof.
  cbv zeta; repeat split; reflexivity.
Qed.

(* ================================================================== *)
(** * Image addresses *)
(* ================================================================== *)

Section References.
Import Bs4 Tree.

Variable check_bracketed_netloc : string -> bool.
Variable checknetloc_nfkc : string -> bool.

#[local] Abbreviation urljoin := (DocsParser.urljoin check_bracketed_netloc checknetloc_nfkc).
#[local] Abbreviation img_attrs :=
  (DocsParser.img_attrs check_bracketed_netloc checknetloc_nfkc).
#[local] Abbreviation a_attrs := (DocsParser.a_attrs check_bracketed_netloc checknetloc_nfkc).
#[local] Abbreviation preprocess_content :=
  (DocsParser.preprocess_content check_bracketed_netloc checknetloc_nfkc).
#[local] Abbreviation base_url_of :=
  (DocsParser.base_url_of check_bracketed_netloc checknetloc_nfkc).
#[local] Abbreviation src_resolved :=
  (Tree.src_resolved check_bracketed_netloc checknetloc_nfkc).

Lemma lookup_store_same k v d : lookup k (store k v d) = Some v.
Proof.
  induction d as [|[k' v'] d IH]; simpl.
  - rewrite String.eqb_refl; reflexivity.
  - destruct (k' =? k) eqn:Hk; simpl.
    + rewrite String.eqb_refl; reflexivity.
    + rewrite Hk; exact IH.
Qed.

Lemma lookup_store_other k k' v d :
  (k' =? k) = false -> lookup k (store k' v d) = lookup k d.
Proof.
  intros Hk; induction d as [|[k0 v0] d IH]; simpl.
  - rewrite Hk; reflexivity.
  - destruct (k0 =? k') eqn:H0; simpl.
    + apply String.eqb_eq in H0; subst k0; rewrite Hk; reflexivity.
    + destruct (k0 =? k); [reflexivity|exact IH].
Qed.

Lemma visit_tokens nm g n n' :
  visit nm g n = Ok n' ->
  Forall2 (same_but_attrs (updated nm g)) (node_tokens n) (node_tokens n').
Proof.
  revert n'.
  induction n as [s|s|nm0 cl ats cs IH] using node_induction; intros n' Hn'.
  - injection Hn' as <-; repeat constructor.
  - injection Hn' as <-; repeat constructor.
  - rewrite visit_elem in Hn'.
    destruct (if nm0 =? nm then g ats else Ok ats) as [ats'|e] eqn:Hats;
      [|discriminate].
    simpl in Hn'.
    destruct (visit_list nm g cs) as [cs'|e] eqn:Hcs; [|discriminate].
    injection Hn' as <-.
    simpl; constructor.
    + simpl; repeat split; unfold updated.
      destruct (nm0 =? nm); [exact Hats|congruence].
    + apply Forall2_app; [|repeat constructor].
      clear Hats; revert cs' Hcs.
      induction IH as [|c cs Hc _ IHcs]; intros cs' Hcs; simpl in Hcs.
      * injection Hcs as <-; constructor.
      * destruct (visit nm g c) as [c'|e] eqn:Hc'; [|discriminate].
        simpl in Hcs.
        destruct (visit_list nm g cs) as [cs''|e] eqn:Hcs''; [|discriminate].
        injection Hcs as <-; simpl.
        apply Forall2_app; [apply Hc; reflexivity|apply IHcs; reflexivity].
Qed.

Lemma update_all_tokens nm g n n' :
  update_all nm g n = Ok n' ->
  Forall2 (same_but_attrs (updated nm g)) (tokens n) (tokens n').
Proof.
  destruct n as [s|s|nm0 cl ats cs]; simpl; intros Hn'.
  - injection Hn' as <-; constructor.
  - injection Hn' as <-; constructor.
  - destruct (visit_list nm g cs) as [cs'|e] eqn:Hcs; [|discriminate].
    injection Hn' as <-; unfold tokens; simpl.
    revert cs' Hcs; induction cs as [|c cs IH]; intros cs' Hcs; simpl in Hcs.
    + injection Hcs as <-; constructor.
    + destruct (visit nm g c) as [c'|e] eqn:Hc'; [|discriminate].
      simpl in Hcs.
      destruct (visit_list nm g cs) as [cs''|e] eqn:Hcs''; [|discriminate].
      injection Hcs as <-; simpl.
      apply Forall2_app; [apply visit_tokens, Hc'|apply IH; reflexivity].
Qed.

Lemma Forall2_compose {A : Type} (R S T : A -> A -> Prop) l1 l2 l3 :
  (forall x y z, R x y -> S y z -> T x z) ->
  Forall2 R l1 l2 -> Forall2 S l2 l3 -> Forall2 T l1 l3.
Proof.
  intros HT H12; revert l3; induction H12 as [|x y l1 l2 Hxy _ IH];
    intros l3 H23; inversion H23; subst; constructor; eauto.
Qed.

Lemma img_attrs_resolved base ats ats' :
  img_attrs base ats = Ok ats' -> src_resolved base ats ats'.
Proof.
  unfold DocsParser.img_attrs, Tree.src_resolved.
  destruct (Py.or_ (lookup "src" ats) (lookup "data-src" ats)) as [src|];
    [|intros H; injection H as <-; reflexivity].
  destruct (Py.truthy src); simpl;
    [|intros H; injection H as <-; reflexivity].
  assert (Halt : forall d : list (string * string),
             lookup "src"
               (if negb (Py.truthy_value (lookup "alt" d))
                then store "alt" "" d else d) = lookup "src" d).
  { intros d; destruct (negb _); [|reflexivity].
    apply lookup_store_other; reflexivity. }
  destruct (Py.startswith src "/"); simpl.
  - destruct (urljoin base src) as [u|e]; simpl; [|discriminate].
    intros H; injection H as <-; exists u; split; [reflexivity|].
    rewrite Halt; apply lookup_store_same.
  - destruct (Py.startswith src "http"); simpl.
    + intros H; injection H as <-; apply Halt.
    + destruct (urljoin base src) as [u|e]; simpl; [|discriminate].
      intros H; injection H as <-; exists u; split; [reflexivity|].
      rewrite Halt; apply lookup_store_same.
Qed.

(** The loop over the images, for the base address it is given: every
    [img] whose source ([src], or else [data-src]) is not empty and starts
    with a slash, or does not start with [http], gets as [src] the result of
    [urljoin] on that base and the source; every other [src] stays, and but
    for attributes the content stays as it was. *)
Lemma image_sources_joined (content content' : node) (base : string) :
  preprocess_content content base = Ok content' ->
  Forall2
    (same_but_attrs
       (fun nm ats ats' => nm = "img" -> src_resolved base ats ats'))
    (tokens content) (tokens content').
Proof.
  intros Hpre.
  unfold DocsParser.preprocess_content in Hpre.
  destruct (update_all "img" (img_attrs base) content) as [c1|e] eqn:H1;
    [|discriminate].
  simpl in Hpre.
  eapply Forall2_compose;
    [|apply update_all_tokens, H1|apply update_all_tokens, Hpre].
  intros [nm cl ats|s|s|] [nm1 cl1 ats1|s1|s1|] [nm2 cl2 ats2|s2|s2|];
    simpl; try tauto; try congruence.
  intros (-> & -> & Hu1) (-> & -> & Hu2); repeat split.
  intros ->; unfold updated in Hu1, Hu2; simpl in Hu1, Hu2.
  subst ats2; apply img_attrs_resolved, Hu1.
Qed.

End References.

(** C5: the code at the failing inputs.  [save_document] makes the base
    address of the scheme and the host name of the page address and hands
    only that to [preprocess_content], so the path of the page and the port
    are lost.  On the page [https://x.org/docs/guide/page.html] the sources
    [../x.png] and [x.png] both become [https://x.org/x.png], where joining
    them to the page address gives [https://x.org/docs/x.png] and
    [https://x.org/docs/guide/x.png]; on the page
    [http://localhost:8000/docs/index.html] the source [/img/a.png] becomes
    [http://localhost/img/a.png], an address on another port, where joining
    gives [http://localhost:8000/img/a.png].  Only a source that starts
    with a slash, on a page without a port, comes out as joining gives it:
    [/img/a.png] on [https://x.org] becomes [https://x.org/img/a.png]. *)
Lemma relative_sources_lose_the_page :
  let page := "https://x.org/docs/guide/page.html" in
  let local := "http://localhost:8000/docs/index.html" in
  let cb := fun _ : string => true in
  let content :=
    Bs4.Elem "main" [] []
      [Bs4.Elem "img" [] [("src", "../x.png")] [];
       Bs4.Elem "img" [] [("src", "x.png")] []] in
  let image :=
    Bs4.Elem "main" [] [] [Bs4.Elem "img" [] [("src", "/img/a.png")] []] in
  DocsParser.base_url_of cb cb page = Ok "https://x.org"
  /\ DocsParser.preprocess_content cb cb content "https://x.org"
     = Ok (Bs4.Elem "main" [] []
             [Bs4.Elem "img" [] [("src", "https://x.org/x.png"); ("alt", "")] [];
              Bs4.Elem "img" [] [("src", "https://x.org/x.png"); ("alt", "")] []])
  /\ Url.urljoin cb cb page "../x.png" = Ok "https://x.org/docs/x.png"
  /\ Url.urljoin cb cb page "x.png" = Ok "https://x.org/docs/guide/x.png"
  /\ DocsParser.base_url_of cb cb local = Ok "http://localhost"
  /\ DocsParser.preprocess_content cb cb image "http://localhost"
     = Ok (Bs4.Elem "main" [] []
             [Bs4.Elem "img" []
                [("src", "http://localhost/img/a.png"); ("alt", "")] []])
  /\ Url.urljoin cb cb local "/img/a.png"
     = Ok "http://localhost:8000/img/a.png"
  /\ DocsParser.preprocess_content cb cb image "https://x.org"
     = Ok (Bs4.Elem "main" [] []
             [Bs4.Elem "img" []
                [("src", "https://x.org/img/a.png"); ("alt", "")] []]).
Proof.
  cbv zeta; repeat split; vm_compute; reflexivity.
Qed.

(* ================================================================== *)
(** * The order of the content selectors *)
(* ================================================================== *)

Section SelectorOrder.
Import Bs4 Tree.

(** The loop of the documentation parser stops at the first selector of
    the list that matches a tag. *)
Lemma docs_select_first_find (sels : list selector) (soup : node) :
  DocsParser.select_first sels soup
  = List.find (fun sel => answered (select_one sel soup)) sels.
Proof.
  induction sels as [|sel sels IH]; simpl; [reflexivity|].
  destruct (select_one sel soup); [reflexivity|exact IH].
Qed.

Lemma blog_select_first_find (sels : list selector) (soup : node) :
  LMSYSParser.select_first sels soup
  = match List.find (fun sel => answered (select_one sel soup)) sels with
    | Some sel => select_one sel soup
    | None => None
    end.
Proof.
  induction sels as [|sel sels IH]; simpl; [reflexivity|].
  destruct (select_one sel soup) as [c|] eqn:Hc; simpl; [|exact IH].
  symmetry; exact Hc.
Qed.

Lemma find_split {A : Type} (p : A -> bool) (l : list A) :
  match List.find p l with
  | Some x =>
      exists before after,
        l = (before ++ x :: after)%list
        /\ p x = true
        /\ Forall (fun y => p y = false) before
  | None => Forall (fun y => p y = false) l
  end.
Proof.
  induction l as [|y l IH]; simpl; [constructor|].
  destruct (p y) eqn:Hy.
  - exists [], l; auto.
  - destruct (List.find p l) as [x|].
    + destruct IH as (b & a & -> & Hx & Hb).
      exists (y :: b), a; auto.
    + constructor; auto.
Qed.

(** X1.  Both parsers take as content the first match of the first
    selector, in the order of their list, that matches any tag of the page,
    wherever the matches of later selectors stand; the first [body] is
    taken only when no selector of the list matches.  The selector that
    wins stands in the list after selectors without a match only. *)
Theorem content_selector_order (soup : node) :
  (match List.find (fun sel => answered (select_one sel soup))
           DocsParser.content_selectors with
   | Some sel =>
       DocsParser.locate soup = select_one sel soup
       /\ answered (select_one sel soup) = true
       /\ exists before after,
            DocsParser.content_selectors = (before ++ sel :: after)%list
            /\ Forall (fun s => select_one s soup = None) before
   | None =>
       DocsParser.locate soup = find (is_tag "body") soup
       /\ Forall (fun s => select_one s soup = None)
            DocsParser.content_selectors
   end)
  /\ (match List.find (fun sel => answered (select_one sel soup))
             LMSYSParser.content_selectors with
      | Some sel =>
          LMSYSParser.locate soup = select_one sel soup
          /\ answered (select_one sel soup) = true
          /\ exists before after,
               LMSYSParser.content_selectors = (before ++ sel :: after)%list
               /\ Forall (fun s => select_one s soup = None) before
      | None =>
          LMSYSParser.locate soup = find (is_tag "body") soup
          /\ Forall (fun s => select_one s soup = None)
               LMSYSParser.content_selectors
      end).
Proof.
  assert (Hnone : forall l : list selector,
             Forall (fun y => answered (select_one y soup) = false) l ->
             Forall (fun s => select_one s soup = None) l).
  { intros l; apply Forall_impl; intros s.
    destruct (select_one s soup); [discriminate|reflexivity]. }
  split.
  - unfold DocsParser.locate, DocsParser.locator.
    rewrite docs_select_first_find.
    pose proof (find_split (fun sel => answered (select_one sel soup))
                  DocsParser.content_selectors) as H.
    destruct (List.find _ DocsParser.content_selectors) as [sel|].
    + destruct H as (b & a & Hl & Hsel & Hb).
      split; [reflexivity|split; [exact Hsel|]].
      exists b, a; auto.
    + split; [reflexivity|auto].
  - unfold LMSYSParser.locate.
    rewrite blog_select_first_find.
    pose proof (find_split (fun sel => answered (select_one sel soup))
                  LMSYSParser.content_selectors) as H.
    destruct (List.find _ LMSYSParser.content_selectors) as [sel|].
    + destruct H as (b & a & Hl & Hsel & Hb).
      destruct (select_one sel soup) as [c|]; [|discriminate].
      split; [reflexivity|split; [reflexivity|]].
      exists b, a; auto.
    + split; [reflexivity|auto].
Qed.

End SelectorOrder.

(* ================================================================== *)
(** * Cleaning twice *)
(* ================================================================== *)

Section CleaningTwice.
Import Bs4 Tree.

(** X2.  Cleaning a region that was already cleaned changes nothing, in
    either parser, and the cleaning of the blog parser removes nothing
    from a region the documentation parser has cleaned. *)
Theorem cleaning_is_idempotent (content : node) :
  DocsParser.sanitize (DocsParser.sanitize content)
  = DocsParser.sanitize content
  /\ LMSYSParser.sanitize (LMSYSParser.sanitize content)
     = LMSYSParser.sanitize content
  /\ LMSYSParser.sanitize (DocsParser.sanitize content)
     = DocsParser.sanitize content.
Proof.
  split; [apply docs_sanitize_idempotent|].
  split; [apply blog_sanitize_idempotent|].
  rewrite blog_sanitize_once, docs_sanitize_once.
  rewrite decompose_all_twice by apply shallow_is_tag_in.
  apply decompose_all_ext; intros [s|s|nm cl ats cs];
    [reflexivity|reflexivity|].
  unfold is_tag_in; simpl.
  repeat (destruct (nm =? _); simpl; try reflexivity).
Qed.

End CleaningTwice.

(* ================================================================== *)
(** * Links and alternative texts of the documentation parser *)
(* ================================================================== *)

Section Attributes.
Import Bs4 Tree.

Variable check_bracketed_netloc : string -> bool.
Variable checknetloc_nfkc : string -> bool.

#[local] Abbreviation urljoin :=
  (DocsParser.urljoin check_bracketed_netloc checknetloc_nfkc).
#[local] Abbreviation img_attrs :=
  (DocsParser.img_attrs check_bracketed_netloc checknetloc_nfkc).
#[local] Abbreviation a_attrs :=
  (DocsParser.a_attrs check_bracketed_netloc checknetloc_nfkc).
#[local] Abbreviation preprocess_content :=
  (DocsParser.preprocess_content check_bracketed_netloc checknetloc_nfkc).
#[local] Abbreviation href_resolved :=
  (Tree.href_resolved check_bracketed_netloc checknetloc_nfkc).

Lemma Forall2_weaken {A : Type} (R S : A -> A -> Prop) l1 l2 :
  (forall x y, R x y -> S x y) -> Forall2 R l1 l2 -> Forall2 S l1 l2.
Proof.
  intros HS; induction 1; constructor; auto.
Qed.

(** The two loops of [preprocess_content] tag by tag: an [img] goes
    through the first, an [a] through the second, any other tag through
    neither. *)
Lemma preprocess_tokens (content content' : node) (base : string) :
  preprocess_content content base = Ok content' ->
  Forall2
    (same_but_attrs
       (fun nm ats ats' =>
          if nm =? "img" then img_attrs base ats = Ok ats'
          else if nm =? "a" then a_attrs base ats = Ok ats'
          else ats' = ats))
    (tokens content) (tokens content').
Proof.
  intros Hpre; unfold DocsParser.preprocess_content in Hpre.
  destruct (update_all "img" (img_attrs base) content) as [c1|e] eqn:H1;
    [|discriminate].
  simpl in Hpre.
  eapply Forall2_compose;
    [|apply update_all_tokens, H1|apply update_all_tokens, Hpre].
  intros [nm cl ats|s|s|] [nm1 cl1 ats1|s1|s1|] [nm2 cl2 ats2|s2|s2|];
    simpl; try tauto; try congruence.
  intros (-> & -> & Hu1) (-> & -> & Hu2); repeat split.
  unfold updated in Hu1, Hu2.
  destruct (nm =? "img") eqn:Himg.
  - apply String.eqb_eq in Himg; subst nm; simpl in Hu2; subst ats2.
    exact Hu1.
  - subst ats1; destruct (nm =? "a"); [exact Hu2|exact Hu2].
Qed.

Lemma a_attrs_resolved base ats ats' :
  a_attrs base ats = Ok ats' ->
  href_resolved base ats ats'
  /\ forall k, (k =? "href") = false -> lookup k ats' = lookup k ats.
Proof.
  unfold DocsParser.a_attrs, Tree.href_resolved.
  destruct (lookup "href" ats) as [href|];
    [|intros H; injection H as <-; auto].
  destruct (Py.truthy href && Py.startswith href "/");
    [|intros H; injection H as <-; auto].
  destruct (urljoin base href) as [u|e]; simpl; [|discriminate].
  intros H; injection H as <-; split.
  - exists u; split; [reflexivity|apply lookup_store_same].
  - intros k Hk; apply lookup_store_other.
    rewrite String.eqb_sym; exact Hk.
Qed.

Lemma img_attrs_alt base ats ats' :
  img_attrs base ats = Ok ats' ->
  alt_defaulted ats ats'
  /\ forall k, (k =? "src") = false -> (k =? "alt") = false ->
               lookup k ats' = lookup k ats.
Proof.
  unfold DocsParser.img_attrs, Tree.alt_defaulted.
  destruct (Py.or_ (lookup "src" ats) (lookup "data-src" ats)) as [src|];
    [|intros H; injection H as <-; auto].
  destruct (Py.truthy src); [|intros H; injection H as <-; auto].
  assert (Halt : forall d : list (string * string),
             lookup "alt"
               (if negb (Py.truthy_value (lookup "alt" d))
                then store "alt" "" d else d)
             = Some (Py.or_str (lookup "alt" d) "")
             /\ forall k, (k =? "alt") = false ->
                  lookup k (if negb (Py.truthy_value (lookup "alt" d))
                            then store "alt" "" d else d) = lookup k d).
  { intros d; unfold Py.truthy_value, Py.or_str.
    destruct (lookup "alt" d) as [a|] eqn:Ha; simpl.
    - destruct (Py.truthy a); simpl.
      + split; [exact Ha|reflexivity].
      + split; [apply lookup_store_same|].
        intros k Hk; apply lookup_store_other.
        rewrite String.eqb_sym; exact Hk.
    - split; [apply lookup_store_same|].
      intros k Hk; apply lookup_store_other.
      rewrite String.eqb_sym; exact Hk. }
  assert (Hsrc : forall u k, (k =? "src") = false ->
             lookup k (store "src" u ats) = lookup k ats).
  { intros u k Hk; apply lookup_store_other.
    rewrite String.eqb_sym; exact Hk. }
  assert (Hjoin : forall ats1,
             (forall k, (k =? "src") = false -> lookup k ats1 = lookup k ats) ->
             lookup "alt"
               (if negb (Py.truthy_value (lookup "alt" ats1))
                then store "alt" "" ats1 else ats1)
             = Some (Py.or_str (lookup "alt" ats) "")
             /\ forall k, (k =? "src") = false -> (k =? "alt") = false ->
                  lookup k (if negb (Py.truthy_value (lookup "alt" ats1))
                            then store "alt" "" ats1 else ats1)
                  = lookup k ats).
  { intros ats1 H1; destruct (Halt ats1) as [Ha Hk]; split.
    - rewrite Ha, (H1 "alt" eq_refl); reflexivity.
    - intros k Hs Hal; rewrite (Hk k Hal); apply H1, Hs. }
  destruct (Py.startswith src "/"); simpl.
  - destruct (urljoin base src) as [u|e]; simpl; [|discriminate].
    intros H; injection H as <-; apply Hjoin, Hsrc.
  - destruct (Py.startswith src "http"); simpl.
    + intros H; injection H as <-; apply Hjoin; reflexivity.
    + destruct (urljoin base src) as [u|e]; simpl; [|discriminate].
      intros H; injection H as <-; apply Hjoin, Hsrc.
Qed.

(** X3.  In the documentation parser every [a] of the content whose
    [href] is not empty and starts with a slash gets as [href] the result
    of [urljoin] on the base address and that [href]; an [a] with any
    other [href] (relative without a leading slash, absolute, a fragment,
    empty) or without one keeps its attributes, and so does every tag that
    is neither an [a] nor an [img].  No attribute of an [a] but [href]
    changes, and the tags, their classes and the strings of the content
    stay as they were. *)
Theorem anchors_resolved (content content' : node) (base : string) :
  preprocess_content content base = Ok content' ->
  Forall2
    (same_but_attrs
       (fun nm ats ats' =>
          (nm = "a" ->
           href_resolved base ats ats'
           /\ forall k, (k =? "href") = false -> lookup k ats' = lookup k ats)
          /\ ((nm =? "a") = false -> (nm =? "img") = false -> ats' = ats)))
    (tokens content) (tokens content').
Proof.
  intros Hpre; eapply Forall2_weaken; [|apply preprocess_tokens, Hpre].
  intros [nm cl ats|s|s|] [nm' cl' ats'|s'|s'|]; simpl; try tauto.
  intros (-> & -> & H); split; [reflexivity|split; [reflexivity|]].
  split.
  - intros ->; simpl in H; apply (a_attrs_resolved _ _ H).
  - intros Ha Himg; rewrite Himg, Ha in H; exact H.
Qed.

(** X4.  In the documentation parser every [img] of the content with a
    non-empty source ([src], or else [data-src]) has an [alt] attribute
    afterwards: its own when that was not empty, the empty string
    otherwise.  An [img] without a source keeps its attributes, and no
    attribute of an [img] but [src] and [alt] changes. *)
Theorem image_alt_defaulted (content content' : node) (base : string) :
  preprocess_content content base = Ok content' ->
  Forall2
    (same_but_attrs
       (fun nm ats ats' =>
          nm = "img" ->
          alt_defaulted ats ats'
          /\ forall k, (k =? "src") = false -> (k =? "alt") = false ->
                       lookup k ats' = lookup k ats))
    (tokens content) (tokens content').
Proof.
  intros Hpre; eapply Forall2_weaken; [|apply preprocess_tokens, Hpre].
  intros [nm cl ats|s|s|] [nm' cl' ats'|s'|s'|]; simpl; try tauto.
  intros (-> & -> & H); split; [reflexivity|split; [reflexivity|]].
  intros ->; simpl in H; apply (img_attrs_alt _ _ H).
Qed.

End Attributes.

Lemma anchors_resolved_witness :
  let content :=
    Bs4.Elem "main" [] []
      [Bs4.Elem "p" [] [("id", "x")]
         [Bs4.Elem "a" ["ref"] [("href", "/guide"); ("title", "t")]
            [Bs4.Text "guide"];
          Bs4.Elem "a" [] [("href", "page.html")] [Bs4.Text "page"];
          Bs4.Elem "a" [] [("href", "#top")] [Bs4.Text "top"]]] in
  let content' :=
    Bs4.Elem "main" [] []
      [Bs4.Elem "p" [] [("id", "x")]
         [Bs4.Elem "a" ["ref"]
            [("href", "https://x.org/guide"); ("title", "t")]
            [Bs4.Text "guide"];
          Bs4.Elem "a" [] [("href", "page.html")] [Bs4.Text "page"];
          Bs4.Elem "a" [] [("href", "#top")] [Bs4.Text "top"]]] in
  Forall2
    (Tree.same_but_attrs
       (fun nm ats ats' =>
          (nm = "a" ->
           Tree.href_resolved (fun _ => true) (fun _ => true) "https://x.org"
             ats ats'
           /\ forall k, (k =? "href") = false ->
                        Bs4.lookup k ats' = Bs4.lookup k ats)
          /\ ((nm =? "a") = false -> (nm =? "img") = false -> ats' = ats)))
    (Bs4.tokens content) (Bs4.tokens content').
Proof.
  cbv zeta.
  exact (@anchors_resolved (fun _ => true) (fun _ => true)
           (Bs4.Elem "main" [] []
              [Bs4.Elem "p" [] [("id", "x")]
                 [Bs4.Elem "a" ["ref"] [("href", "/guide"); ("title", "t")]
                    [Bs4.Text "guide"];
                  Bs4.Elem "a" [] [("href", "page.html")] [Bs4.Text "page"];
                  Bs4.Elem "a" [] [("href", "#top")] [Bs4.Text "top"]]])
           (Bs4.Elem "main" [] []
              [Bs4.Elem "p" [] [("id", "x")]
                 [Bs4.Elem "a" ["ref"]
                    [("href", "https://x.org/guide"); ("title", "t")]
                    [Bs4.Text "guide"];
                  Bs4.Elem "a" [] [("href", "page.html")] [Bs4.Text "page"];
                  Bs4.Elem "a" [] [("href", "#top")] [Bs4.Text "top"]]])
           "https://x.org" eq_refl).
Defined.

Lemma image_alt_defaulted_witness :
  let content :=
    Bs4.Elem "main" [] []
      [Bs4.Elem "img" [] [("src", "http://y.org/a.png"); ("width", "3")] [];
       Bs4.Elem "img" [] [("data-src", "b.png"); ("alt", "B")] [];
       Bs4.Elem "img" [] [("alt", "")] []] in
  let content' :=
    Bs4.Elem "main" [] []
      [Bs4.Elem "img" []
         [("src", "http://y.org/a.png"); ("width", "3"); ("alt", "")] [];
       Bs4.Elem "img" []
         [("data-src", "b.png"); ("alt", "B"); ("src", "https://x.org/b.png")]
         [];
       Bs4.Elem "img" [] [("alt", "")] []] in
  Forall2
    (Tree.same_but_attrs
       (fun nm ats ats' =>
          nm = "img" ->
          Tree.alt_defaulted ats ats'
          /\ forall k, (k =? "src") = false -> (k =? "alt") = false ->
                       Bs4.lookup k ats' = Bs4.lookup k ats))
    (Bs4.tokens content) (Bs4.tokens content').
Proof.
  cbv zeta.
  exact (@image_alt_defaulted (fun _ => true) (fun _ => true)
           (Bs4.Elem "main" [] []
              [Bs4.Elem "img" []
                 [("src", "http://y.org/a.png"); ("width", "3")] [];
               Bs4.Elem "img" [] [("data-src", "b.png"); ("alt", "B")] [];
               Bs4.Elem "img" [] [("alt", "")] []])
           (Bs4.Elem "main" [] []
              [Bs4.Elem "img" []
                 [("src", "http://y.org/a.png"); ("width", "3"); ("alt", "")]
                 [];
               Bs4.Elem "img" []
                 [("data-src", "b.png"); ("alt", "B");
                  ("src", "https://x.org/b.png")] [];
               Bs4.Elem "img" [] [("alt", "")] []])
           "https://x.org" eq_refl).
Defined.

(* ================================================================== *)
(** * What the loops of the blog parser leave *)
(* ================================================================== *)

Section NothingLeft.
Import Bs4 Tree.

Variable lines_before lines_after : nat -> list node.

(** The nodes below a rewritten tree: a kept tag rewritten in turn, or
    something inside what was put for a replaced tag. *)
Lemma descendants_rewrite f n e :
  In e (descendants (rewrite f n)) ->
  (exists d, In d (descendants n) /\ f d = None /\ e = rewrite f d)
  \/ (exists d l x,
        In d (descendants n) /\ f d = Some l /\ In x l
        /\ In e (x :: descendants x)).
Proof.
  induction n as [s|s|nm cl ats cs IH] using node_induction;
    [intros []|intros []|].
  simpl rewrite; rewrite !descendants_elem.
  intros He; apply in_flat_map in He as (c' & Hc' & He).
  apply in_flat_map in Hc' as (c & Hc & Hc').
  rewrite Forall_forall in IH.
  assert (Hsub : forall d, In d (c :: descendants c) ->
                   In d (flat_map (fun c0 => c0 :: descendants c0) cs)).
  { intros d Hd; apply in_flat_map; exists c; auto. }
  destruct (f c) as [l|] eqn:Hf.
  - right; exists c, l, c'; repeat split; auto.
    apply Hsub; left; reflexivity.
  - destruct Hc' as [<-|[]].
    destruct He as [<-|He].
    + left; exists c; repeat split; auto.
      apply Hsub; left; reflexivity.
    + destruct (IH c Hc He) as [(d & Hd & Hfd & ->)|(d & l & x & Hd & Hfd & Hx & Hex)].
      * left; exists d; repeat split; auto.
        apply Hsub; right; exact Hd.
      * right; exists d, l, x; repeat split; auto.
        apply Hsub; right; exact Hd.
Qed.

Lemma find_all_nil q n :
  find_all q n = [] <-> forall d, In d (descendants n) -> q d = false.
Proof.
  unfold find_all; split.
  - intros H d Hd; destruct (q d) eqn:Hq; [|reflexivity].
    assert (Hin : In d (filter q (descendants n)))
      by (apply filter_In; auto).
    rewrite H in Hin; destruct Hin.
  - intros H; apply filter_nil, Forall_forall, H.
Qed.

Lemma plain_inside x e :
  plain x = true -> In e (x :: descendants x) ->
  is_tag_in converted_names e = false.
Proof.
  unfold plain; rewrite forallb_forall; intros H He.
  apply negb_true_iff, H, He.
Qed.

(** A test that holds of converted tags only. *)
#[local] Abbreviation named q :=
  (forall e : node, q e = true -> is_tag_in converted_names e = true).

(** After a pass no tag passes a test the pass cannot make true, when the
    pass replaces every tag that passed it, the replacements being plain. *)
Lemma rewrite_none f q n :
  stable f q -> inserts_plain f -> named q ->
  (forall d, In d (descendants n) -> f d = None -> q d = false) ->
  find_all q (rewrite f n) = [].
Proof.
  intros Hst Hins Hq Hn; apply find_all_nil; intros e He.
  destruct (q e) eqn:Hqe; [|reflexivity].
  apply descendants_rewrite in He
    as [(d & Hd & Hfd & ->)|(d & l & x & Hd & Hfd & Hx & Hex)].
  - rewrite <- (Hn d Hd Hfd); symmetry; apply Hst; assumption.
  - rewrite <- (plain_inside (Hins d l x Hfd Hx) Hex).
    symmetry; apply Hq, Hqe.
Qed.

Lemma passes_none q ps n :
  named q ->
  Forall (fun f => stable f q /\ inserts_plain f) ps ->
  find_all q n = []
  \/ Exists (fun f => forall d, f d = None -> q d = false) ps ->
  find_all q (fold_left (fun c f => rewrite f c) ps n) = [].
Proof.
  intros Hq Hps; revert n.
  induction Hps as [|f ps [Hst Hins] _ IH]; intros n Hn; simpl.
  - destruct Hn as [Hn|Hn]; [exact Hn|inversion Hn].
  - apply IH.
    destruct Hn as [Hn|Hn].
    + left; apply rewrite_none; auto.
      intros d Hd _; revert d Hd; apply find_all_nil, Hn.
    + inversion Hn as [? ? Hf|? ? Hex]; subst.
      * left; apply rewrite_none; auto.
      * right; exact Hex.
Qed.

Lemma shallow_rewrite f q d : shallow q -> q (rewrite f d) = q d.
Proof.
  intros Hq; destruct d as [s|s|nm cl ats cs]; [reflexivity|reflexivity|].
  apply Hq.
Qed.

Lemma stable_shallow f q : shallow q -> stable f q.
Proof.
  intros Hq d _; rewrite (shallow_rewrite f d Hq); auto.
Qed.

Lemma stable_pre_with_code f : inserts_plain f -> stable f pre_with_code.
Proof.
  intros Hins d _; unfold pre_with_code.
  rewrite (shallow_rewrite f d (shallow_is_tag "pre")).
  destruct (is_tag "pre" d); [simpl|discriminate].
  unfold find.
  destruct (List.find (is_tag "code") (descendants (rewrite f d)))
    as [e|] eqn:He; [intros _|discriminate].
  apply find_some in He as [He Hcode].
  destruct (List.find (is_tag "code") (descendants d)) as [c|] eqn:Hc;
    [reflexivity|exfalso].
  apply descendants_rewrite in He
    as [(d' & Hd' & Hfd & ->)|(d' & l & x & Hd' & Hfd & Hx & Hex)].
  - rewrite (shallow_rewrite f d' (shallow_is_tag "code")) in Hcode.
    pose proof (find_none _ _ Hc d' Hd') as H; congruence.
  - pose proof (plain_inside (Hins d' l x Hfd Hx) Hex) as H.
    destruct e as [s|s|nm cl ats cs]; [discriminate|discriminate|].
    simpl in Hcode; apply String.eqb_eq in Hcode; subst nm.
    discriminate.
Qed.

Hypothesis plain_before : forallb plain (lines_before 1) = true.
Hypothesis plain_after : forallb plain (lines_after 1) = true.

Lemma spaced_plain text x :
  In x (LMSYSParser.spaced lines_before lines_after text) -> plain x = true.
Proof.
  unfold LMSYSParser.spaced; intros Hx.
  apply in_app_or in Hx as [Hx|Hx].
  - rewrite forallb_forall in plain_before; auto.
  - apply in_app_or in Hx as [[<-|[]]|Hx]; [reflexivity|].
    rewrite forallb_forall in plain_after; auto.
Qed.

Lemma passes_insert_plain :
  Forall inserts_plain (passes lines_before lines_after).
Proof.
  unfold passes; repeat constructor; intros d l x.
  - destruct (is_tag "style" d); [|discriminate].
    intros H; injection H as <-; intros [].
  - destruct (is_tag "script" d); [|discriminate].
    intros H; injection H as <-; intros [].
  - unfold LMSYSParser.replace_pre.
    destruct (is_tag "pre" d); [|discriminate].
    destruct (find (is_tag "code") d); [|discriminate].
    intros H; injection H as <-; apply spaced_plain.
  - unfold LMSYSParser.replace_img.
    destruct (is_tag "img" d); [|discriminate].
    destruct (get "src" d); [|discriminate].
    intros H; injection H as <-; apply spaced_plain.
  - unfold LMSYSParser.replace_a.
    destruct (is_tag "a" d); [|discriminate].
    destruct (get "href" d); [|discriminate].
    intros H; injection H as <-; intros [<-|[]]; reflexivity.
  - unfold LMSYSParser.replace_header.
    destruct (is_tag_in LMSYSParser.headers d); [|discriminate].
    intros H; injection H as <-; apply spaced_plain.
  - unfold LMSYSParser.replace_blockquote.
    destruct (is_tag "blockquote" d); [|discriminate].
    intros H; injection H as <-; apply spaced_plain.
  - unfold LMSYSParser.replace_ul.
    destruct (is_tag "ul" d); [|discriminate].
    intros H; injection H as <-; apply spaced_plain.
  - unfold LMSYSParser.replace_ol.
    destruct (is_tag "ol" d); [|discriminate].
    intros H; injection H as <-; apply spaced_plain.
Qed.

Lemma transform_passes content :
  LMSYSParser.transform lines_before lines_after content
  = fold_left (fun c f => rewrite f c) (passes lines_before lines_after)
      content.
Proof. reflexivity. Qed.

Lemma transform_none q content :
  named q ->
  (shallow q \/ q = pre_with_code) ->
  Exists (fun f => forall d, f d = None -> q d = false)
    (passes lines_before lines_after) ->
  find_all q (LMSYSParser.transform lines_before lines_after content) = [].
Proof.
  intros Hq Hkind Hex; rewrite transform_passes.
  apply passes_none; [exact Hq| |right; exact Hex].
  eapply Forall_impl; [|apply passes_insert_plain].
  intros f Hf; split; [|exact Hf].
  destruct Hkind as [Hsh| ->];
    [apply stable_shallow, Hsh|apply stable_pre_with_code, Hf].
Qed.

Lemma shallow_with_attr nm k :
  shallow (fun d => is_tag nm d && has_attr k d).
Proof.
  intros nm' cl ats cs cs'; reflexivity.
Qed.

(** X5.  When [insert_new_line] puts plain nodes only (no tag the loops
    convert), the region the blog parser hands to [decode_contents] holds
    nothing the loops convert: no [style], [script], heading, [blockquote],
    [ul] or [ol] tag, no [pre] that wraps a [code], no [img] with a [src]
    and no [a] with an [href]. *)
Theorem nothing_left_to_convert (content : node) :
  Forall
    (fun nm =>
       find_all (is_tag nm)
         (LMSYSParser.transform lines_before lines_after content) = [])
    ["style"; "script"; "h1"; "h2"; "h3"; "h4"; "h5"; "h6"; "blockquote";
     "ul"; "ol"]
  /\ find_all pre_with_code
       (LMSYSParser.transform lines_before lines_after content) = []
  /\ find_all (fun d => is_tag "img" d && has_attr "src" d)
       (LMSYSParser.transform lines_before lines_after content) = []
  /\ find_all (fun d => is_tag "a" d && has_attr "href" d)
       (LMSYSParser.transform lines_before lines_after content) = [].
Proof.
  assert (Hnm : forall nm, Url.among nm converted_names = true ->
                           named (is_tag nm)).
  { intros nm Hnm [s|s|nm' cl ats cs]; simpl; try discriminate.
    intros H; apply String.eqb_eq in H; subst nm'.
    exact Hnm. }
  assert (Hhd : forall nm d, Url.among nm LMSYSParser.headers = true ->
                  LMSYSParser.replace_header lines_before lines_after d = None ->
                  is_tag nm d = false).
  { intros nm d Hin; unfold LMSYSParser.replace_header.
    destruct (is_tag_in LMSYSParser.headers d) eqn:Hd; [discriminate|].
    intros _; destruct (is_tag nm d) eqn:Hnmd; [|reflexivity].
    destruct d as [s|s|nm' cl ats cs]; try discriminate.
    simpl in Hnmd; apply String.eqb_eq in Hnmd; subst nm'.
    change (Url.among nm LMSYSParser.headers = false) in Hd.
    congruence. }
  unfold passes; split; [|split; [|split]].
  - repeat constructor;
      (apply transform_none;
       [apply Hnm; reflexivity|left; apply shallow_is_tag|]).
    + apply Exists_cons_hd; intros d.
      destruct (is_tag "style" d); [discriminate|reflexivity].
    + apply Exists_cons_tl, Exists_cons_hd; intros d.
      destruct (is_tag "script" d); [discriminate|reflexivity].
    + do 5 apply Exists_cons_tl; apply Exists_cons_hd; intros d.
      apply Hhd; reflexivity.
    + do 5 apply Exists_cons_tl; apply Exists_cons_hd; intros d.
      apply Hhd; reflexivity.
    + do 5 apply Exists_cons_tl; apply Exists_cons_hd; intros d.
      apply Hhd; reflexivity.
    + do 5 apply Exists_cons_tl; apply Exists_cons_hd; intros d.
      apply Hhd; reflexivity.
    + do 5 apply Exists_cons_tl; apply Exists_cons_hd; intros d.
      apply Hhd; reflexivity.
    + do 5 apply Exists_cons_tl; apply Exists_cons_hd; intros d.
      apply Hhd; reflexivity.
    + do 6 apply Exists_cons_tl; apply Exists_cons_hd; intros d.
      unfold LMSYSParser.replace_blockquote.
      destruct (is_tag "blockquote" d); [discriminate|reflexivity].
    + do 7 apply Exists_cons_tl; apply Exists_cons_hd; intros d.
      unfold LMSYSParser.replace_ul.
      destruct (is_tag "ul" d); [discriminate|reflexivity].
    + do 8 apply Exists_cons_tl; apply Exists_cons_hd; intros d.
      unfold LMSYSParser.replace_ol.
      destruct (is_tag "ol" d); [discriminate|reflexivity].
  - apply transform_none; [|right; reflexivity|].
    + intros e He; unfold pre_with_code in He.
      apply andb_true_iff in He as [He _].
      apply (Hnm "pre" eq_refl), He.
    + do 2 apply Exists_cons_tl; apply Exists_cons_hd; intros d.
      unfold LMSYSParser.replace_pre, pre_with_code.
      destruct (is_tag "pre" d); [|reflexivity].
      destruct (find (is_tag "code") d); [discriminate|reflexivity].
  - apply transform_none; [|left; apply shallow_with_attr|].
    + intros e He; apply andb_true_iff in He as [He _].
      apply (Hnm "img" eq_refl), He.
    + do 3 apply Exists_cons_tl; apply Exists_cons_hd; intros d.
      unfold LMSYSParser.replace_img, has_attr.
      destruct (is_tag "img" d); [|reflexivity].
      destruct (get "src" d); [discriminate|reflexivity].
  - apply transform_none; [|left; apply shallow_with_attr|].
    + intros e He; apply andb_true_iff in He as [He _].
      apply (Hnm "a" eq_refl), He.
    + do 4 apply Exists_cons_tl; apply Exists_cons_hd; intros d.
      unfold LMSYSParser.replace_a, has_attr.
      destruct (is_tag "a" d); [|reflexivity].
      destruct (get "href" d); [discriminate|reflexivity].
Qed.

End NothingLeft.

Lemma nothing_left_to_convert_witness :
  let br := fun _ : nat => [Bs4.Elem "br" [] [] []] in
  let content :=
    Bs4.Elem "article" [] []
      [Bs4.Elem "h2" [] [] [Bs4.Text "Title"];
       Bs4.Elem "pre" [] []
         [Bs4.Elem "img" [] [("src", "a.png")] []];
       Bs4.Elem "ul" [] []
         [Bs4.Elem "li" [] []
            [Bs4.Elem "a" [] [("href", "/x")] [Bs4.Text "x"]]];
       Bs4.Elem "p" [] []
         [Bs4.Elem "a" [] [("name", "here")] [Bs4.Text "anchor"];
          Bs4.Elem "script" [] [] [Bs4.Special "f()"]]] in
  LMSYSParser.transform br br content
  = Bs4.Elem "article" [] []
      [Bs4.Elem "br" [] [] []; Bs4.Text "## Title"; Bs4.Elem "br" [] [] [];
       Bs4.Elem "pre" [] []
         [Bs4.Elem "br" [] [] []; Bs4.Text "![](a.png)";
          Bs4.Elem "br" [] [] []];
       Bs4.Elem "br" [] [] []; Bs4.Text ("- [x](/x)" ++ Py.nl);
       Bs4.Elem "br" [] [] [];
       Bs4.Elem "p" [] []
         [Bs4.Elem "a" [] [("name", "here")] [Bs4.Text "anchor"]]]
  /\ Bs4.find_all Tree.pre_with_code (LMSYSParser.transform br br content)
     = []
  /\ Bs4.find_all (fun d => Bs4.is_tag "a" d && Tree.has_attr "href" d)
       (LMSYSParser.transform br br content) = [].
Proof.
  cbv zeta; split; [reflexivity|].
  pose proof (@nothing_left_to_convert
                (fun _ : nat => [Bs4.Elem "br" [] [] []])
                (fun _ : nat => [Bs4.Elem "br" [] [] []])
                eq_refl eq_refl
                (Bs4.Elem "article" [] []
                   [Bs4.Elem "h2" [] [] [Bs4.Text "Title"];
                    Bs4.Elem "pre" [] []
                      [Bs4.Elem "img" [] [("src", "a.png")] []];
                    Bs4.Elem "ul" [] []
                      [Bs4.Elem "li" [] []
                         [Bs4.Elem "a" [] [("href", "/x")] [Bs4.Text "x"]]];
                    Bs4.Elem "p" [] []
                      [Bs4.Elem "a" [] [("name", "here")] [Bs4.Text "anchor"];
                       Bs4.Elem "script" [] [] [Bs4.Special "f()"]]]))
    as (_ & Hpre & _ & Ha).
  split; [exact Hpre|exact Ha].
Defined.

(* ================================================================== *)
(** * Related links *)
(* ================================================================== *)

Section RelatedLinks.
Import Bs4 Tree.

Variable check_bracketed_netloc : string -> bool.
Variable checknetloc_nfkc : string -> bool.
Variable list_of_set : list string -> list string.

#[local] Abbreviation related_link :=
  (DocsParser.related_link check_bracketed_netloc checknetloc_nfkc).
#[local] Abbreviation collect_links :=
  (DocsParser.collect_links check_bracketed_netloc checknetloc_nfkc).
#[local] Abbreviation nav_loop :=
  (DocsParser.nav_loop check_bracketed_netloc checknetloc_nfkc).
#[local] Abbreviation find_related_links :=
  (DocsParser.find_related_links check_bracketed_netloc checknetloc_nfkc
     list_of_set).
#[local] Abbreviation link_from :=
  (Tree.link_from check_bracketed_netloc checknetloc_nfkc).

Lemma value_eqb_eq (v w : Py.value) : Py.value_eqb v w = true -> v = w.
Proof.
  destruct v as [a|], w as [b|]; simpl; try discriminate; [|reflexivity].
  intros H; apply String.eqb_eq in H; congruence.
Qed.

Lemma related_link_from base a l :
  related_link base a = Ok l ->
  forall link, In link l -> link_from base a link.
Proof.
  unfold DocsParser.related_link, Tree.link_from.
  destruct (get "href" a) as [href|];
    [|intros H; injection H as <-; intros link []].
  destruct (Py.truthy href) eqn:Ht; simpl;
    [|intros H; injection H as <-; intros link []].
  destruct (Py.startswith href "#") eqn:Hf; simpl;
    [intros H; injection H as <-; intros link []|].
  destruct (Py.startswith href "javascript:") eqn:Hj; simpl;
    [intros H; injection H as <-; intros link []|].
  destruct (DocsParser.urljoin _ _ base href) as [full_url|e] eqn:Hu;
    simpl; [|discriminate].
  destruct (DocsParser.urlparse _ _ full_url "") as [p|e] eqn:Hp;
    simpl; [|discriminate].
  destruct (DocsParser.urlparse _ _ base "") as [b|e] eqn:Hb;
    simpl; [|discriminate].
  destruct (Py.value_eqb (Url.hostname p) (Url.hostname b)) eqn:Hh;
    [|intros H; injection H as <-; intros link []].
  intros H; injection H as <-; intros link [<-|[]].
  exists href, p, b; repeat split; auto.
  apply value_eqb_eq, Hh.
Qed.

Lemma collect_links_from base nav links0 links :
  collect_links base nav links0 = Ok links ->
  forall link, In link links ->
    In link links0 \/ exists a, In a nav /\ link_from base a link.
Proof.
  revert links0; induction nav as [|a nav IH]; intros links0; simpl.
  - intros H; injection H as <-; auto.
  - destruct (related_link base a) as [l|e] eqn:Hl; simpl; [|discriminate].
    intros H link Hin.
    destruct (IH _ H link Hin) as [H0|(a' & Ha' & Hfrom)].
    + apply in_app_or in H0 as [H0|H0]; [left; exact H0|].
      right; exists a; split; [left; reflexivity|].
      apply (related_link_from _ _ Hl), H0.
    + right; exists a'; split; [right; exact Ha'|exact Hfrom].
Qed.

Lemma nav_loop_from sels soup base links :
  nav_loop sels soup base [] = Ok links ->
  links = []
  \/ exists anc sel,
       In (anc, sel) sels
       /\ 1 < List.length (select anc sel soup)
       /\ forall link, In link links ->
            exists a, In a (select anc sel soup) /\ link_from base a link.
Proof.
  induction sels as [|[anc sel] sels IH]; simpl.
  - intros H; injection H as <-; auto.
  - destruct (1 <? List.length (select anc sel soup))%nat eqn:Hlen.
    + destruct (collect_links base (select anc sel soup) []) as [l|e] eqn:Hl;
        simpl; [|discriminate].
      destruct l as [|x l].
      * intros H; destruct (IH H) as [->|(anc' & sel' & Hin & Hrest)];
          [left; reflexivity|].
        right; exists anc', sel'; split; [right; exact Hin|exact Hrest].
      * intros H; injection H as <-; right; exists anc, sel.
        split; [left; reflexivity|].
        split; [apply Nat.ltb_lt, Hlen|].
        intros link Hin.
        destruct (collect_links_from _ _ _ Hl link Hin) as [[]|Ha]; exact Ha.
    + intros H; destruct (IH H) as [->|(anc' & sel' & Hin & Hrest)];
        [left; reflexivity|].
      right; exists anc', sel'; split; [right; exact Hin|exact Hrest].
Qed.

Lemma nav_loop_few sels soup base :
  Forall (fun s => List.length (select (fst s) (snd s) soup) <= 1) sels ->
  nav_loop sels soup base [] = Ok [].
Proof.
  induction 1 as [|[anc sel] sels Hs _ IH]; simpl; [reflexivity|].
  simpl in Hs; apply Nat.ltb_ge in Hs; rewrite Hs; exact IH.
Qed.

Lemma related_link_value_errors base a :
  value_errors (related_link base a).
Proof.
  unfold DocsParser.related_link.
  destruct (get "href" a) as [href|]; [|apply value_errors_ok].
  apply value_errors_if; [|apply value_errors_ok].
  apply value_errors_bind; [apply urljoin_value_errors|intros u].
  apply value_errors_bind; [apply urlparse_value_errors|intros p].
  apply value_errors_bind; [apply urlparse_value_errors|intros b].
  apply value_errors_if; apply value_errors_ok.
Qed.

Lemma collect_links_value_errors base nav links0 :
  value_errors (collect_links base nav links0).
Proof.
  revert links0; induction nav as [|a nav IH]; intros links0; simpl.
  - apply value_errors_ok.
  - apply value_errors_bind; [apply related_link_value_errors|intros l].
    apply IH.
Qed.

Lemma nav_loop_value_errors sels soup base links0 :
  value_errors (nav_loop sels soup base links0).
Proof.
  revert links0; induction sels as [|[anc sel] sels IH]; intros links0; simpl.
  - apply value_errors_ok.
  - apply value_errors_if; [|apply IH].
    apply value_errors_bind; [apply collect_links_value_errors|intros l].
    destruct l; [apply IH|apply value_errors_ok].
Qed.

Lemma find_related_links_value_errors soup base :
  value_errors (find_related_links soup base).
Proof.
  unfold DocsParser.find_related_links.
  apply value_errors_bind; [apply nav_loop_value_errors|intros l].
  apply value_errors_ok.
Qed.

(** What is assumed of [list(set(links))]: it has the members of
    [links]. *)
Hypothesis list_of_set_members :
  forall l x, In x (list_of_set l) <-> In x l.

Lemma list_of_set_nil : list_of_set [] = [].
Proof.
  destruct (list_of_set []) as [|x l] eqn:H; [reflexivity|].
  exfalso; apply (list_of_set_members [] x); rewrite H; left; reflexivity.
Qed.

(** X6.  Every link [find_related_links] returns stays on the host of the
    page: it is the [href] of an anchor, not empty and starting neither with
    [#] nor with [javascript:], joined to the address of the page by
    [urljoin], and its host name is that of the page address.  All the
    links of one call come from the anchors of one selector of the list,
    which found more than one anchor. *)
Theorem related_links_stay_on_host (soup : node) (base_url : string)
  (links : list string) :
  find_related_links soup base_url = Ok links ->
  links = []
  \/ exists anc sel,
       In (anc, sel) DocsParser.nav_selectors
       /\ 1 < List.length (select anc sel soup)
       /\ forall link, In link links ->
            exists a,
              In a (select anc sel soup) /\ link_from base_url a link.
Proof.
  unfold DocsParser.find_related_links.
  destruct (nav_loop DocsParser.nav_selectors soup base_url []) as [l|e] eqn:Hl;
    simpl; [|discriminate].
  intros H; injection H as <-.
  destruct (nav_loop_from _ _ _ Hl) as [->|(anc & sel & Hin & Hlen & Hfrom)].
  - left; apply list_of_set_nil.
  - right; exists anc, sel; repeat split; auto.
    intros link Hlink; apply Hfrom, list_of_set_members, Hlink.
Qed.

(** X7.  [find_related_links] raises nothing but the [ValueError] of
    [urllib.parse], and it takes no link from a navigation with a single
    anchor: on a page where every selector of the list finds at most one
    anchor the result is empty, whatever that anchor points to. *)
Theorem lone_anchor_ignored (soup : node) (base_url : string) :
  value_errors (find_related_links soup base_url)
  /\ (Forall (fun s => List.length (select (fst s) (snd s) soup) <= 1)
        DocsParser.nav_selectors ->
      find_related_links soup base_url = Ok []).
Proof.
  split; [apply find_related_links_value_errors|].
  intros Hfew; unfold DocsParser.find_related_links.
  rewrite (@nav_loop_few _ soup base_url Hfew); simpl.
  rewrite list_of_set_nil; reflexivity.
Qed.

End RelatedLinks.

Lemma related_links_stay_on_host_witness :
  let cb := fun _ : string => true in
  let soup :=
    Bs4.document
      [Bs4.Elem "html" [] []
         [Bs4.Elem "body" [] []
            [Bs4.Elem "div" ["sidebar"] []
               [Bs4.Elem "a" [] [("href", "/a")] [Bs4.Text "A"];
                Bs4.Elem "ul" [] []
                  [Bs4.Elem "a" [] [("href", "intro.html")] [Bs4.Text "I"]];
                Bs4.Elem "a" [] [("href", "#top")] [Bs4.Text "top"];
                Bs4.Elem "a" [] [("href", "/a")] [Bs4.Text "A again"];
                Bs4.Elem "a" [] [("href", "https://other.org/x")]
                  [Bs4.Text "away"]];
             Bs4.Elem "nav" [] []
               [Bs4.Elem "a" [] [("href", "/n1")] [Bs4.Text "n1"];
                Bs4.Elem "a" [] [("href", "/n2")] [Bs4.Text "n2"]]]]] in
  DocsParser.find_related_links cb cb (nodup string_dec) soup
    "https://x.org/docs/index.html"
  = Ok ["https://x.org/docs/intro.html"; "https://x.org/a"]
  /\ (["https://x.org/docs/intro.html"; "https://x.org/a"] = []
      \/ exists anc sel,
           In (anc, sel) DocsParser.nav_selectors
           /\ 1 < List.length (Bs4.select anc sel soup)
           /\ forall link,
                In link ["https://x.org/docs/intro.html"; "https://x.org/a"] ->
                exists a,
                  In a (Bs4.select anc sel soup)
                  /\ Tree.link_from cb cb "https://x.org/docs/index.html" a
                       link).
Proof.
  cbv zeta; split; [reflexivity|].
  exact (@related_links_stay_on_host (fun _ => true) (fun _ => true)
           (nodup string_dec) (nodup_In string_dec)
           (Bs4.document
              [Bs4.Elem "html" [] []
                 [Bs4.Elem "body" [] []
                    [Bs4.Elem "div" ["sidebar"] []
                       [Bs4.Elem "a" [] [("href", "/a")] [Bs4.Text "A"];
                        Bs4.Elem "ul" [] []
                          [Bs4.Elem "a" [] [("href", "intro.html")]
                             [Bs4.Text "I"]];
                        Bs4.Elem "a" [] [("href", "#top")] [Bs4.Text "top"];
                        Bs4.Elem "a" [] [("href", "/a")] [Bs4.Text "A again"];
                        Bs4.Elem "a" [] [("href", "https://other.org/x")]
                          [Bs4.Text "away"]];
                     Bs4.Elem "nav" [] []
                       [Bs4.Elem "a" [] [("href", "/n1")] [Bs4.Text "n1"];
                        Bs4.Elem "a" [] [("href", "/n2")] [Bs4.Text "n2"]]]]])
           "https://x.org/docs/index.html"
           ["https://x.org/docs/intro.html"; "https://x.org/a"] eq_refl).
Defined.

Lemma lone_anchor_ignored_witness :
  let cb := fun _ : string => true in
  let soup :=
    Bs4.document
      [Bs4.Elem "html" [] []
         [Bs4.Elem "body" [] []
            [Bs4.Elem "nav" [] []
               [Bs4.Elem "a" [] [("href", "/next.html")] [Bs4.Text "Next"]];
             Bs4.Elem "main" [] []
               [Bs4.Elem "a" [] [("href", "/other.html")] [Bs4.Text "o"]]]]] in
  DocsParser.find_related_links cb cb (nodup string_dec) soup
    "https://x.org/docs/index.html" = Ok [].
Proof.
  cbv zeta.
  apply (@lone_anchor_ignored (fun _ => true) (fun _ => true)
           (nodup string_dec) (nodup_In string_dec)).
  unfold DocsParser.nav_selectors.
  repeat constructor.
Defined.

(* ================================================================== *)
(** * The crawl of a documentation section *)
(* ================================================================== *)

Section Crawl.
Import Bs4 Tree.

Variable md : string -> string.
Variable decode_contents : node -> string.
Variable get_valid_filename : string -> string.
Variable check_bracketed_netloc : string -> bool.
Variable checknetloc_nfkc : string -> bool.
Variable list_of_set : list string -> list string.
Variable fetch_page : string -> option node.

#[local] Abbreviation save_page :=
  (DocsParser.save_page md decode_contents get_valid_filename
     check_bracketed_netloc checknetloc_nfkc).
#[local] Abbreviation saved_page :=
  (DocsParser.saved_page check_bracketed_netloc checknetloc_nfkc).
#[local] Abbreviation find_related_links :=
  (DocsParser.find_related_links check_bracketed_netloc checknetloc_nfkc
     list_of_set).
#[local] Abbreviation related_pages :=
  (DocsParser.related_pages md decode_contents get_valid_filename
     check_bracketed_netloc checknetloc_nfkc fetch_page).
#[local] Abbreviation download_section :=
  (DocsParser.download_section md decode_contents get_valid_filename
     check_bracketed_netloc checknetloc_nfkc list_of_set fetch_page).
#[local] Abbreviation judge_type :=
  (DocsParser.judge_type md decode_contents get_valid_filename
     check_bracketed_netloc checknetloc_nfkc list_of_set fetch_page).

(** The files of [st'] are those of [st] and at most [n] more. *)
#[local] Abbreviation at_most n st st' :=
  (exists new,
     DocsParser.files st' = (DocsParser.files st ++ new)%list
     /\ List.length new <= n).

Lemma at_most_refl n st : at_most n st st.
Proof.
  exists []; rewrite app_nil_r; split; [reflexivity|simpl; lia].
Qed.

Lemma at_most_trans n m st1 st2 st3 :
  at_most n st1 st2 -> at_most m st2 st3 -> at_most (n + m) st1 st3.
Proof.
  intros (new1 & H1 & L1) (new2 & H2 & L2).
  exists (new1 ++ new2)%list; rewrite H2, H1, app_assoc.
  split; [reflexivity|rewrite length_app; lia].
Qed.

Lemma at_most_le n m st st' : n <= m -> at_most n st st' -> at_most m st st'.
Proof.
  intros Hnm (new & H & L); exists new; split; [exact H|lia].
Qed.

Lemma wrote_at_most w st : at_most 1 st (DocsParser.wrote w st).
Proof.
  destruct w as [f|]; simpl.
  - exists [f]; auto.
  - apply (at_most_le (n := 0)); [lia|apply at_most_refl].
Qed.

Lemma visit_url_at_most url st : at_most 0 st (DocsParser.visit_url url st).
Proof.
  exists []; simpl; rewrite app_nil_r; split; [reflexivity|lia].
Qed.

Lemma visit_wrote_at_most url w st :
  at_most 1 st (DocsParser.wrote w (DocsParser.visit_url url st)).
Proof.
  destruct w as [f|]; simpl.
  - exists [f]; auto.
  - exists []; rewrite app_nil_r; auto.
Qed.

Lemma wrote_visit_at_most url w st :
  at_most 1 st (DocsParser.visit_url url (DocsParser.wrote w st)).
Proof.
  destruct w as [f|]; simpl.
  - exists [f]; auto.
  - exists []; rewrite app_nil_r; auto.
Qed.

Lemma related_pages_at_most links index st :
  at_most (List.length links) st (fst (related_pages links index st)).
Proof.
  revert index st; induction links as [|link links IH]; intros index st;
    simpl; [apply at_most_refl|].
  destruct (Url.among link (DocsParser.visited_urls st)).
  - eapply at_most_le; [|apply IH]; lia.
  - destruct (fetch_page link) as [link_soup|].
    + destruct (save_page link_soup link index) as [w|e]; simpl.
      * change (S (List.length links)) with (1 + List.length links).
        eapply at_most_trans; [|apply IH].
        apply visit_wrote_at_most.
      * eapply at_most_le; [|apply (visit_url_at_most link st)]; lia.
    + eapply at_most_le; [|apply IH]; lia.
Qed.

Lemma length_slice_to {A : Type} (k : Z) (l : list A) :
  (0 <= k)%Z -> List.length (Py.slice_to k l) <= Z.to_nat k.
Proof.
  intros Hk; unfold Py.slice_to.
  apply Z.leb_le in Hk; rewrite Hk.
  rewrite length_firstn; lia.
Qed.

Lemma download_section_at_most now url max_pages st :
  (1 <= max_pages)%Z ->
  at_most (Z.to_nat max_pages) st
    (fst (download_section now url max_pages st)).
Proof.
  intros Hmax; unfold DocsParser.download_section.
  destruct (fetch_page url) as [soup|]; simpl;
    [|apply at_most_refl].
  destruct (save_page soup url 0) as [w|e]; simpl;
    [|apply at_most_refl].
  destruct (bind (saved_page soup url) _) as [related_links|e]; simpl.
  - pose proof (related_pages_at_most
                  (Py.slice_to (max_pages - 1) related_links) 1
                  (DocsParser.visit_url url (DocsParser.wrote w st))) as H.
    destruct (related_pages _ 1 _) as [st' r]; simpl in H |- *.
    pose proof (@length_slice_to _ (max_pages - 1)%Z related_links) as Hlen.
    eapply at_most_le;
      [|eapply at_most_trans; [apply (wrote_at_most w st)|exact H]].
    lia.
  - eapply at_most_le; [|apply wrote_at_most]; lia.
Qed.

(** X8.  For [max_pages] of at least 1, a call of [judge_type] writes at
    most [max_pages] files, the start page among them, whatever the pages
    link to and whether or not the call ends in an exception; the files
    written before the call stay as they are. *)
Theorem page_limit_respected (now : nat) (target_link : string)
  (max_pages : Z) (st : DocsParser.crawl) :
  (1 <= max_pages)%Z ->
  exists new,
    DocsParser.files (fst (judge_type now target_link max_pages st))
    = (DocsParser.files st ++ new)%list
    /\ List.length new <= Z.to_nat max_pages.
Proof.
  intros Hmax; unfold DocsParser.judge_type.
  destruct (max_pages =? 1)%Z eqn:H1.
  - apply Z.eqb_eq in H1; subst max_pages.
    destruct (fetch_page target_link) as [soup|]; simpl;
      [|apply at_most_refl].
    destruct (DocsParser.download_single _ _ _ _ _ soup target_link)
      as [w|e]; simpl.
    + apply wrote_at_most.
    + apply at_most_refl.
  - pose proof (download_section_at_most now target_link st Hmax) as H.
    destruct (download_section now target_link max_pages st) as [st' r].
    exact H.
Qed.

Lemma slice_to_all_but_last {A : Type} (l : list A) :
  Py.slice_to (0 - 1) l = Py.slice_to (Z.of_nat (List.length l) - 1) l.
Proof.
  unfold Py.slice_to.
  destruct l as [|x l]; [reflexivity|].
  change (0 <=? 0 - 1)%Z with false; cbv iota.
  replace (0 <=? Z.of_nat (List.length (x :: l)) - 1)%Z with true
    by (symmetry; apply Z.leb_le; simpl List.length; lia).
  f_equal; simpl List.length; lia.
Qed.

(** X9.  [max_pages = 0] does not stop the crawl at the start page: the
    slice [related_links[:max_pages-1]] then drops the last related link
    only, and the call does what a call with [max_pages] equal to the number
    of related links does. *)
Theorem zero_pages_crawls_all_but_last (now : nat) (url : string)
  (st : DocsParser.crawl) (soup : node) (related_links : list string) :
  fetch_page url = Some soup ->
  (soup' <- saved_page soup url ;; find_related_links soup' url)
  = Ok related_links ->
  download_section now url 0 st
  = download_section now url (Z.of_nat (List.length related_links)) st
  /\ Py.slice_to (0 - 1) related_links = removelast related_links.
Proof.
  intros Hfetch Hrel; split.
  - unfold DocsParser.download_section; rewrite Hfetch.
    destruct (save_page soup url 0) as [w|e]; [|reflexivity].
    rewrite Hrel, slice_to_all_but_last; reflexivity.
  - unfold Py.slice_to; change (0 <=? 0 - 1)%Z with false; cbv iota.
    change (Z.to_nat (- (0 - 1))) with 1.
    rewrite removelast_firstn_len, Nat.sub_1_r; reflexivity.
Qed.

Lemma value_errors_raise {A : Type} (e : exn) :
  value_errors (Raise e : result A) <-> e = ValueError.
Proof.
  split.
  - intros H; apply H; reflexivity.
  - intros -> e' H; injection H as <-; reflexivity.
Qed.

Lemma save_page_value_errors soup url index :
  value_errors (save_page soup url index).
Proof.
  unfold DocsParser.save_page.
  destruct (DocsParser.extract_content soup url) as [soup' content].
  apply save_document_value_errors.
Qed.

Lemma saved_page_value_errors soup url :
  value_errors (saved_page soup url).
Proof.
  unfold DocsParser.saved_page.
  destruct (DocsParser.locate soup) as [content|]; [|apply value_errors_ok].
  apply value_errors_bind.
  - unfold DocsParser.base_url_of.
    apply value_errors_bind; [apply urlparse_value_errors|intros r].
    apply value_errors_ok.
  - intros base; apply value_errors_bind; [|intros; apply value_errors_ok].
    unfold DocsParser.preprocess_content.
    apply value_errors_bind.
    + apply update_all_value_errors, img_attrs_value_errors.
    + intros c; apply update_all_value_errors, a_attrs_value_errors.
Qed.

Lemma related_pages_value_errors links index st :
  value_errors (snd (related_pages links index st)).
Proof.
  revert index st; induction links as [|link links IH]; intros index st;
    simpl; [apply value_errors_ok|].
  destruct (Url.among link (DocsParser.visited_urls st)); [apply IH|].
  destruct (fetch_page link) as [link_soup|]; [|apply IH].
  pose proof (save_page_value_errors link_soup link index) as H.
  destruct (save_page link_soup link index) as [w|e]; simpl; [apply IH|].
  apply value_errors_raise; apply value_errors_raise in H; exact H.
Qed.

Lemma related_pages_visited links index st :
  incl (DocsParser.visited_urls st)
    (DocsParser.visited_urls (fst (related_pages links index st))).
Proof.
  assert (Hvisit : forall u s,
             incl (DocsParser.visited_urls s)
               (DocsParser.visited_urls (DocsParser.visit_url u s))).
  { intros u s x Hx; unfold DocsParser.visit_url; simpl.
    destruct (Url.among u (DocsParser.visited_urls s)); [exact Hx|].
    right; exact Hx. }
  assert (Hwrote : forall w s,
             DocsParser.visited_urls (DocsParser.wrote w s)
             = DocsParser.visited_urls s).
  { intros [f|] s; reflexivity. }
  revert index st; induction links as [|link links IH]; intros index st;
    simpl; [apply incl_refl|].
  destruct (Url.among link (DocsParser.visited_urls st)); [apply IH|].
  destruct (fetch_page link) as [link_soup|]; [|apply IH].
  destruct (save_page link_soup link index) as [w|e]; simpl.
  - eapply incl_tran; [apply (Hvisit link)|].
    rewrite <- (Hwrote w); apply IH.
  - apply Hvisit.
Qed.

(** The outcomes of [download_section] as it is embedded, the calls of
    [os] and [open] apart. *)
Lemma download_section_outcomes (now : nat) (url : string)
  (max_pages : Z) (st : DocsParser.crawl) :
  match download_section now url max_pages st with
  | (st', Raise e) =>
      e = ValueError /\ answered (fetch_page url) = true
      \/ e = Exception ("Failed to fetch page: " ++ url)
         /\ fetch_page url = None /\ st' = st
  | (st', Ok dir_name) =>
      dir_name = get_valid_filename ("docs_" ++ Py.str_of_nat now)
      /\ answered (fetch_page url) = true
      /\ In url (DocsParser.visited_urls st')
      /\ incl (DocsParser.visited_urls st) (DocsParser.visited_urls st')
  end.
Proof.
  unfold DocsParser.download_section.
  destruct (fetch_page url) as [soup|]; [|right; auto].
  pose proof (save_page_value_errors soup url 0) as Hsave.
  destruct (save_page soup url 0) as [w|e];
    [|left; split; [apply value_errors_raise in Hsave; exact Hsave|reflexivity]].
  assert (Hlinks : value_errors
            (soup' <- saved_page soup url ;; find_related_links soup' url)).
  { apply value_errors_bind; [apply saved_page_value_errors|intros s].
    apply find_related_links_value_errors. }
  destruct (bind (saved_page soup url) _) as [related_links|e];
    [|left; split;
      [apply value_errors_raise in Hlinks; exact Hlinks|reflexivity]].
  pose proof (related_pages_value_errors
                (Py.slice_to (max_pages - 1) related_links) 1
                (DocsParser.visit_url url (DocsParser.wrote w st))) as Hr.
  pose proof (related_pages_visited
                (Py.slice_to (max_pages - 1) related_links) 1
                (DocsParser.visit_url url (DocsParser.wrote w st))) as Hv.
  destruct (related_pages _ 1 _) as [st' r]; simpl in Hr, Hv.
  destruct r as [[]|e]; simpl;
    [|left; split; [apply value_errors_raise in Hr; exact Hr|reflexivity]].
  split; [reflexivity|split; [reflexivity|]].
  assert (Hst : forall x,
            In x (url :: DocsParser.visited_urls st) ->
            In x (DocsParser.visited_urls
                    (DocsParser.visit_url url (DocsParser.wrote w st)))).
  { intros x Hx; unfold DocsParser.visit_url; simpl.
    replace (DocsParser.visited_urls (DocsParser.wrote w st))
      with (DocsParser.visited_urls st) by (destruct w; reflexivity).
    destruct (Url.among url (DocsParser.visited_urls st)) eqn:Ham;
      [|exact Hx].
    destruct Hx as [<-|Hx]; [|exact Hx].
    unfold Url.among in Ham; apply existsb_exists in Ham as (y & Hy & Heq).
    apply String.eqb_eq in Heq; subst y; exact Hy. }
  split.
  - apply Hv, Hst; left; reflexivity.
  - intros x Hx; apply Hv, Hst; right; exact Hx.
Qed.

(** X10.  [download_section] gives up only for the start page.  When
    that page cannot be fetched it raises [Exception] with the text [Failed
    to fetch page:] and the address, having written and visited nothing,
    and that is the only way the call ends in an [Exception] of the
    parser's own.  A linked page that cannot be fetched is passed over: the
    loop goes on with the links that follow as if it were not in the list.
    When the call returns, it returns the name of the directory, the start
    address is among the visited ones, and no address visited before is
    forgotten. *)
Theorem only_the_start_page_is_fatal (now : nat) (url : string)
  (max_pages : Z) (st : DocsParser.crawl) :
  (fetch_page url = None ->
   download_section now url max_pages st
   = (st, Raise (Exception ("Failed to fetch page: " ++ url))))
  /\ (forall st' msg,
        download_section now url max_pages st = (st', Raise (Exception msg)) ->
        fetch_page url = None
        /\ msg = "Failed to fetch page: " ++ url
        /\ st' = st)
  /\ (forall link rest index st0,
        fetch_page link = None ->
        related_pages (link :: rest) index st0 = related_pages rest index st0)
  /\ (forall st' dir_name,
        download_section now url max_pages st = (st', Ok dir_name) ->
        dir_name = get_valid_filename ("docs_" ++ Py.str_of_nat now)
        /\ In url (DocsParser.visited_urls st')
        /\ incl (DocsParser.visited_urls st) (DocsParser.visited_urls st')).
Proof.
  pose proof (download_section_outcomes now url max_pages st) as H.
  split; [|split; [|split]].
  - intros Hfetch; unfold DocsParser.download_section; rewrite Hfetch.
    reflexivity.
  - intros st' msg Heq; rewrite Heq in H.
    destruct H as [[He _]|(He & Hfetch & Hst)]; [discriminate He|].
    injection He as ->; auto.
  - intros link rest index st0 Hfetch; simpl; rewrite Hfetch.
    destruct (Url.among link (DocsParser.visited_urls st0)); reflexivity.
  - intros st' dir_name Heq; rewrite Heq in H.
    destruct H as (Hdir & _ & Hin & Hincl); auto.
Qed.

End Crawl.

Lemma page_limit_respected_witness :
  List.map fst
    (DocsParser.files
       (fst (Sample.judge_type 7 "https://x.org/docs/" 2 Sample.fresh)))
  = ["Start.md"; "01_A.md"]
  /\ exists new,
       DocsParser.files
         (fst (Sample.judge_type 7 "https://x.org/docs/" 2 Sample.fresh))
       = (DocsParser.files Sample.fresh ++ new)%list
       /\ List.length new <= Z.to_nat 2.
Proof.
  split; [vm_compute; reflexivity|].
  apply (@page_limit_respected Sample.md Sample.decode_contents
           Sample.get_valid_filename Sample.check Sample.check
           Sample.list_of_set Sample.site 7 "https://x.org/docs/" 2%Z
           Sample.fresh).
  lia.
Defined.

Lemma zero_pages_crawls_all_but_last_witness :
  Sample.download_section 7 "https://x.org/docs/" 0 Sample.fresh
  = Sample.download_section 7 "https://x.org/docs/" 4 Sample.fresh
  /\ List.map fst
       (DocsParser.files
          (fst (Sample.download_section 7 "https://x.org/docs/" 0
                  Sample.fresh)))
     = ["Start.md"; "01_A.md"; "02_B.md"].
Proof.
  split; [|vm_compute; reflexivity].
  apply (@zero_pages_crawls_all_but_last Sample.md Sample.decode_contents
           Sample.get_valid_filename Sample.check Sample.check
           Sample.list_of_set Sample.site 7 "https://x.org/docs/"
           Sample.fresh
           (Sample.page "Start" ["a.html"; "b.html"; "c.html"; "/docs/"])
           ["https://x.org/docs/a.html"; "https://x.org/docs/b.html";
            "https://x.org/docs/c.html"; "https://x.org/docs/"]).
  - reflexivity.
  - vm_compute; reflexivity.
Defined.

(* ================================================================== *)
(** * A by-line in the expected form is read back *)
(* ================================================================== *)

Section ByLine.
Import Bs4 Tree.

Lemma first_down_top {A : Type} (k : nat -> option A) (lo n : nat) (r : A) :
  lo <= n -> k n = Some r -> Re.first_down k lo n = Some r.
Proof.
  intros Hlo Hk; destruct n as [|n]; simpl.
  - replace (0 <? lo)%nat with false by (symmetry; apply Nat.ltb_ge; lia).
    rewrite Hk; reflexivity.
  - replace (S n <? lo)%nat with false by (symmetry; apply Nat.ltb_ge; lia).
    rewrite Hk; reflexivity.
Qed.

Lemma first_down_none {A : Type} (k : nat -> option A) (lo n : nat) :
  (forall j, j <= n -> k j = None) -> Re.first_down k lo n = None.
Proof.
  induction n as [|n IH]; intros Hk; simpl.
  - destruct (0 <? lo)%nat; [reflexivity|].
    rewrite (Hk 0) by lia; reflexivity.
  - destruct (S n <? lo)%nat; [reflexivity|].
    rewrite (Hk (S n)) by lia.
    apply IH; intros j Hj; apply Hk; lia.
Qed.

Lemma first_up_skip {A : Type} (k : nat -> option A) (n d count : nat) (r : A) :
  (forall i, i < d -> k (n + i) = None) ->
  k (n + d) = Some r -> d < count ->
  Re.first_up k n count = Some r.
Proof.
  revert n count; induction d as [|d IH]; intros n count Hnone Hk Hc.
  - destruct count as [|count]; [lia|].
    simpl; rewrite Nat.add_0_r in Hk; rewrite Hk; reflexivity.
  - destruct count as [|count]; [lia|].
    simpl.
    pose proof (Hnone 0 ltac:(lia)) as H0; rewrite Nat.add_0_r in H0.
    rewrite H0; apply IH.
    + intros i Hi; replace (S n + i) with (n + S i) by lia.
      apply Hnone; lia.
    + replace (S n + d) with (n + S d) by lia; exact Hk.
    + lia.
Qed.

Lemma run_length_app (cls : ascii -> bool) (chunk rest : string) :
  Py.all cls chunk = true ->
  Re.run_length cls None rest = 0 ->
  Re.run_length cls None (chunk ++ rest) = length chunk.
Proof.
  intros Hall Hrest; induction chunk as [|c chunk IH]; simpl; [exact Hrest|].
  simpl in Hall; apply andb_true_iff in Hall as [Hc Hall].
  rewrite Hc, (IH Hall); reflexivity.
Qed.

Lemma run_length_ge (cls : ascii -> bool) (chunk rest : string) :
  Py.all cls chunk = true ->
  length chunk <= Re.run_length cls None (chunk ++ rest).
Proof.
  intros Hall; induction chunk as [|c chunk IH]; simpl; [lia|].
  simpl in Hall; apply andb_true_iff in Hall as [Hc Hall].
  rewrite Hc; specialize (IH Hall); lia.
Qed.

Lemma run_length_exact (cls : ascii -> bool) (chunk rest : string) :
  Py.all cls chunk = true ->
  Re.run_length cls (Some (length chunk)) (chunk ++ rest) = length chunk.
Proof.
  intros Hall; induction chunk as [|c chunk IH]; simpl.
  - destruct rest; reflexivity.
  - simpl in Hall; apply andb_true_iff in Hall as [Hc Hall].
    rewrite Hc; simpl; rewrite (IH Hall); reflexivity.
Qed.

Lemma run_length_stop (cls : ascii -> bool) (c : ascii) (rest : string) :
  cls c = false -> Re.run_length cls None (String c rest) = 0.
Proof.
  intros Hc; simpl; rewrite Hc; reflexivity.
Qed.

(** A greedy repetition that takes all of [chunk] and goes on. *)
Lemma exec_greedy cls lo hi p chunk rest pos ms r :
  Re.run_length cls hi (chunk ++ rest) = length chunk ->
  lo <= length chunk ->
  Re.exec p rest (pos + length chunk) ms = Some r ->
  Re.exec (Re.Rep cls lo hi Re.Greedy :: p) (chunk ++ rest) pos ms = Some r.
Proof.
  intros Hrun Hlo Hr; cbn [Re.exec]; cbv zeta; rewrite Hrun.
  apply first_down_top; [exact Hlo|].
  rewrite drop_app_length; exact Hr.
Qed.

Lemma exec_lit c p rest pos ms r :
  Re.exec p rest (pos + 1) ms = Some r ->
  Re.exec (Re.lit c :: p) (String c rest) pos ms = Some r.
Proof.
  intros Hr; unfold Re.lit.
  apply (@exec_greedy (Ascii.eqb c) 1 (Some 1) p (String c "") rest pos ms r);
    [|simpl; lia|exact Hr].
  simpl; rewrite Ascii.eqb_refl; destruct rest; reflexivity.
Qed.

Lemma exec_lit_fails c d p rest pos ms :
  (d =? c)%char = false ->
  Re.exec (Re.lit c :: p) (String d rest) pos ms = None.
Proof.
  intros Hd; unfold Re.lit; cbn [Re.exec]; cbv zeta.
  simpl Re.run_length; rewrite Ascii.eqb_sym, Hd; reflexivity.
Qed.

Lemma exec_bol p s ms r :
  Re.exec p s 0 ms = Some r -> Re.exec (Re.Bol :: p) s 0 ms = Some r.
Proof. intros H; exact H. Qed.

Lemma exec_open g p s pos ms r :
  Re.exec p s pos (Re.Opened g pos :: ms) = Some r ->
  Re.exec (Re.Open g :: p) s pos ms = Some r.
Proof. intros H; exact H. Qed.

Lemma exec_close g p s pos ms r :
  Re.exec p s pos (Re.Closed g pos :: ms) = Some r ->
  Re.exec (Re.Close g :: p) s pos ms = Some r.
Proof. intros H; exact H. Qed.

Lemma exec_close_none g p s pos ms :
  Re.exec p s pos (Re.Closed g pos :: ms) = None ->
  Re.exec (Re.Close g :: p) s pos ms = None.
Proof. intros H; exact H. Qed.

(** A lazy repetition that has to take [j] characters. *)
Lemma exec_lazy cls lo p s pos ms j r :
  lo <= j -> j <= Re.run_length cls None s ->
  (forall i, lo <= i < j -> Re.exec p (Py.drop i s) (pos + i) ms = None) ->
  Re.exec p (Py.drop j s) (pos + j) ms = Some r ->
  Re.exec (Re.Rep cls lo None Re.Lazy :: p) s pos ms = Some r.
Proof.
  intros Hlo Hj Hnone Hr; cbn [Re.exec]; cbv zeta.
  apply first_up_skip with (d := j - lo).
  - intros i Hi; apply Hnone; lia.
  - replace (lo + (j - lo)) with j by lia; exact Hr.
  - lia.
Qed.

Lemma rstrip_tail c s :
  s <> "" -> Py.rstrip (String c s) = String c s -> Py.rstrip s = s.
Proof.
  intros Hs; simpl.
  destruct (Py.rstrip s) as [|d r] eqn:Hr.
  - destruct s as [|d s]; [congruence|].
    destruct (Py.isspace c); discriminate.
  - intros H; injection H as H; exact H.
Qed.

Lemma rstrip_single c : Py.rstrip (String c "") = String c "" ->
  Py.isspace c = false.
Proof.
  simpl; destruct (Py.isspace c); [discriminate|reflexivity].
Qed.

(** Inside a text without comma that does not end in white space, white
    space is never followed by a comma. *)
Lemma no_comma_after_space s1 tail j :
  s1 <> "" -> Py.rstrip s1 = s1 -> Py.mem "," s1 = false ->
  j <= Re.run_length Py.isspace None (s1 ++ tail) ->
  exists c r, Py.drop j (s1 ++ tail) = String c r /\ (c =? ",")%char = false.
Proof.
  revert j; induction s1 as [|c s1 IH]; intros j Hne Hr Hmem Hj;
    [congruence|].
  simpl in Hmem; apply orb_false_iff in Hmem as [Hc Hmem].
  destruct j as [|j].
  - exists c, (s1 ++ tail); split; [reflexivity|].
    rewrite Ascii.eqb_sym; exact Hc.
  - simpl in Hj.
    destruct (Py.isspace c) eqn:Hsp; [|lia].
    destruct s1 as [|d s1].
    + apply rstrip_single in Hr; congruence.
    + simpl Py.drop; apply IH; [discriminate| |exact Hmem|simpl in Hj |- *; lia].
      apply (@rstrip_tail c); [discriminate|exact Hr].
Qed.

Lemma comma_fails s1 tail p pos ms :
  s1 <> "" -> Py.rstrip s1 = s1 -> Py.mem "," s1 = false ->
  Re.exec (Re.Rep Py.isspace 0 None Re.Greedy :: Re.lit "," :: p)
    (s1 ++ tail) pos ms = None.
Proof.
  intros Hne Hr Hmem; cbn [Re.exec]; cbv zeta.
  apply first_down_none; intros j Hj.
  destruct (no_comma_after_space tail Hne Hr Hmem Hj) as (c & r & -> & Hc).
  apply exec_lit_fails, Hc.
Qed.

Lemma drop_app (i : nat) (a b : string) :
  i <= length a -> Py.drop i (a ++ b) = Py.drop i a ++ b.
Proof.
  revert i; induction a as [|c a IH]; intros i Hi.
  - simpl in Hi; assert (i = 0) by lia; subst i; destruct b; reflexivity.
  - destruct i as [|i]; [reflexivity|].
    simpl in Hi |- *; apply IH; lia.
Qed.

Lemma drop_nonempty (i : nat) (s : string) :
  i < length s -> Py.drop i s <> "".
Proof.
  revert i; induction s as [|c s IH]; intros i Hi; [simpl in Hi; lia|].
  destruct i as [|i]; [discriminate|].
  simpl in Hi |- *; apply IH; lia.
Qed.

Lemma rstrip_drop (i : nat) (s : string) :
  i < length s -> Py.rstrip s = s -> Py.rstrip (Py.drop i s) = Py.drop i s.
Proof.
  revert i; induction s as [|c s IH]; intros i Hi Hr; [simpl in Hi; lia|].
  destruct i as [|i]; [exact Hr|].
  simpl in Hi; simpl Py.drop; apply IH; [lia|].
  apply (@rstrip_tail c); [|exact Hr].
  destruct s; [simpl in Hi; lia|discriminate].
Qed.

Lemma mem_drop (c : ascii) (i : nat) (s : string) :
  Py.mem c s = false -> Py.mem c (Py.drop i s) = false.
Proof.
  revert i; induction s as [|d s IH]; intros i Hm;
    [destruct i; reflexivity|].
  destruct i as [|i]; [exact Hm|].
  simpl in Hm; apply orb_false_iff in Hm as [_ Hm].
  simpl; apply IH, Hm.
Qed.

Lemma mem_false_all (c : ascii) (s : string) :
  Py.mem c s = false ->
  Py.all (fun d => negb (d =? c)%char) s = true.
Proof.
  induction s as [|d s IH]; simpl; [reflexivity|].
  intros H; apply orb_false_iff in H as [Hd Hs].
  rewrite Ascii.eqb_sym, Hd, (IH Hs); reflexivity.
Qed.

Lemma lstrip_shorter (s : string) : length (Py.lstrip s) <= length s.
Proof.
  induction s as [|c s IH]; simpl; [lia|].
  destruct (Py.isspace c); simpl; lia.
Qed.

Lemma rstrip_shorter (s : string) : length (Py.rstrip s) <= length s.
Proof.
  induction s as [|c s IH]; simpl; [lia|].
  destruct (Py.rstrip s); [destruct (Py.isspace c)|]; simpl in *; lia.
Qed.

(** A text that [strip] leaves alone starts and ends with a character that
    is not white space. *)
Lemma strip_fixed (s : string) :
  Py.strip s = s -> s <> "" ->
  Py.rstrip s = s
  /\ exists c r, s = String c r /\ Py.isspace c = false.
Proof.
  unfold Py.strip; intros Hs Hne.
  destruct s as [|c r]; [congruence|].
  assert (Hc : Py.isspace c = false).
  { destruct (Py.isspace c) eqn:Hsp; [exfalso|reflexivity].
    apply (f_equal length) in Hs.
    pose proof (rstrip_shorter (Py.lstrip (String c r))) as H1.
    simpl in Hs, H1; rewrite Hsp in Hs, H1.
    pose proof (lstrip_shorter r); lia. }
  split; [|exists c, r; auto].
  simpl Py.lstrip in Hs; rewrite Hc in Hs; exact Hs.
Qed.

Lemma all_first (cls : ascii -> bool) (s : string) :
  Py.all cls s = true -> s <> "" ->
  exists c r, s = String c r /\ cls c = true.
Proof.
  destruct s as [|c r]; [congruence|].
  simpl; intros H _; apply andb_true_iff in H as [Hc _].
  exists c, r; auto.
Qed.

(** The pattern matches every text in the expected form, and its groups
    are the name and the date. *)
Lemma by_pattern_complete (ws1 name ws2 ws3 month ws4 day ws5 year rest : string) :
  Py.all Py.isspace ws1 = true ->
  name <> "" -> Py.strip name = name ->
  Py.mem "," name = false -> Py.mem Py.LF name = false ->
  Py.all Py.isspace ws2 = true ->
  Py.all Py.isspace ws3 = true ->
  month <> "" -> Py.all Py.isalpha_ascii month = true ->
  ws4 <> "" -> Py.all Py.isspace ws4 = true ->
  day <> "" -> Py.all Py.isdigit day = true ->
  Py.all Py.isspace ws5 = true ->
  Py.all Py.isdigit year = true -> length year = 4 ->
  let text := "by:" ++ ws1 ++ name ++ ws2 ++ "," ++ ws3
              ++ month ++ ws4 ++ day ++ "," ++ ws5 ++ year ++ rest in
  exists m,
    Re.match_ LMSYSParser.by_pattern text = Some m
    /\ Re.group text m 1 = name
    /\ Re.group text m 2 = month ++ ws4 ++ day ++ "," ++ ws5 ++ year.
Proof.
  intros Hws1 Hname Hstrip Hcomma Hlf Hws2 Hws3 Hmonth Hmonth' Hws4 Hws4'
    Hday Hday' Hws5 Hyear Hyear' text.
  destruct (strip_fixed Hstrip Hname) as (Hrstrip & n0 & nr & Hn & Hn0).
  destruct (@all_first _ _ Hmonth' Hmonth) as (m0 & mr & Hm & Hm0).
  destruct (@all_first _ _ Hws4' Hws4) as (w0 & wr & Hw & Hw0).
  destruct (@all_first _ _ Hday' Hday) as (d0 & dr & Hd & Hd0).
  assert (Hyne : year <> "") by (destruct year; [discriminate|discriminate]).
  destruct (@all_first _ _ Hyear Hyne) as (y0 & yr & Hy & Hy0).
  assert (Hw0' : Py.isalpha_ascii w0 = false).
  { destruct (Py.isalpha_ascii w0) eqn:H; [|reflexivity].
    apply isalpha_not_space in H; congruence. }
  eexists; split; [|split].
  - unfold Re.match_, LMSYSParser.by_pattern, text.
    change ("by:" ++ ?x) with (String "b" (String "y" (String ":" x))).
    apply exec_bol.
    do 3 apply exec_lit.
    apply exec_greedy; [|lia|].
    { apply run_length_app; [exact Hws1|].
      rewrite Hn; apply run_length_stop, Hn0. }
    apply exec_open.
    apply exec_lazy with (j := length name).
    + destruct name; [congruence|simpl; lia].
    + apply run_length_ge.
      apply mem_false_all in Hlf; exact Hlf.
    + intros i Hi; rewrite drop_app by lia.
      apply exec_close_none, comma_fails.
      * apply drop_nonempty; lia.
      * apply rstrip_drop; [lia|exact Hrstrip].
      * apply mem_drop, Hcomma.
    + rewrite drop_app_length; apply exec_close.
      apply exec_greedy; [|lia|].
      { apply run_length_app; [exact Hws2|].
        apply run_length_stop; reflexivity. }
      change ("," ++ ?x) with (String "," x).
      apply exec_lit.
      apply exec_greedy; [|lia|].
      { apply run_length_app; [exact Hws3|].
        rewrite Hm; apply run_length_stop.
        apply isalpha_not_space, Hm0. }
      apply exec_open.
      apply exec_greedy; [|destruct month; [congruence|simpl; lia]|].
      { apply run_length_app; [exact Hmonth'|].
        rewrite Hw; apply run_length_stop, Hw0'. }
      apply exec_greedy; [|destruct ws4; [congruence|simpl; lia]|].
      { apply run_length_app; [exact Hws4'|].
        rewrite Hd; apply run_length_stop.
        apply isdigit_not_space, Hd0. }
      apply exec_greedy; [|destruct day; [congruence|simpl; lia]|].
      { apply run_length_app; [exact Hday'|].
        apply run_length_stop; reflexivity. }
      change ("," ++ ?x) with (String "," x).
      apply exec_lit.
      apply exec_greedy; [|lia|].
      { apply run_length_app; [exact Hws5|].
        rewrite Hy; apply run_length_stop.
        apply isdigit_not_space, Hy0. }
      apply exec_greedy; [|lia|].
      { rewrite <- Hyear'; apply run_length_exact, Hyear. }
      apply exec_close; reflexivity.
  - unfold Re.group; cbn [Re.opened Re.closed Nat.eqb].
    apply slice with (pre := "by:" ++ ws1)
                     (post := ws2 ++ "," ++ ws3 ++ month ++ ws4 ++ day
                              ++ "," ++ ws5 ++ year ++ rest);
      unfold text;
      repeat rewrite ?append_assoc, ?length_append; simpl; try reflexivity;
      lia.
  - unfold Re.group; cbn [Re.opened Re.closed Nat.eqb].
    apply slice with (pre := "by:" ++ ws1 ++ name ++ ws2 ++ "," ++ ws3)
                     (post := rest);
      unfold text;
      repeat rewrite ?append_assoc, ?length_append; simpl;
      repeat rewrite ?append_assoc, ?length_append; simpl; try reflexivity;
      lia.
Qed.

End ByLine.

Section ByLineRead.
Import Bs4 Tree.

(** X11.  A first paragraph in the expected form is read back: when its
    stripped text is [by:], white space, a name, white space, a comma,
    white space, a month of letters, white space (at least one character),
    a day of digits, a comma, white space and four digits, followed by
    anything, where the name is not empty, holds neither a comma nor a line
    feed and neither starts nor ends with white space, then
    [extract_author_and_date] returns exactly that name as the author and
    the text from the month to the year as the date. *)
Theorem byline_read_back (content para : node)
  (ws1 name ws2 ws3 month ws4 day ws5 year rest : string) :
  find (is_tag "p") content = Some para ->
  get_text_strip para
  = "by:" ++ ws1 ++ name ++ ws2 ++ "," ++ ws3
    ++ month ++ ws4 ++ day ++ "," ++ ws5 ++ year ++ rest ->
  Py.all Py.isspace (ws1 ++ ws2 ++ ws3 ++ ws4 ++ ws5) = true ->
  name <> "" /\ Py.strip name = name
  /\ Py.mem "," name = false /\ Py.mem Py.LF name = false ->
  month <> "" /\ Py.all Py.isalpha_ascii month = true ->
  ws4 <> "" ->
  day <> "" /\ Py.all Py.isdigit day = true ->
  Py.all Py.isdigit year = true /\ length year = 4 ->
  fst (LMSYSParser.extract_author_and_date content)
  = (name, Some (month ++ ws4 ++ day ++ "," ++ ws5 ++ year)).
Proof.
  intros Hfind Htext Hws (Hname & Hstrip & Hcomma & Hlf) (Hmonth & Hmonth')
    Hws4 (Hday & Hday') (Hyear & Hyear').
  assert (Happ : forall a b, Py.all Py.isspace (a ++ b) = true ->
                   Py.all Py.isspace a = true /\ Py.all Py.isspace b = true).
  { intros a b; induction a as [|c a IH]; simpl; [auto|].
    intros H; apply andb_true_iff in H as [Hc H].
    destruct (IH H) as [Ha Hb]; rewrite Hc, Ha; auto. }
  apply Happ in Hws as [Hws1 Hws].
  apply Happ in Hws as [Hws2 Hws].
  apply Happ in Hws as [Hws3 Hws].
  apply Happ in Hws as [Hws4' Hws5].
  destruct (@by_pattern_complete ws1 name ws2 ws3 month ws4 day ws5 year rest)
    as (m & Hm & Hg1 & Hg2); auto.
  pose proof (extract_author_and_date_cases content) as H.
  rewrite Hfind in H; cbv zeta in H.
  rewrite Htext, Hm in H.
  destruct H as (content' & t1 & t2 & -> & _).
  cbn [fst]; rewrite Hg1, Hg2, Hstrip, strip_date; auto.
  destruct month; [congruence|simpl; lia].
Qed.

End ByLineRead.

Lemma byline_read_back_witness :
  let para := Bs4.Elem "p" [] [] [Bs4.Text " by: Jane Doe, Jan 26, 2026 "] in
  let content :=
    Bs4.Elem "article" [] []
      [Bs4.Elem "h1" [] [] [Bs4.Text "Title"]; para;
       Bs4.Elem "p" [] [] [Bs4.Text "Body"]] in
  fst (LMSYSParser.extract_author_and_date content)
  = ("Jane Doe", Some "Jan 26, 2026").
Proof.
  cbv zeta.
  apply (@byline_read_back
           (Bs4.Elem "article" [] []
              [Bs4.Elem "h1" [] [] [Bs4.Text "Title"];
               Bs4.Elem "p" [] [] [Bs4.Text " by: Jane Doe, Jan 26, 2026 "];
               Bs4.Elem "p" [] [] [Bs4.Text "Body"]])
           (Bs4.Elem "p" [] [] [Bs4.Text " by: Jane Doe, Jan 26, 2026 "])
           " " "Jane Doe" "" " " "Jan" " " "26" " " "2026" "").
  - reflexivity.
  - reflexivity.
  - reflexivity.
  - repeat split; discriminate.
  - split; [discriminate|reflexivity].
  - discriminate.
  - split; [discriminate|reflexivity].
  - split; reflexivity.
Defined.

(* ================================================================== *)
(** * Headings and unordered lists of the blog parser *)
(* ================================================================== *)

Section HeadingsAndBullets.
Import Bs4 Tree.

Variable lines_before lines_after : nat -> list node.

(** X12.  The Markdown level of a heading is its HTML level: a tag is
    taken for a heading exactly when its name is [h] and a digit from 1 to
    6, and the heading of level [k] the loop over the headings comes to
    gives way to the text made of [k] hash signs, a space and its stripped
    text. *)
Theorem heading_levels (header : node) :
  (is_tag_in LMSYSParser.headers header = true <->
   exists k, 1 <= k <= 6 /\ is_tag ("h" ++ Py.str_of_nat k) header = true)
  /\ (forall k, 1 <= k <= 6 ->
        is_tag ("h" ++ Py.str_of_nat k) header = true ->
        LMSYSParser.markdown_header header
        = Py.repeat_char "#" k ++ " " ++ get_text_strip header)
  /\ (forall region,
        reached (LMSYSParser.replace_header lines_before lines_after)
          region header ->
        is_tag_in LMSYSParser.headers header = true ->
        In (Text (LMSYSParser.markdown_header header))
          (descendants
             (LMSYSParser.headings lines_before lines_after region))).
Proof.
  assert (Hk : forall k, 1 <= k <= 6 ->
                 k = 1 \/ k = 2 \/ k = 3 \/ k = 4 \/ k = 5 \/ k = 6) by lia.
  split; [split|split].
  - unfold is_tag_in, LMSYSParser.headers; simpl.
    intros H.
    repeat (apply orb_true_iff in H as [H|H]);
      [exists 1|exists 2|exists 3|exists 4|exists 5|exists 6|discriminate];
      (split; [lia|exact H]).
  - intros (k & Hrange & H).
    destruct header as [s|s|nm cl ats cs]; [discriminate|discriminate|].
    simpl in H; apply String.eqb_eq in H; subst nm.
    destruct (Hk k Hrange) as [-> | [-> | [-> | [-> | [-> | ->]]]]];
      reflexivity.
  - intros k Hrange H.
    destruct header as [s|s|nm cl ats cs]; [discriminate|discriminate|].
    simpl in H; apply String.eqb_eq in H; subst nm.
    unfold LMSYSParser.markdown_header.
    destruct (Hk k Hrange) as [-> | [-> | [-> | [-> | [-> | ->]]]]];
      reflexivity.
  - intros region Hr Hh.
    unfold LMSYSParser.headings.
    eapply rewrite_reached; [exact Hr| |].
    + unfold LMSYSParser.replace_header; rewrite Hh; reflexivity.
    + unfold LMSYSParser.spaced; apply in_or_app; right; left; reflexivity.
Qed.

Lemma ul_loop_bulleted (items : list node) (acc : string) :
  LMSYSParser.ul_loop items acc
  = acc ++ String.concat "" (bulleted (List.map get_text_strip items)).
Proof.
  revert acc; induction items as [|li items IH]; intros acc.
  - simpl; rewrite append_nil_r; reflexivity.
  - cbn [LMSYSParser.ul_loop List.map bulleted].
    rewrite IH; unfold bulleted; rewrite concat_cons, !append_assoc.
    reflexivity.
Qed.

(** X13.  An unordered list the loop over the unordered lists comes to
    gives way to one line per direct [li] child, in document order: a dash,
    a space, the stripped text of the item and a line feed.  Only the
    direct [li] children count: what else stands directly in the list is
    dropped, and a list inside an item is flattened into the text of that
    item. *)
Theorem unordered_list_bullets (ul : node) :
  LMSYSParser.ul_markdown ul
  = String.concat ""
      (bulleted (List.map get_text_strip (find_children (is_tag "li") ul)))
  /\ (forall cl ats stray a inner,
        is_tag "li" stray = false ->
        LMSYSParser.ul_markdown
          (Elem "ul" cl ats
             [stray; Elem "li" [] [] [Text a; Elem "ul" [] [] inner]])
        = "- " ++ get_text_strip
                    (Elem "li" [] [] [Text a; Elem "ul" [] [] inner])
          ++ Py.nl)
  /\ (forall region,
        reached (LMSYSParser.replace_ul lines_before lines_after) region ul ->
        is_tag "ul" ul = true ->
        In (Text (LMSYSParser.ul_markdown ul))
          (descendants
             (LMSYSParser.unordered_lists lines_before lines_after region))).
Proof.
  split; [|split].
  - unfold LMSYSParser.ul_markdown; rewrite ul_loop_bulleted; reflexivity.
  - intros cl ats stray a inner Hstray.
    unfold LMSYSParser.ul_markdown, find_children.
    cbn [children_of filter]; rewrite Hstray.
    reflexivity.
  - intros region Hr Hul.
    unfold LMSYSParser.unordered_lists.
    eapply rewrite_reached; [exact Hr| |].
    + unfold LMSYSParser.replace_ul; rewrite Hul; reflexivity.
    + unfold LMSYSParser.spaced; apply in_or_app; right; left; reflexivity.
Qed.

End HeadingsAndBullets.

(* ================================================================== *)
(** * Which addresses count as documentation *)
(* ================================================================== *)

Section DocsUrl.
Import Bs4 Tree.

Variable check_bracketed_netloc : string -> bool.
Variable checknetloc_nfkc : string -> bool.

Lemma host_char_plain (c : ascii) :
  host_char c = true ->
  Url.unsafe_byte c = false
  /\ Py.mem c "/?#" = false
  /\ (nat_of_ascii c <? 128)%nat = true
  /\ Py.lower_char c = c
  /\ ("[" =? c)%char = false /\ ("]" =? c)%char = false
  /\ ("@" =? c)%char = false /\ (c =? ":")%char = false
  /\ (c =? "%")%char = false.
Proof.
  destruct c as [[] [] [] [] [] [] [] []]; intros H;
    try discriminate H; vm_compute; repeat split.
Qed.

Lemma path_char_plain (c : ascii) :
  path_char c = true ->
  Url.unsafe_byte c = false
  /\ ("#" =? c)%char = false /\ ("?" =? c)%char = false
  /\ (";" =? c)%char = false.
Proof.
  destruct c as [[] [] [] [] [] [] [] []]; intros H;
    try discriminate H; vm_compute; repeat split.
Qed.

Lemma all_impl (p q : ascii -> bool) (s : string) :
  (forall c, p c = true -> q c = true) ->
  Py.all p s = true -> Py.all q s = true.
Proof.
  intros Hpq; induction s as [|c s IH]; simpl; [reflexivity|].
  intros H; apply andb_true_iff in H as [Hc Hs].
  rewrite (Hpq c Hc), (IH Hs); reflexivity.
Qed.

Lemma remove_chars_app (p : ascii -> bool) (a b : string) :
  Url.remove_chars p (a ++ b) = Url.remove_chars p a ++ Url.remove_chars p b.
Proof.
  induction a as [|c a IH]; simpl; [reflexivity|].
  destruct (p c); simpl; rewrite IH; reflexivity.
Qed.

Lemma remove_chars_none (p : ascii -> bool) (s : string) :
  Py.all (fun c => negb (p c)) s = true -> Url.remove_chars p s = s.
Proof.
  induction s as [|c s IH]; simpl; [reflexivity|].
  intros H; apply andb_true_iff in H as [Hc Hs].
  apply negb_true_iff in Hc; rewrite Hc, (IH Hs); reflexivity.
Qed.

Lemma break_at_app (p : ascii -> bool) (a b : string) :
  Py.all (fun c => negb (p c)) a = true ->
  fst (Url.break_at p b) = "" ->
  Url.break_at p (a ++ b) = (a, b).
Proof.
  intros Ha Hb; induction a as [|c a IH]; simpl.
  - destruct b as [|c b]; [reflexivity|].
    simpl in Hb |- *; destruct (p c); [reflexivity|].
    destruct (Url.break_at p b); discriminate.
  - simpl in Ha; apply andb_true_iff in Ha as [Hc Ha].
    apply negb_true_iff in Hc; rewrite Hc, (IH Ha); reflexivity.
Qed.

Lemma mem_none (d : ascii) (s : string) :
  Py.all (fun c => negb (d =? c)%char) s = true -> Py.mem d s = false.
Proof.
  induction s as [|c s IH]; simpl; [reflexivity|].
  intros H; apply andb_true_iff in H as [Hc Hs].
  apply negb_true_iff in Hc; rewrite Hc, (IH Hs); reflexivity.
Qed.

Lemma before_none (d : ascii) (s : string) :
  Py.all (fun c => negb (c =? d)%char) s = true -> Py.before d s = s.
Proof.
  induction s as [|c s IH]; simpl; [reflexivity|].
  intros H; apply andb_true_iff in H as [Hc Hs].
  apply negb_true_iff in Hc; rewrite Hc, (IH Hs); reflexivity.
Qed.

Lemma after_last_none (d : ascii) (s : string) :
  Py.mem d s = false -> Url.after_last d s = s.
Proof.
  destruct s as [|c s]; [reflexivity|]; simpl.
  intros H; apply orb_false_iff in H as [Hc Hs].
  rewrite Hs, Ascii.eqb_sym, Hc; reflexivity.
Qed.

Lemma lower_fixed (s : string) :
  Py.all (fun c => (Py.lower_char c =? c)%char) s = true -> Py.lower s = s.
Proof.
  induction s as [|c s IH]; simpl; [reflexivity|].
  intros H; apply andb_true_iff in H as [Hc Hs].
  apply Ascii.eqb_eq in Hc; rewrite Hc, (IH Hs); reflexivity.
Qed.

Lemma drop_all (s : string) : Py.drop (length s) s = "".
Proof.
  induction s as [|c s IH]; [reflexivity|exact IH].
Qed.

(** [urlparse] on a plain address: the scheme, the host and the path as
    written, nothing else. *)
Lemma urlparse_plain (sch host path : string) :
  sch = "http" \/ sch = "https" ->
  host <> "" -> Py.all host_char host = true ->
  path = "" \/ Py.startswith path "/" = true ->
  Py.all path_char path = true ->
  exists r,
    Url.urlparse check_bracketed_netloc checknetloc_nfkc
      (sch ++ "://" ++ host ++ path) "" = Ok r
    /\ Url.scheme r = sch
    /\ Url.hostname r = Some host
    /\ Url.path r = path.
Proof.
  intros Hsch Hne Hhost Hpath Hchars.
  assert (Hh : forall q : ascii -> bool,
             (forall c, host_char c = true -> q c = true) ->
             Py.all q host = true).
  { intros q Hq; apply (all_impl host_char); assumption. }
  assert (Hp : forall q : ascii -> bool,
             (forall c, path_char c = true -> q c = true) ->
             Py.all q path = true).
  { intros q Hq; apply (all_impl path_char); assumption. }
  assert (Hunsafe : Url.remove_chars Url.unsafe_byte (host ++ path)
                    = host ++ path).
  { rewrite remove_chars_app, !remove_chars_none; [reflexivity| |].
    - apply Hp; intros c Hc; apply path_char_plain in Hc as (H & _).
      rewrite H; reflexivity.
    - apply Hh; intros c Hc; apply host_char_plain in Hc as (H & _).
      rewrite H; reflexivity. }
  assert (Hbreak : Url.break_at (fun c => Py.mem c "/?#") (host ++ path)
                   = (host, path)).
  { apply break_at_app.
    - apply Hh; intros c Hc; apply host_char_plain in Hc as (_ & H & _).
      rewrite H; reflexivity.
    - destruct Hpath as [->|Hpath]; [reflexivity|].
      destruct path as [|c path]; [reflexivity|].
      unfold Py.startswith in Hpath; cbn [prefix] in Hpath.
      destruct (Ascii.ascii_dec "/" c) as [<-|];
        [reflexivity|discriminate Hpath]. }
  assert (Hmem : forall d,
             (forall c, host_char c = true -> (d =? c)%char = false) ->
             Py.mem d host = false).
  { intros d Hd; apply mem_none, Hh.
    intros c Hc; rewrite (Hd c Hc); reflexivity. }
  assert (Hopen : Py.mem "[" host = false).
  { apply Hmem; intros c Hc; apply host_char_plain in Hc; tauto. }
  assert (Hclose : Py.mem "]" host = false).
  { apply Hmem; intros c Hc; apply host_char_plain in Hc; tauto. }
  assert (Hat : Py.mem "@" host = false).
  { apply Hmem; intros c Hc; apply host_char_plain in Hc; tauto. }
  assert (Hascii : Url.isascii host = true).
  { apply Hh; intros c Hc; apply host_char_plain in Hc; tauto. }
  assert (Hpmem : forall d,
             (forall c, path_char c = true -> (d =? c)%char = false) ->
             Py.mem d path = false).
  { intros d Hd; apply mem_none, Hp.
    intros c Hc; rewrite (Hd c Hc); reflexivity. }
  assert (Hfrag : Py.mem "#" path = false).
  { apply Hpmem; intros c Hc; apply path_char_plain in Hc; tauto. }
  assert (Hqry : Py.mem "?" path = false).
  { apply Hpmem; intros c Hc; apply path_char_plain in Hc; tauto. }
  assert (Hprm : Py.mem ";" path = false).
  { apply Hpmem; intros c Hc; apply path_char_plain in Hc; tauto. }
  assert (Hsplit : Url.urlsplit check_bracketed_netloc checknetloc_nfkc
                     (sch ++ "://" ++ host ++ path) ""
                   = Ok (Url.mkSplit sch host path "" "")).
  { unfold Url.urlsplit.
    destruct Hsch as [-> | ->].
    - change ("http" ++ "://" ++ host ++ path)
        with (String "h" (String "t" (String "t" (String "p" (String ":"
                (String "/" (String "/" (host ++ path)))))))).
      cbn [Url.lstrip_chars Url.rstrip_chars Url.remove_chars].
      change (Url.c0_or_space "h") with false; cbv iota.
      cbn [Url.remove_chars].
      change (Url.unsafe_byte "h") with false;
        change (Url.unsafe_byte "t") with false;
        change (Url.unsafe_byte "p") with false;
        change (Url.unsafe_byte ":") with false;
        change (Url.unsafe_byte "/") with false; cbv iota.
      rewrite Hunsafe.
      cbn [Py.before Py.mem Py.after Py.all Py.lower Py.take Py.drop
           Ascii.eqb Bool.eqb orb andb String.eqb].
      change (Py.isalpha_ascii "h") with true.
      change (Py.mem "h" Url.scheme_chars) with true.
      change (Py.mem "t" Url.scheme_chars) with true.
      change (Py.mem "p" Url.scheme_chars) with true.
      cbv iota; cbn [andb].
      change (Py.lower_char "h") with "h"%char.
      change (Py.lower_char "t") with "t"%char.
      change (Py.lower_char "p") with "p"%char.
      change ("//" =? "//") with true; cbv iota.
      change (Url.break_at _ (host ++ path))
        with (Url.break_at (fun c => Py.mem c "/?#") (host ++ path)).
      rewrite Hbreak; cbv beta iota zeta.
      rewrite Hopen, Hclose; cbn [andb orb negb]; cbv iota.
      rewrite Hfrag; cbv beta iota zeta.
      rewrite Hqry; cbv beta iota zeta.
      rewrite Hascii; cbn [negb]; rewrite andb_false_r; reflexivity.
    - change ("https" ++ "://" ++ host ++ path)
        with (String "h" (String "t" (String "t" (String "p" (String "s"
                (String ":" (String "/" (String "/" (host ++ path))))))))).
      cbn [Url.lstrip_chars Url.rstrip_chars Url.remove_chars].
      change (Url.c0_or_space "h") with false; cbv iota.
      cbn [Url.remove_chars].
      change (Url.unsafe_byte "h") with false;
        change (Url.unsafe_byte "t") with false;
        change (Url.unsafe_byte "p") with false;
        change (Url.unsafe_byte "s") with false;
        change (Url.unsafe_byte ":") with false;
        change (Url.unsafe_byte "/") with false; cbv iota.
      rewrite Hunsafe.
      cbn [Py.before Py.mem Py.after Py.all Py.lower Py.take Py.drop
           Ascii.eqb Bool.eqb orb andb String.eqb].
      change (Py.isalpha_ascii "h") with true.
      change (Py.mem "h" Url.scheme_chars) with true.
      change (Py.mem "t" Url.scheme_chars) with true.
      change (Py.mem "p" Url.scheme_chars) with true.
      change (Py.mem "s" Url.scheme_chars) with true.
      cbv iota; cbn [andb].
      change (Py.lower_char "h") with "h"%char.
      change (Py.lower_char "t") with "t"%char.
      change (Py.lower_char "p") with "p"%char.
      change (Py.lower_char "s") with "s"%char.
      change ("//" =? "//") with true; cbv iota.
      change (Url.break_at _ (host ++ path))
        with (Url.break_at (fun c => Py.mem c "/?#") (host ++ path)).
      rewrite Hbreak; cbv beta iota zeta.
      rewrite Hopen, Hclose; cbn [andb orb negb]; cbv iota.
      rewrite Hfrag; cbv beta iota zeta.
      rewrite Hqry; cbv beta iota zeta.
      rewrite Hascii; cbn [negb]; rewrite andb_false_r; reflexivity. }
  unfold Url.urlparse; rewrite Hsplit; cbn [bind Url.s_path Url.s_scheme
    Url.s_netloc Url.s_query Url.s_fragment].
  rewrite Hprm, andb_false_r.
  eexists; split; [reflexivity|].
  split; [reflexivity|split; [|reflexivity]].
  unfold Url.hostname; cbn [Url.netloc].
  rewrite (after_last_none _ _ Hat), Hopen.
  rewrite before_none.
  2:{ apply Hh; intros c Hc; apply host_char_plain in Hc.
      destruct Hc as (_ & _ & _ & _ & _ & _ & _ & H & _).
      rewrite H; reflexivity. }
  replace (Py.truthy host) with true
    by (destruct host; [congruence|reflexivity]).
  cbn [negb]; rewrite before_none.
  2:{ apply Hh; intros c Hc; apply host_char_plain in Hc.
      destruct Hc as (_ & _ & _ & _ & _ & _ & _ & _ & H).
      rewrite H; reflexivity. }
  rewrite lower_fixed, drop_all, append_nil_r; [reflexivity|].
  apply Hh; intros c Hc; apply host_char_plain in Hc.
  destruct Hc as (_ & _ & _ & H & _).
  rewrite H; apply Ascii.eqb_refl.
Qed.

(** X14.  For a plain address, scheme [http] or [https], a host of small
    letters, digits, dots and hyphens, and a path that is empty or starts
    with a slash and holds no query, fragment or parameter mark,
    [is_docs_url] answers without an exception, and it answers yes exactly
    when a known domain occurs somewhere inside the host name, or the path
    in lower case holds [/docs/] or starts with [/docs].  The host test is
    by substring and the path test ignores case. *)
Theorem docs_url_test (sch host path : string) :
  sch = "http" \/ sch = "https" ->
  host <> "" -> Py.all host_char host = true ->
  path = "" \/ Py.startswith path "/" = true ->
  Py.all path_char path = true ->
  DocsParser.is_docs_url check_bracketed_netloc checknetloc_nfkc
    (sch ++ "://" ++ host ++ path)
  = Ok (existsb (fun domain => Py.contains domain host)
          DocsParser.DOCS_DOMAINS
        || (Py.contains "/docs/" (Py.lower path)
            || Py.startswith (Py.lower path) "/docs")).
Proof.
  intros Hsch Hne Hhost Hpath Hchars.
  destruct (urlparse_plain Hsch Hne Hhost Hpath Hchars)
    as (r & Hr & _ & Hh & Hp).
  unfold DocsParser.is_docs_url, DocsParser.urlparse.
  rewrite Hr; cbn [bind]; rewrite Hh, Hp.
  replace (Py.or_str (Some host) "") with host
    by (destruct host; [congruence|reflexivity]).
  destruct (existsb _ DocsParser.DOCS_DOMAINS); [reflexivity|].
  destruct (Py.contains "/docs/" (Py.lower path)
            || Py.startswith (Py.lower path) "/docs"); reflexivity.
Qed.

End DocsUrl.

Lemma docs_url_test_witness :
  DocsParser.is_docs_url Sample.check Sample.check
    "https://pytorch.readthedocs.io/en/latest/" = Ok true
  /\ DocsParser.is_docs_url Sample.check Sample.check
       "http://example.org/Docs/intro.html" = Ok true
  /\ DocsParser.is_docs_url Sample.check Sample.check
       "https://example.org/api/docs" = Ok false.
Proof.
  split; [|split].
  - apply (@docs_url_test Sample.check Sample.check "https"
             "pytorch.readthedocs.io" "/en/latest/");
      [right; reflexivity|discriminate|reflexivity|right; reflexivity
      |reflexivity].
  - apply (@docs_url_test Sample.check Sample.check "http"
             "example.org" "/Docs/intro.html");
      [left; reflexivity|discriminate|reflexivity|right; reflexivity
      |reflexivity].
  - apply (@docs_url_test Sample.check Sample.check "https"
             "example.org" "/api/docs");
      [right; reflexivity|discriminate|reflexivity|right; reflexivity
      |reflexivity].
Defined.

(* ================================================================== *)
(** * Images and links of the blog parser *)
(* ================================================================== *)

Section ImagesAndLinks.
Import Bs4 Tree.

Variable lines_before lines_after : nat -> list node.

(** X15.  The blog parser keeps addresses as they are written.  An [img]
    with a [src] the loop over the images comes to gives way to the text
    of an exclamation mark, the alternative text in square brackets and
    the [src] in round brackets, a missing and an empty [alt] giving the
    same empty brackets; an [a] with an [href] the loop over the links
    comes to gives way to its stripped text in square brackets and the
    [href] in round brackets, and to nothing else, no line being put
    around it.  An [img] without [src] and an [a] without [href] stay. *)
Theorem addresses_kept_verbatim (region tag : node) :
  (forall img_url,
     is_tag "img" tag = true -> get "src" tag = Some img_url ->
     LMSYSParser.markdown_img img_url tag
     = "![" ++ Py.or_str (get "alt" tag) "" ++ "](" ++ img_url ++ ")"
     /\ (reached (LMSYSParser.replace_img lines_before lines_after)
           region tag ->
         In (Text (LMSYSParser.markdown_img img_url tag))
           (descendants (LMSYSParser.images lines_before lines_after region))))
  /\ (forall href,
        is_tag "a" tag = true -> get "href" tag = Some href ->
        LMSYSParser.replace_a tag
        = Some [Text ("[" ++ get_text_strip tag ++ "](" ++ href ++ ")")]
        /\ (reached LMSYSParser.replace_a region tag ->
            In (Text ("[" ++ get_text_strip tag ++ "](" ++ href ++ ")"))
              (descendants (LMSYSParser.links region))))
  /\ (get "src" tag = None ->
      LMSYSParser.replace_img lines_before lines_after tag = None)
  /\ (get "href" tag = None -> LMSYSParser.replace_a tag = None).
Proof.
  split; [|split; [|split]].
  - intros img_url Himg Hsrc; split.
    + unfold LMSYSParser.markdown_img, Py.or_str.
      destruct (get "alt" tag) as [alt|]; [|reflexivity].
      destruct (Py.truthy alt) eqn:Halt; [reflexivity|].
      unfold Py.truthy in Halt; apply negb_false_iff, String.eqb_eq in Halt.
      subst alt; reflexivity.
    + intros Hr; unfold LMSYSParser.images.
      eapply rewrite_reached; [exact Hr| |].
      * unfold LMSYSParser.replace_img; rewrite Himg, Hsrc; reflexivity.
      * unfold LMSYSParser.spaced; apply in_or_app; right; left; reflexivity.
  - intros href Ha Hhref.
    assert (H : LMSYSParser.replace_a tag
                = Some [Text ("[" ++ get_text_strip tag ++ "](" ++ href ++ ")")]).
    { unfold LMSYSParser.replace_a; rewrite Ha, Hhref; reflexivity. }
    split; [exact H|].
    intros Hr; unfold LMSYSParser.links.
    eapply rewrite_reached; [exact Hr|exact H|left; reflexivity].
  - intros Hsrc; unfold LMSYSParser.replace_img; rewrite Hsrc.
    destruct (is_tag "img" tag); reflexivity.
  - intros Hhref; unfold LMSYSParser.replace_a; rewrite Hhref.
    destruct (is_tag "a" tag); reflexivity.
Qed.

End ImagesAndLinks.
